(** * Tsunami: the scoring and signal-ranking pipeline

    A shallow embedding of the tech-momentum arbitrage engine
    (src/core/{schemas,config,utils}.py and src/modules/*.py) together
    with the properties its specification states about it.

    Conventions of the embedding.
    - A Python [float] is an exact rational [Q]; a Python [int] is a [Z].
      Float rounding is outside this model, except in module [Binary64]
      at the end, which re-runs the conviction arithmetic on IEEE-754
      binary64 values, the representation Python uses.
    - [datetime.now()] is an explicit argument [now]; a [datetime] is the
      number of microseconds since 0001-01-01T00:00:00 ([datetime.min]).
    - A [Dict[str, _]] is a [gmap string _]; dictionaries written as
      literals over the [Sector] enumeration are functions by cases.
    - A raised exception is the [Raise] case of [result]. *)

From Stdlib Require Import ZArith QArith Qround Qabs Qminmax Lqa Lia.
From Stdlib Require Import List String Ascii DecimalString.
From Stdlib Require Import Sorted Permutation Floats.
From stdpp Require Import base gmap strings.
Import ListNotations.

Local Open Scope Q_scope.

(** ** Python built-ins the code relies on *)

Module Py.

(** Comparisons of floats, as booleans. *)
Definition ltb (a b : Q) : bool := negb (Qle_bool b a).
Definition gtb (a b : Q) : bool := negb (Qle_bool a b).
Definition leb (a b : Q) : bool := Qle_bool a b.
Definition geb (a b : Q) : bool := Qle_bool b a.
Definition eqb (a b : Q) : bool := Qeq_bool a b.

(** [max(a, b)] keeps [a] unless [b > a]; [min(a, b)] keeps [a] unless
    [b < a]. *)
Definition max (a b : Q) : Q := if gtb b a then b else a.
Definition min (a b : Q) : Q := if ltb b a then b else a.

(** [round(x)] to an integer, ties to even. *)
Definition round_half_even (q : Q) : Z :=
  let f := Qfloor q in
  let r := q - inject_Z f in
  if ltb r (1 # 2) then f
  else if gtb r (1 # 2) then (f + 1)%Z
  else if Z.even f then f else (f + 1)%Z.

(** [round(x, 2)]. *)
Definition round2 (q : Q) : Q := inject_Z (round_half_even (q * 100)) / 100.

(** Decimal digits of a non-negative integer. *)
Definition digits (n : Z) : string := NilZero.string_of_uint (N.to_uint (Z.to_N n)).

Fixpoint zero_pad (width : nat) (s : string) : string :=
  match width with
  | O => s
  | S w => if (String.length s <? width)%nat then zero_pad w ("0" ++ s) else s
  end.

(** [format(q, ".{d}f")]. *)
Definition format_fixed (d : nat) (q : Q) : string :=
  let scale := (10 ^ Z.of_nat d)%Z in
  let n := round_half_even (Qabs q * inject_Z scale) in
  let sign := if ltb q 0 then "-"%string else ""%string in
  let whole := digits (n / scale) in
  match d with
  | O => sign ++ whole
  | _ => sign ++ whole ++ "." ++ zero_pad d (digits (n mod scale))
  end.

(** [datetime] and [timedelta] in microseconds. *)
Definition datetime := Z.
Definition datetime_min : datetime := 0%Z.
Definition timedelta (days : Z) : Z := (days * 86400000000)%Z.
(** [(a - b).days]: a timedelta's day count is rounded towards minus
    infinity. *)
Definition delta_days (a b : datetime) : Z := ((a - b) / 86400000000)%Z.

(** Year and month of a datetime in the proleptic Gregorian calendar. *)
Definition year_month (t : datetime) : Z * Z :=
  let z := (t / 86400000000 + 306)%Z in
  let era := (z / 146097)%Z in
  let doe := (z mod 146097)%Z in
  let yoe := ((doe - doe / 1460 + doe / 36524 - doe / 146096) / 365)%Z in
  let doy := (doe - (365 * yoe + yoe / 4 - yoe / 100))%Z in
  let mp := ((5 * doy + 2) / 153)%Z in
  let m := (if mp <? 10 then mp + 3 else mp - 9)%Z in
  let y := (yoe + era * 400 + (if m <=? 2 then 1 else 0))%Z in
  (y, m).

(** [t.strftime('%Y-%m')]. *)
Definition strftime_Ym (t : datetime) : string :=
  let '(y, m) := year_month t in
  zero_pad 4 (digits y) ++ "-" ++ zero_pad 2 (digits m).

(** [s.lower()] on the ASCII letters. *)
Definition ascii_lower (c : ascii) : ascii :=
  let n := nat_of_ascii c in
  if ((65 <=? n) && (n <=? 90))%nat then ascii_of_nat (n + 32) else c.

Fixpoint lower (s : string) : string :=
  match s with
  | EmptyString => EmptyString
  | String c r => String (ascii_lower c) (lower r)
  end.

(** [kw in s] for strings. *)
Fixpoint contains (kw s : string) : bool :=
  String.prefix kw s ||
  match s with
  | EmptyString => false
  | String _ r => contains kw r
  end.

(** [l.sort(key=key, reverse=True)]: the stable sort into descending key
    order, written as an insertion sort. An element goes in front of the
    first one whose key is not greater, hence in front of the elements
    that followed it in [l] with an equal key. *)
Fixpoint insert_desc {A} (key : A -> Q) (x : A) (l : list A) : list A :=
  match l with
  | [] => [x]
  | y :: ys => if leb (key y) (key x) then x :: l else y :: insert_desc key x ys
  end.

Definition sort_desc {A} (key : A -> Q) (l : list A) : list A :=
  fold_right (insert_desc key) [] l.

(** [max(l, key=key)] of a list with head [x]: the first element whose
    key is largest. *)
Definition max_by {A} (key : A -> Q) (x : A) (l : list A) : A :=
  fold_left (fun best y => if gtb (key y) (key best) then y else best) l x.

(** Exceptions. *)
Inductive exn : Set := IndexError | TypeError.

Inductive result (A : Type) : Type :=
| Ok (a : A)
| Raise (e : exn).
Arguments Ok {A} a.
Arguments Raise {A} e.

Definition bind {A B} (r : result A) (k : A -> result B) : result B :=
  match r with
  | Ok a => k a
  | Raise e => Raise e
  end.

(** [l[i]] for [0 <= i]. *)
Definition index {A} (l : list A) (i : nat) : result A :=
  match l !! i with
  | Some a => Ok a
  | None => Raise IndexError
  end.

(** [s.upper()] on the ASCII letters. *)
Definition ascii_upper (c : ascii) : ascii :=
  let n := nat_of_ascii c in
  if ((97 <=? n) && (n <=? 122))%nat then ascii_of_nat (n - 32) else c.

Fixpoint upper (s : string) : string :=
  match s with
  | EmptyString => EmptyString
  | String c r => String (ascii_upper c) (upper r)
  end.

(** [str(n)] for an int. *)
Definition str_of_int (n : Z) : string :=
  if (n <? 0)%Z then "-" ++ digits (- n) else digits n.

(** [l[start:]] and [l[:stop]] for any int: a negative index counts from
    the end, and both are clipped to the list. *)
Definition slice_index {A} (l : list A) (i : Z) : nat :=
  let len := Z.of_nat (length l) in
  Z.to_nat (if (i <? 0)%Z then Z.max 0 (len + i) else Z.min i len).

Definition slice_from {A} (l : list A) (start : Z) : list A :=
  drop (slice_index l start) l.

Definition slice_to {A} (l : list A) (stop : Z) : list A :=
  take (slice_index l stop) l.

(** [sum(l)] of floats. *)
Definition sum (l : list Q) : Q := fold_left Qplus l 0.

(** [l.sort(key=key)] with datetime keys: the stable sort into ascending
    order. *)
Fixpoint insert_asc {A} (key : A -> Z) (x : A) (l : list A) : list A :=
  match l with
  | [] => [x]
  | y :: ys => if (key x <=? key y)%Z then x :: l else y :: insert_asc key x ys
  end.

Definition sort_asc {A} (key : A -> Z) (l : list A) : list A :=
  fold_right (insert_asc key) [] l.

(** [max(l, key=key)] with datetime keys, for a list with head [x]. *)
Definition max_by_date {A} (key : A -> Z) (x : A) (l : list A) : A :=
  fold_left (fun best y => if (key best <? key y)%Z then y else best) l x.

(** Exceptions beyond those of [exn], and results that may carry them. *)
Inductive error : Set :=
| ZeroDivisionError
| KeyError
| Earlier (e : exn).

Inductive outcome (A : Type) : Type :=
| Return (a : A)
| Throw (e : error).
Arguments Return {A} a.
Arguments Throw {A} e.

End Py.

Notation "'letr' x := r 'in' k" := (Py.bind r (fun x => k))
  (at level 10, x name, r at level 100, k at level 200).

(** ** src/core/schemas.py *)

Inductive Sector : Set :=
| AI_INFRA | DATA_INFRA | SEMICONDUCTORS | CYBERSECURITY
| QUANTUM | SIX_G | GREEN_ENERGY | BIOTECH_INFRA.

(** [sector.value] *)
Definition Sector_value (s : Sector) : string :=
  match s with
  | AI_INFRA => "AI_Infra"
  | DATA_INFRA => "Data_Infra"
  | SEMICONDUCTORS => "Semiconductors"
  | CYBERSECURITY => "Cybersecurity"
  | QUANTUM => "Quantum"
  | SIX_G => "6G"
  | GREEN_ENERGY => "Green_Energy"
  | BIOTECH_INFRA => "Biotech_Infra"
  end.

Inductive WaveCategory : Set := WAVE_1 | WAVE_2 | WAVE_3 | WAVE_4.

Inductive DivergenceFlag : Set :=
| CONFIRMED_MOMENTUM | MISPRICED_OPPORTUNITY | BUBBLE_RISK | NO_SIGNAL.

Inductive TradeRecommendation : Set :=
| STRONG_BUY | BUY | HOLD | SELL | SHORT | FADE.

Module FundingRound.
Record t : Type := mk {
  date : Py.datetime;
  amount : Q;
  lead_investor : string;
  valuation : option Q;
  round_type : string;
}.
End FundingRound.

Module PatentGrant.
Record t : Type := mk {
  grant_date : Py.datetime;
  patent_id : string;
  title : string;
  citation_count : Z;
  technology_cluster : string;
  forward_citations : Z;
}.
End PatentGrant.

Module ExecutiveHire.
Record t : Type := mk {
  date : Py.datetime;
  role : string;
  name : string;
  previous_company : string;
  is_ipo_signal : bool;
}.
End ExecutiveHire.

Module PublicProxy.
Record t : Type := mk {
  ticker : string;
  exposure_type : string;
  correlation_score : Q;
  revenue_exposure_pct : option Q;
}.
End PublicProxy.

Module Company.
Record t : Type := mk {
  company_id : string;
  name : string;
  sector : Sector;
  wave_category : WaveCategory;
  bottleneck_solved : string;
  funding_rounds : list FundingRound.t;
  total_funding : Q;
  last_valuation : option Q;
  patent_grants : list PatentGrant.t;
  patent_count : Z;
  executive_hires : list ExecutiveHire.t;
  employee_count : Z;
  engineer_pct : Q;
  faang_talent_pct : Q;
  public_proxies : list PublicProxy.t;
  fortune_500_customers : Z;
  estimated_arr : option Q;
  ipo_probability_6mo : Q;
  ipo_probability_12mo : Q;
  expected_ipo_date : option Py.datetime;
  founded_date : Py.datetime;
  headquarters : string;
  website : string;
  last_updated : Py.datetime;
}.
End Company.

Module MomentumScore.
Record t : Type := mk {
  company_id : string;
  company_name : string;
  media_velocity : Q;
  social_signal : Q;
  vc_buzz : Q;
  conference_presence : Q;
  search_trends : Q;
  hype_score : Q;
  revenue_indicators : Q;
  customer_logos : Q;
  patent_velocity : Q;
  talent_density : Q;
  product_milestones : Q;
  build_score : Q;
  momentum_score : Q;
  momentum_change_7d : Q;
  momentum_change_30d : Q;
  divergence_flag : DivergenceFlag;
  timestamp : Py.datetime;
}.
End MomentumScore.

Module MoatScore.
Record t : Type := mk {
  company_id : string;
  company_name : string;
  regulatory_moat : Q;
  network_effects : Q;
  capital_intensity : Q;
  data_moat : Q;
  switching_costs : Q;
  total_moat_score : Q;
  wave_potential : WaveCategory;
  durability_rating : string;
  timestamp : Py.datetime;
}.
End MoatScore.

Module Catalyst.
Record t : Type := mk {
  catalyst_type : string;
  estimated_date : Py.datetime;
  confidence : Q;
  probability_6mo : Q;
  probability_12mo : Q;
  leading_indicators : list string;
  risk_factors : list string;
}.
End Catalyst.

Module SecondOrderPlay.
Record t : Type := mk {
  primary_technology : string;
  primary_momentum_score : Q;
  supplier_company : string;
  supplier_ticker : option string;
  exposure_type : string;
  dependency_score : Q;
  price_correlation : Q;
  thesis : string;
  entry_timing : string;
  risk_adjusted_return : string;
  timestamp : Py.datetime;
}.
End SecondOrderPlay.

Module TradeSignal.
Record t : Type := mk {
  rank : Z;
  company : string;
  company_id : string;
  sector : Sector;
  momentum_score : Q;
  momentum_change_7d : Q;
  hype_score : Q;
  build_score : Q;
  moat_score : Q;
  public_proxy : option string;
  pre_ipo_access : option string;
  synthetic_exposure : option string;
  recommendation : TradeRecommendation;
  conviction : Q;
  position_size : string;
  entry_price : option Q;
  stop_loss : option Q;
  next_catalyst : option string;
  catalyst_date : option Py.datetime;
  entry_timing : string;
  risk_factors : list string;
  expected_return : option string;
  time_horizon : string;
  generated_date : Py.datetime;
}.

(** [signal.rank = r] *)
Definition set_rank (r : Z) (s : t) : t :=
  mk r (company s) (company_id s) (sector s) (momentum_score s)
     (momentum_change_7d s) (hype_score s) (build_score s) (moat_score s)
     (public_proxy s) (pre_ipo_access s) (synthetic_exposure s)
     (recommendation s) (conviction s) (position_size s) (entry_price s)
     (stop_loss s) (next_catalyst s) (catalyst_date s) (entry_timing s)
     (risk_factors s) (expected_return s) (time_horizon s) (generated_date s).
End TradeSignal.

(** ** src/core/config.py *)

Module Config.

(** A dictionary literal with string keys, in the order it is written. *)
Definition table := list (string * Q).

Fixpoint get (d : table) (k : string) : option Q :=
  match d with
  | [] => None
  | (k', v) :: r => if String.eqb k' k then Some v else get r k
  end.

Definition HYPE_WEIGHTS : table :=
  [ ("media_velocity", 25 # 100); ("social_signal", 20 # 100);
    ("vc_buzz", 30 # 100); ("conference_presence", 15 # 100);
    ("search_trends", 10 # 100) ]%string.

Definition BUILD_WEIGHTS : table :=
  [ ("revenue_indicators", 30 # 100); ("customer_logos", 25 # 100);
    ("patent_velocity", 15 # 100); ("talent_density", 20 # 100);
    ("product_milestones", 10 # 100) ]%string.

Definition MOMENTUM_COMPOSITE_WEIGHTS : table :=
  [ ("hype", 40 # 100); ("build", 60 # 100) ]%string.

Definition MOAT_WEIGHTS : table :=
  [ ("regulatory_moat", 30 # 100); ("network_effects", 25 # 100);
    ("capital_intensity", 20 # 100); ("data_moat", 15 # 100);
    ("switching_costs", 10 # 100) ]%string.

Definition HIGH_SCORE_THRESHOLD : Q := 65.
Definition LOW_SCORE_THRESHOLD : Q := 45.
Definition WAVE_4_MOAT_THRESHOLD : Q := 75.
Definition STRONG_MOAT : Q := 60.
Definition MEDIUM_MOAT : Q := 40.
Definition LOW_CORRELATION : Q := 40 # 100.
Definition HIGH_DEPENDENCY : Q := 70 # 100.

End Config.

(** ** src/core/utils.py *)

Module Utils.

Definition normalize_score (value min_val max_val scale : Q) : Q :=
  if Py.eqb max_val min_val then 0
  else
    let normalized := ((value - min_val) / (max_val - min_val)) * scale in
    Py.max 0 (Py.min scale normalized).

(** The loop of [weighted_score] over [components.items()]. *)
Fixpoint weighted_total (components weights : Config.table) (total : Q) : Q :=
  match components with
  | [] => total
  | (key, value) :: r =>
      match Config.get weights key with
      | Some w => weighted_total r weights (total + value * w)
      | None => weighted_total r weights total
      end
  end.

Definition weighted_score (components weights : Config.table) : Q :=
  Py.round2 (weighted_total components weights 0).

Definition risk_multipliers : Config.table :=
  [ ("Low", 1); ("Medium", 8 # 10); ("High", 6 # 10); ("Very High", 4 # 10) ]%string.

Definition calculate_position_size_with
    (conviction : Q) (risk_level : string) (base_size max_size : Q) : string :=
  let adjusted_size := base_size + (conviction * (max_size - base_size)) in
  let final_size :=
    adjusted_size * default (8 # 10) (Config.get risk_multipliers risk_level) in
  let lower := Py.max (1 # 100) (final_size - (1 # 100)) in
  let upper := Py.min max_size (final_size + (1 # 100)) in
  (Py.format_fixed 0 (lower * 100) ++ "-" ++ Py.format_fixed 0 (upper * 100)
   ++ "% portfolio")%string.

(** With the default [base_size=0.02] and [max_size=0.05]. *)
Definition calculate_position_size (conviction : Q) (risk_level : string) : string :=
  calculate_position_size_with conviction risk_level (2 # 100) (5 # 100).

(** [sum(values) / len(values)] over a slice; dividing by a length of 0
    raises. The sum and the quotient are exact here: the rounding of the
    code's double arithmetic is not modelled (the mean of three doubles
    0.1 is a double above 0.1), so only which values are averaged and
    which calls fail is stated of these two averages, never a bound. *)
Definition moving_average (values : list Q) (window : Z) : Py.outcome Q :=
  match values with
  | [] => Py.Return 0
  | _ =>
      if (Z.of_nat (length values) <? window)%Z then
        Py.Return (Py.sum values / inject_Z (Z.of_nat (length values)))
      else
        let recent := Py.slice_from values (- window) in
        match recent with
        | [] => Py.Throw Py.ZeroDivisionError
        | _ => Py.Return (Py.sum recent / inject_Z (Z.of_nat (length recent)))
        end
  end.


Definition calculate_momentum_change (current_score previous_score : Q) : Q :=
  if Py.eqb previous_score 0 then 0
  else Py.round2 (((current_score - previous_score) / previous_score) * 100).

(** One turn of the loop of [max_drawdown] on the pair (peak, max_dd). *)
Definition drawdown_step (state : Q * Q) (value : Q) : Q * Q :=
  let '(peak, max_dd) := state in
  let peak := if Py.gtb value peak then value else peak in
  let drawdown := if Py.gtb peak 0 then (peak - value) / peak else 0 in
  let max_dd := if Py.gtb drawdown max_dd then drawdown else max_dd in
  (peak, max_dd).

Definition max_drawdown (values : list Q) : Q :=
  match values with
  | [] => 0
  | first :: _ =>
      let '(_, max_dd) := fold_left drawdown_step values (first, 0) in
      Py.round2 (max_dd * 100)
  end.

Definition confidence_level (score : Q) : string :=
  if Py.geb score (85 # 100) then "Very High"
  else if Py.geb score (70 # 100) then "High"
  else if Py.geb score (50 # 100) then "Medium"
  else if Py.geb score (30 # 100) then "Low"
  else "Very Low".

Definition days_until (now target_date : Py.datetime) : Z :=
  Py.delta_days target_date now.

End Utils.

(** ** src/modules/momentum_scoring.py *)

(** Truth value of a dictionary: empty is false. *)
Definition dict_truthy {V} (d : gmap string V) : bool :=
  match map_to_list d with
  | [] => false
  | _ :: _ => true
  end.

(** [d.get(k, dflt)] *)
Definition dict_get {V} (d : gmap string V) (k : string) (dflt : V) : V :=
  default dflt (d !! k).

(** One entry of [media_mentions]: a dictionary read at the key "date". *)
Module MediaMention.
Record t : Type := mk { date : option Py.datetime }.
End MediaMention.

(** The per-company dictionary of external signals. *)
Module ExternalData.
Record t : Type := mk {
  media_mentions : option (list MediaMention.t);
  social_metrics : option (gmap string Q);
  vc_mentions : option (list string);
  search_data : option (gmap string Q);
}.
(** The empty dictionary: every [get] is [None]. *)
Definition empty : t := mk None None None None.
End ExternalData.

Module MomentumScoringEngine.

Section Now.
Variable now : Py.datetime.

Definition _score_media_velocity (media_mentions : option (list MediaMention.t)) : Q :=
  match media_mentions with
  | None | Some [] => 20
  | Some mentions =>
      let thirty_days_ago := (now - Py.timedelta 30)%Z in
      let recent_mentions :=
        List.filter
          (fun m => (thirty_days_ago <? default Py.datetime_min (MediaMention.date m))%Z)
          mentions in
      let mention_count := Z.of_nat (length recent_mentions) in
      Utils.normalize_score (inject_Z mention_count) 0 50 100
  end.

Definition _score_social_signal (social_metrics : option (gmap string Q)) : Q :=
  match social_metrics with
  | None => 25
  | Some metrics =>
      if negb (dict_truthy metrics) then 25
      else
        let linkedin_growth := dict_get metrics "linkedin_growth_rate" 0 in
        let twitter_engagement := dict_get metrics "twitter_engagement" 0 in
        let linkedin_score := Utils.normalize_score linkedin_growth 0 20 50 in
        let twitter_score := Utils.normalize_score twitter_engagement 0 10 50 in
        linkedin_score + twitter_score
  end.

Definition tier_1_vcs : list string :=
  [ "Andreessen Horowitz"; "Sequoia Capital"; "Benchmark"; "Lightspeed";
    "Accel"; "Greylock"; "Kleiner Perkins"; "Index Ventures" ]%string.

Definition _score_vc_buzz
    (vc_mentions : option (list string)) (funding_rounds : list FundingRound.t) : Q :=
  let score := 0 in
  let score :=
    match vc_mentions with
    | None | Some [] => score
    | Some mentions =>
        let mention_count := Z.of_nat (length mentions) in
        score + Utils.normalize_score (inject_Z mention_count) 0 10 40
    end in
  let has_tier_1 :=
    existsb
      (fun round =>
         existsb (fun vc => Py.contains vc (FundingRound.lead_investor round)) tier_1_vcs)
      funding_rounds in
  let score := if has_tier_1 then score + 30 else score in
  let six_months_ago := (now - Py.timedelta 180)%Z in
  let recent_funding :=
    existsb (fun round => (six_months_ago <? FundingRound.date round)%Z) funding_rounds in
  let score := if recent_funding then score + 30 else score in
  Py.min score 100.

Definition _score_conference_presence (company : Company.t) : Q :=
  let total_funding := Company.total_funding company in
  if Py.gtb total_funding 500000000 then 80
  else if Py.gtb total_funding 200000000 then 60
  else if Py.gtb total_funding 100000000 then 40
  else if Py.gtb total_funding 50000000 then 25
  else 10.

Definition _score_search_trends (search_data : option (gmap string Q)) : Q :=
  match search_data with
  | None => 20
  | Some data =>
      if negb (dict_truthy data) then 20
      else
        let current_interest := dict_get data "current_interest" 0 in
        let previous_interest := dict_get data "previous_interest" 0 in
        if Py.gtb previous_interest 0 then
          let growth := (current_interest - previous_interest) / previous_interest in
          Utils.normalize_score growth (- (1 # 2)) (1 # 2) 100
        else Utils.normalize_score current_interest 0 100 100
  end.

(** [not company.estimated_arr]: absent or zero. *)
Definition arr_missing (arr : option Q) : bool :=
  match arr with
  | None => true
  | Some a => Py.eqb a 0
  end.

Definition _score_revenue_indicators (company : Company.t) : Q :=
  if arr_missing (Company.estimated_arr company) then
    if Py.gtb (Company.total_funding company) 500000000 then 70
    else if Py.gtb (Company.total_funding company) 200000000 then 50
    else 30
  else
    let arr := default 0 (Company.estimated_arr company) in
    if Py.gtb arr 500000000 then 95
    else if Py.gtb arr 200000000 then 85
    else if Py.gtb arr 100000000 then 75
    else if Py.gtb arr 50000000 then 60
    else if Py.gtb arr 20000000 then 45
    else 25.

Definition _score_customer_logos (company : Company.t) : Q :=
  let f500_count := Company.fortune_500_customers company in
  Utils.normalize_score (inject_Z f500_count) 0 100 100.

(** [sum(1 + citation_count * 0.1 for patent in grants)] *)
Definition citation_weight (patent : PatentGrant.t) : Q :=
  1 + inject_Z (PatentGrant.citation_count patent) * (1 # 10).

Definition sum_Q (l : list Q) : Q := fold_left Qplus l 0.

Definition _score_patent_velocity (patent_grants : list PatentGrant.t) : Q :=
  match patent_grants with
  | [] => 15
  | _ =>
      let one_year_ago := (now - Py.timedelta 365)%Z in
      let recent_grants :=
        List.filter (fun p => (one_year_ago <? PatentGrant.grant_date p)%Z) patent_grants in
      let weighted_count := sum_Q (map citation_weight recent_grants) in
      let quarterly_rate := weighted_count / 4 in
      Utils.normalize_score quarterly_rate 0 10 100
  end.

Definition _score_talent_density (company : Company.t) : Q :=
  let score := 0 in
  let employees := Company.employee_count company in
  let score :=
    if (5000 <? employees)%Z then score + 30
    else if (2000 <? employees)%Z then score + 25
    else if (1000 <? employees)%Z then score + 20
    else if (500 <? employees)%Z then score + 15
    else if (200 <? employees)%Z then score + 10
    else score in
  let engineer_score := Utils.normalize_score (Company.engineer_pct company) 0 70 35 in
  let score := score + engineer_score in
  let faang_score := Utils.normalize_score (Company.faang_talent_pct company) 0 30 35 in
  let score := score + faang_score in
  Py.min score 100.

Definition _score_product_milestones (company : Company.t) : Q :=
  let base_score := 20 in
  let customers := Company.fortune_500_customers company in
  let base_score :=
    if (50 <? customers)%Z then base_score + 40
    else if (20 <? customers)%Z then base_score + 30
    else if (10 <? customers)%Z then base_score + 20
    else base_score in
  let total_funding := Company.total_funding company in
  let base_score :=
    if Py.gtb total_funding 500000000 then base_score + 40
    else if Py.gtb total_funding 200000000 then base_score + 30
    else if Py.gtb total_funding 100000000 then base_score + 20
    else base_score in
  Py.min base_score 100.

(** The dictionaries of components, with the keys in the order the source
    writes them. *)
Definition _calculate_hype_score
    (company : Company.t) (ext : ExternalData.t) : Config.table :=
  [ ("media_velocity", _score_media_velocity (ExternalData.media_mentions ext));
    ("social_signal", _score_social_signal (ExternalData.social_metrics ext));
    ("vc_buzz",
      _score_vc_buzz (ExternalData.vc_mentions ext) (Company.funding_rounds company));
    ("conference_presence", _score_conference_presence company);
    ("search_trends", _score_search_trends (ExternalData.search_data ext)) ]%string.

Definition _calculate_build_score (company : Company.t) : Config.table :=
  [ ("revenue_indicators", _score_revenue_indicators company);
    ("customer_logos", _score_customer_logos company);
    ("patent_velocity", _score_patent_velocity (Company.patent_grants company));
    ("talent_density", _score_talent_density company);
    ("product_milestones", _score_product_milestones company) ]%string.

Definition _detect_divergence (hype_score build_score : Q) : DivergenceFlag :=
  let high_threshold := Config.HIGH_SCORE_THRESHOLD in
  let low_threshold := Config.LOW_SCORE_THRESHOLD in
  if Py.geb hype_score high_threshold && Py.geb build_score high_threshold
  then CONFIRMED_MOMENTUM
  else if Py.ltb hype_score low_threshold && Py.geb build_score high_threshold
  then MISPRICED_OPPORTUNITY
  else if Py.geb hype_score high_threshold && Py.ltb build_score low_threshold
  then BUBBLE_RISK
  else NO_SIGNAL.

(** [components[key]] for a key the dictionary was built with. *)
Definition item (components : Config.table) (key : string) : Q :=
  default 0 (Config.get components key).

(** The four external inputs travel as one [ExternalData.t]. *)
Definition calculate_momentum_score
    (company : Company.t) (ext : ExternalData.t) : MomentumScore.t :=
  let hype_components := _calculate_hype_score company ext in
  let build_components := _calculate_build_score company in
  let hype_score := Utils.weighted_score hype_components Config.HYPE_WEIGHTS in
  let build_score := Utils.weighted_score build_components Config.BUILD_WEIGHTS in
  let momentum_score :=
    Utils.weighted_score
      [ ("hype"%string, hype_score); ("build"%string, build_score) ]
      Config.MOMENTUM_COMPOSITE_WEIGHTS in
  let divergence_flag := _detect_divergence hype_score build_score in
  MomentumScore.mk
    (Company.company_id company)
    (Company.name company)
    (item hype_components "media_velocity")
    (item hype_components "social_signal")
    (item hype_components "vc_buzz")
    (item hype_components "conference_presence")
    (item hype_components "search_trends")
    hype_score
    (item build_components "revenue_indicators")
    (item build_components "customer_logos")
    (item build_components "patent_velocity")
    (item build_components "talent_density")
    (item build_components "product_milestones")
    build_score
    momentum_score
    0
    0
    divergence_flag
    now.

(** [external_data] absent is the empty dictionary. *)
Definition score_companies
    (companies : list Company.t) (external_data : gmap string ExternalData.t)
  : list MomentumScore.t :=
  let scores :=
    map
      (fun company =>
         let ext_data :=
           dict_get external_data (Company.company_id company) ExternalData.empty in
         calculate_momentum_score company ext_data)
      companies in
  Py.sort_desc MomentumScore.momentum_score scores.

End Now.

(** The default threshold is 75.0. *)
Definition filter_high_conviction
    (scores : list MomentumScore.t) (threshold : Q) : list MomentumScore.t :=
  List.filter (fun s => Py.geb (MomentumScore.momentum_score s) threshold) scores.

Definition flag_eqb (a b : DivergenceFlag) : bool :=
  match a, b with
  | CONFIRMED_MOMENTUM, CONFIRMED_MOMENTUM
  | MISPRICED_OPPORTUNITY, MISPRICED_OPPORTUNITY
  | BUBBLE_RISK, BUBBLE_RISK
  | NO_SIGNAL, NO_SIGNAL => true
  | _, _ => false
  end.

Definition filter_by_divergence
    (scores : list MomentumScore.t) (flag : DivergenceFlag) : list MomentumScore.t :=
  List.filter (fun s => flag_eqb (MomentumScore.divergence_flag s) flag) scores.


End MomentumScoringEngine.

(** ** src/modules/moat_scoring.py *)

(** The [industry_data] dictionary, read at three keys. *)
Module IndustryData.
Record t : Type := mk {
  has_defense_contracts : bool;
  has_government_customers : bool;
  regulatory_approvals : list string;
}.
(** The empty dictionary: the [get] defaults. *)
Definition empty : t := mk false false [].
End IndustryData.

Module MoatScoringEngine.

Definition high_regulatory_sectors (s : Sector) : option Q :=
  match s with
  | SIX_G => Some 85
  | QUANTUM => Some 80
  | GREEN_ENERGY => Some 75
  | BIOTECH_INFRA => Some 70
  | CYBERSECURITY => Some 60
  | SEMICONDUCTORS => Some 55
  | AI_INFRA => Some 30
  | DATA_INFRA => Some 25
  end.

Definition _score_regulatory_moat
    (company : Company.t) (industry_data : IndustryData.t) : Q :=
  let score := default 20 (high_regulatory_sectors (Company.sector company)) in
  let has_defense := IndustryData.has_defense_contracts industry_data in
  let has_gov := IndustryData.has_government_customers industry_data in
  let score :=
    if has_defense then score + 15
    else if has_gov then score + 8
    else score in
  let approvals := IndustryData.regulatory_approvals industry_data in
  let score :=
    match approvals with
    | [] => score
    | _ => score + Py.min (inject_Z (Z.of_nat (length approvals) * 3)) 15
    end in
  Py.min score 100.

Definition network_effect_sectors (s : Sector) : option Q :=
  match s with
  | DATA_INFRA => Some 25
  | AI_INFRA => Some 20
  | BIOTECH_INFRA => Some 15
  | CYBERSECURITY => Some 15
  | SEMICONDUCTORS => Some 10
  | GREEN_ENERGY => Some 5
  | QUANTUM => Some 10
  | SIX_G => Some 15
  end.

Definition _score_network_effects (company : Company.t) : Q :=
  let score := 20 in
  let customer_score :=
    Utils.normalize_score (inject_Z (Company.fortune_500_customers company)) 0 100 35 in
  let score := score + customer_score in
  let score := score + default 10 (network_effect_sectors (Company.sector company)) in
  let score :=
    if Py.gtb (Company.total_funding company) 500000000 then score + 20
    else if Py.gtb (Company.total_funding company) 200000000 then score + 15
    else if Py.gtb (Company.total_funding company) 100000000 then score + 10
    else score in
  Py.min score 100.

Definition capex_intensity (s : Sector) : option Q :=
  match s with
  | SEMICONDUCTORS => Some 95
  | QUANTUM => Some 90
  | SIX_G => Some 85
  | GREEN_ENERGY => Some 80
  | AI_INFRA => Some 75
  | BIOTECH_INFRA => Some 50
  | CYBERSECURITY => Some 25
  | DATA_INFRA => Some 30
  end.

Definition _score_capital_intensity (company : Company.t) : Q :=
  let base_score := default 30 (capex_intensity (Company.sector company)) in
  let funding_boost :=
    Utils.normalize_score (Company.total_funding company) 0 1000000000 15 in
  Py.min (base_score + funding_boost) 100.

Definition data_moat_sectors (s : Sector) : option Q :=
  match s with
  | AI_INFRA => Some 30
  | DATA_INFRA => Some 25
  | BIOTECH_INFRA => Some 25
  | CYBERSECURITY => Some 20
  | SIX_G => Some 15
  | GREEN_ENERGY => Some 10
  | SEMICONDUCTORS => Some 20
  | QUANTUM => Some 15
  end.

Definition _score_data_moat (company : Company.t) : Q :=
  let score := 15 in
  let score := score + default 10 (data_moat_sectors (Company.sector company)) in
  let customer_boost :=
    Utils.normalize_score (inject_Z (Company.fortune_500_customers company)) 0 100 25 in
  let score := score + customer_boost in
  let patent_boost :=
    Utils.normalize_score (inject_Z (Company.patent_count company)) 0 100 20 in
  let score := score + patent_boost in
  Py.min score 100.

Definition switching_cost_sectors (s : Sector) : option Q :=
  match s with
  | DATA_INFRA => Some 30
  | CYBERSECURITY => Some 25
  | AI_INFRA => Some 20
  | BIOTECH_INFRA => Some 25
  | SEMICONDUCTORS => Some 30
  | GREEN_ENERGY => Some 20
  | QUANTUM => Some 15
  | SIX_G => Some 25
  end.

Definition _score_switching_costs (company : Company.t) : Q :=
  let score := 20 in
  let score := score + default 15 (switching_cost_sectors (Company.sector company)) in
  let customer_boost :=
    Utils.normalize_score (inject_Z (Company.fortune_500_customers company)) 0 100 30 in
  let score := score + customer_boost in
  let score :=
    if Py.gtb (Company.total_funding company) 300000000 then score + 25
    else if Py.gtb (Company.total_funding company) 150000000 then score + 15
    else if Py.gtb (Company.total_funding company) 75000000 then score + 10
    else score in
  Py.min score 100.

Definition _classify_wave_potential (moat_score : Q) (company : Company.t) : WaveCategory :=
  if Py.geb moat_score Config.WAVE_4_MOAT_THRESHOLD then WAVE_4
  else if Py.geb moat_score Config.STRONG_MOAT then WAVE_3
  else if Py.geb moat_score Config.MEDIUM_MOAT then WAVE_2
  else Company.wave_category company.

Definition _classify_durability (moat_score : Q) : string :=
  if Py.geb moat_score 80 then "Very High"
  else if Py.geb moat_score 60 then "High"
  else if Py.geb moat_score 40 then "Medium"
  else "Low".

(** [industry_data] absent or empty is [IndustryData.empty]. *)
Definition calculate_moat_score
    (now : Py.datetime) (company : Company.t) (industry_data : IndustryData.t)
  : MoatScore.t :=
  let regulatory_moat := _score_regulatory_moat company industry_data in
  let network_effects := _score_network_effects company in
  let capital_intensity := _score_capital_intensity company in
  let data_moat := _score_data_moat company in
  let switching_costs := _score_switching_costs company in
  let components :=
    [ ("regulatory_moat", regulatory_moat); ("network_effects", network_effects);
      ("capital_intensity", capital_intensity); ("data_moat", data_moat);
      ("switching_costs", switching_costs) ]%string in
  let total_moat_score := Utils.weighted_score components Config.MOAT_WEIGHTS in
  let wave_potential := _classify_wave_potential total_moat_score company in
  let durability_rating := _classify_durability total_moat_score in
  MoatScore.mk
    (Company.company_id company) (Company.name company)
    regulatory_moat network_effects capital_intensity data_moat switching_costs
    total_moat_score wave_potential durability_rating now.

Definition score_companies
    (now : Py.datetime) (companies : list Company.t)
    (industry_data_map : gmap string IndustryData.t) : list MoatScore.t :=
  let scores :=
    map
      (fun company =>
         let industry_data :=
           dict_get industry_data_map (Company.company_id company) IndustryData.empty in
         calculate_moat_score now company industry_data)
      companies in
  Py.sort_desc MoatScore.total_moat_score scores.


Definition filter_wave_4_candidates (scores : list MoatScore.t) : list MoatScore.t :=
  let threshold := Config.WAVE_4_MOAT_THRESHOLD in
  List.filter (fun s => Py.geb (MoatScore.total_moat_score s) threshold) scores.

End MoatScoringEngine.

(** ** src/modules/timing_prediction.py *)

Module TimingPredictionEngine.

Definition high_ma_sectors : list string :=
  [ "Cybersecurity"; "Data_Infra"; "Biotech_Infra" ]%string.

(** [x in l] for a list of strings. *)
Definition str_in (x : string) (l : list string) : bool :=
  existsb (String.eqb x) l.

Definition predict_ma_timing (now : Py.datetime) (company : Company.t)
  : option Catalyst.t :=
  if Py.ltb (Company.total_funding company) 100000000 then None
  else if Py.gtb (Company.total_funding company) 500000000 then None
  else
    let ma_prob := 35 # 100 in
    let ma_prob :=
      if str_in (Sector_value (Company.sector company)) high_ma_sectors
      then ma_prob + (15 # 100) else ma_prob in
    let estimated_date := (now + Py.timedelta 540)%Z in
    Some (Catalyst.mk
            "M&A Exit Potential"
            estimated_date
            ma_prob
            (10 # 100)
            (25 # 100)
            [ "Strategic buyer interest in sector";
              "Competitive consolidation pressure" ]%string
            [ "Market multiples compression"; "Antitrust scrutiny" ]%string).


(** ["CFO" in role.upper() or "CHIEF FINANCIAL" in role.upper()] *)
Definition is_cfo_role (role : string) : bool :=
  Py.contains "CFO" (Py.upper role) || Py.contains "CHIEF FINANCIAL" (Py.upper role).

Definition _funding_stage_probability (company : Company.t) : Q :=
  let total_funding := Company.total_funding company in
  if Py.gtb total_funding 1000000000 then 75 # 100
  else if Py.gtb total_funding 500000000 then 60 # 100
  else if Py.gtb total_funding 300000000 then 45 # 100
  else if Py.gtb total_funding 150000000 then 25 # 100
  else 10 # 100.

Definition _cfo_hire_signal (now : Py.datetime) (company : Company.t) : Q :=
  match Company.executive_hires company with
  | [] => 15 # 100
  | hires =>
      let nine_months_ago := (now - Py.timedelta 270)%Z in
      let eighteen_months_ago := (now - Py.timedelta 540)%Z in
      let recent_cfo :=
        existsb
          (fun hire =>
             (nine_months_ago <? ExecutiveHire.date hire)%Z
             && (ExecutiveHire.date hire <? now)%Z
             && is_cfo_role (ExecutiveHire.role hire))
          hires in
      if recent_cfo then 85 # 100
      else
        let earlier_cfo :=
          existsb
            (fun hire =>
               (eighteen_months_ago <? ExecutiveHire.date hire)%Z
               && (ExecutiveHire.date hire <? nine_months_ago)%Z
               && is_cfo_role (ExecutiveHire.role hire))
            hires in
        if earlier_cfo then 60 # 100 else 15 # 100
  end.

Definition _revenue_readiness (company : Company.t) : Q :=
  if MomentumScoringEngine.arr_missing (Company.estimated_arr company) then
    if Py.gtb (Company.total_funding company) 500000000 then 60 # 100 else 20 # 100
  else
    let arr := default 0 (Company.estimated_arr company) in
    if Py.gtb arr 500000000 then 90 # 100
    else if Py.gtb arr 200000000 then 75 # 100
    else if Py.gtb arr 100000000 then 60 # 100
    else if Py.gtb arr 50000000 then 35 # 100
    else 15 # 100.

(** The nested dictionary of multipliers. *)
Definition multipliers : list (string * Config.table) :=
  [ ("open", [ ("low", 12 # 10); ("medium", 1); ("high", 7 # 10) ]);
    ("mixed", [ ("low", 1); ("medium", 8 # 10); ("high", 5 # 10) ]);
    ("closed", [ ("low", 6 # 10); ("medium", 4 # 10); ("high", 2 # 10) ]) ]%string.

Fixpoint table_get (d : list (string * Config.table)) (k : string) : option Config.table :=
  match d with
  | [] => None
  | (k', v) :: r => if String.eqb k' k then Some v else table_get r k
  end.

(** [market_conditions] maps names to words such as "open" or "high". *)
Definition _market_window_multiplier (market_conditions : gmap string string) : Q :=
  let window_status := dict_get market_conditions "ipo_window" "open"%string in
  let volatility := dict_get market_conditions "volatility" "medium"%string in
  default 1 (Config.get (default [] (table_get multipliers window_status)) volatility).

Definition _estimate_ipo_date (now : Py.datetime) (company : Company.t) : Py.datetime :=
  let base_estimate := (now + Py.timedelta 365)%Z in
  let cfo_based :=
    match List.filter (fun hire => is_cfo_role (ExecutiveHire.role hire))
            (Company.executive_hires company) with
    | [] => None
    | hire :: hires =>
        let latest_cfo := Py.max_by_date ExecutiveHire.date hire hires in
        let cfo_based_estimate := (ExecutiveHire.date latest_cfo + Py.timedelta 270)%Z in
        if (now <? cfo_based_estimate)%Z then Some cfo_based_estimate else None
    end in
  match cfo_based with
  | Some estimate => estimate
  | None =>
      if Py.gtb (Company.total_funding company) 1000000000
      then (now + Py.timedelta 540)%Z
      else if Py.gtb (Company.total_funding company) 500000000
      then (now + Py.timedelta 450)%Z
      else if Py.gtb (Company.total_funding company) 300000000
      then (now + Py.timedelta 730)%Z
      else base_estimate
  end.

Definition _identify_ipo_indicators (now : Py.datetime) (company : Company.t)
  : list string :=
  let indicators := [] in
  let recent_cfo :=
    existsb (fun hire => is_cfo_role (ExecutiveHire.role hire))
      (List.filter (fun hire => (now - Py.timedelta 365 <? ExecutiveHire.date hire)%Z)
         (Company.executive_hires company)) in
  let indicators :=
    if recent_cfo then indicators ++ ["CFO hire within last 12 months"%string]
    else indicators in
  let indicators :=
    match Company.estimated_arr company with
    | Some arr =>
        if negb (Py.eqb arr 0) && Py.gtb arr 100000000
        then indicators
             ++ [("$" ++ Py.format_fixed 0 (arr / 1000000) ++ "M+ ARR scale")%string]
        else indicators
    | None => indicators
    end in
  let indicators :=
    if Py.gtb (Company.total_funding company) 300000000
    then indicators
         ++ [("$" ++ Py.format_fixed 0 (Company.total_funding company / 1000000)
              ++ "M raised (late-stage)")%string]
    else indicators in
  let indicators :=
    if (50 <? Company.fortune_500_customers company)%Z
    then indicators
         ++ [(Py.str_of_int (Company.fortune_500_customers company)
              ++ " Fortune 500 customers")%string]
    else indicators in
  indicators ++ [(Sector_value (Company.sector company) ++ " sector momentum")%string].

Definition capex_heavy_sectors : list string :=
  [ "Semiconductors"; "Quantum"; "6G"; "Green_Energy" ]%string.

(** [d.get(k) == word] *)
Definition dict_is (d : gmap string string) (k word : string) : bool :=
  match d !! k with
  | Some v => String.eqb v word
  | None => false
  end.

Definition _identify_ipo_risks
    (company : Company.t) (market_conditions : gmap string string) : list string :=
  let risks := [] in
  let risks :=
    if dict_is market_conditions "ipo_window" "closed"
    then risks ++ ["IPO market window closed"%string]
    else if dict_is market_conditions "volatility" "high"
    then risks ++ ["High market volatility"%string]
    else risks in
  let risks :=
    if String.eqb (dict_get market_conditions "interest_rates" "neutral"%string) "rising"
    then risks ++ ["Rising interest rates (duration risk for unprofitable growth)"%string]
    else risks in
  let risks :=
    if MomentumScoringEngine.arr_missing (Company.estimated_arr company)
       || Py.ltb (default 0 (Company.estimated_arr company)) 100000000
    then risks ++ ["Revenue scale below typical IPO threshold"%string]
    else risks in
  let risks :=
    if str_in (Sector_value (Company.sector company)) capex_heavy_sectors
    then risks ++ ["Capital-intensive business model (profitability scrutiny)"%string]
    else risks in
  if (Company.fortune_500_customers company <? 20)%Z
  then risks ++ ["Limited customer diversification"%string]
  else risks.

(** [market_conditions] absent or empty is
    [{"ipo_window": "open", "volatility": "low"}]. *)
Definition ipo_default_conditions : gmap string string :=
  list_to_map [ ("ipo_window", "open"); ("volatility", "low") ]%string.

Definition predict_ipo_timing
    (now : Py.datetime) (company : Company.t)
    (market_conditions : option (gmap string string)) : Catalyst.t :=
  let market_conditions :=
    match market_conditions with
    | Some conditions => if dict_truthy conditions then conditions else ipo_default_conditions
    | None => ipo_default_conditions
    end in
  let funding_stage_prob := _funding_stage_probability company in
  let cfo_signal_prob := _cfo_hire_signal now company in
  let revenue_readiness := _revenue_readiness company in
  let market_multiplier := _market_window_multiplier market_conditions in
  let base_prob := (funding_stage_prob + cfo_signal_prob + revenue_readiness) / 3 in
  let adjusted_prob := base_prob * market_multiplier in
  let estimated_date := _estimate_ipo_date now company in
  let days_to_event := Utils.days_until now estimated_date in
  let prob_6mo :=
    if (days_to_event <? 180)%Z then adjusted_prob
    else if (days_to_event <? 365)%Z then adjusted_prob * (5 # 10)
    else adjusted_prob * (2 # 10) in
  let prob_12mo :=
    if (days_to_event <? 180)%Z then Py.min (adjusted_prob + (15 # 100)) (95 # 100)
    else if (days_to_event <? 365)%Z then adjusted_prob
    else adjusted_prob * (6 # 10) in
  let leading_indicators := _identify_ipo_indicators now company in
  let risk_factors := _identify_ipo_risks company market_conditions in
  Catalyst.mk "IPO Filing Expected" estimated_date adjusted_prob
    (Py.round2 prob_6mo) (Py.round2 prob_12mo) leading_indicators risk_factors.

(** [datetime(1970, 1, 1)] *)
Definition epoch_1970 : Py.datetime := Py.timedelta 719162.

Definition predict_product_launch (now : Py.datetime) (company : Company.t)
  : list Catalyst.t :=
  match Company.patent_grants company with
  | [] => []
  | grants =>
      let six_months_ago := (now - Py.timedelta 180)%Z in
      let recent_patents :=
        List.filter (fun p => (six_months_ago <? PatentGrant.grant_date p)%Z) grants in
      match recent_patents with
      | [] => []
      | _ =>
          let avg_grant_date :=
            Py.sum (map (fun p => inject_Z (Py.delta_days (PatentGrant.grant_date p)
                                               epoch_1970))
                      recent_patents)
            / inject_Z (Z.of_nat (length recent_patents)) in
          let avg_date :=
            (epoch_1970 + Py.round_half_even (avg_grant_date * 86400000000))%Z in
          let estimated_launch := (avg_date + Py.timedelta 180)%Z in
          [ Catalyst.mk "Product Launch Expected" estimated_launch
              (60 # 100) (70 # 100) (90 # 100)
              [ (Py.str_of_int (Z.of_nat (length recent_patents))
                 ++ " recent patent grants")%string;
                "Technology development timeline"%string ]
              [ "Development delays"; "Regulatory approvals" ]%string ]
      end
  end.

(** The agency and the average timeline in days of a regulated sector. *)
Definition regulated_sectors : list (string * (string * Z)) :=
  [ ("Biotech_Infra", ("FDA", 365%Z)); ("6G", ("FCC", 180%Z));
    ("Green_Energy", ("DOE/FERC", 270%Z)) ]%string.

Fixpoint regulated_get (d : list (string * (string * Z))) (k : string)
  : option (string * Z) :=
  match d with
  | [] => None
  | (k', v) :: r => if String.eqb k' k then Some v else regulated_get r k
  end.

(** [regulatory_context] absent is the empty dictionary; the flag read
    from it counts when it is true. *)
Definition predict_regulatory_approval
    (now : Py.datetime) (company : Company.t) (regulatory_context : gmap string bool)
  : option Catalyst.t :=
  match regulated_get regulated_sectors (Sector_value (Company.sector company)) with
  | None => None
  | Some (agency, avg_timeline_days) =>
      let in_review := dict_get regulatory_context "in_regulatory_review" false in
      if negb in_review then None
      else
        let estimated_date := (now + Py.timedelta avg_timeline_days)%Z in
        Some (Catalyst.mk (agency ++ " Approval Expected") estimated_date
                (65 # 100) (40 # 100) (75 # 100)
                [ "Regulatory filing submitted"; "Review process initiated" ]%string
                [ "Regulatory delays"; "Compliance issues" ]%string)
  end.

Definition get_all_catalysts
    (now : Py.datetime) (company : Company.t)
    (market_conditions : option (gmap string string)) : list Catalyst.t :=
  let catalysts := [] in
  let ipo_catalyst := predict_ipo_timing now company market_conditions in
  let catalysts :=
    if Py.gtb (Catalyst.confidence ipo_catalyst) (30 # 100)
    then catalysts ++ [ipo_catalyst] else catalysts in
  let catalysts :=
    match predict_ma_timing now company with
    | Some ma_catalyst => catalysts ++ [ma_catalyst]
    | None => catalysts
    end in
  let catalysts := catalysts ++ predict_product_launch now company in
  let catalysts :=
    match predict_regulatory_approval now company ∅ with
    | Some reg_catalyst => catalysts ++ [reg_catalyst]
    | None => catalysts
    end in
  Py.sort_asc Catalyst.estimated_date catalysts.

Definition get_next_catalyst
    (now : Py.datetime) (company : Company.t)
    (market_conditions : option (gmap string string)) : option Catalyst.t :=
  match get_all_catalysts now company market_conditions with
  | [] => None
  | catalyst :: _ => Some catalyst
  end.

End TimingPredictionEngine.

(** ** src/modules/second_order_arbitrage.py *)

Module SecondOrderArbitrageEngine.

Record Supplier : Type := mkSupplier {
  supplier_name : string;
  supplier_ticker : option string;
  supplier_dependency : Q;
}.

Record DepCategory : Type := mkDepCategory {
  dep_category : string;
  dep_suppliers : list Supplier;
  dep_thesis : string;
}.

Definition sup (name ticker : string) (dependency : Q) : Supplier :=
  mkSupplier name (Some ticker) dependency.
Definition private_sup (name : string) (dependency : Q) : Supplier :=
  mkSupplier name None dependency.

Local Open Scope string_scope.

(** [self.dependency_map]; a sector that is not a key gives [None]. *)
Definition dependency_map (s : Sector) : option (list DepCategory) :=
  match s with
  | AI_INFRA => Some
      [ mkDepCategory "Datacenter Cooling"
          [ sup "Vertiv (VRT)" "VRT" (87 # 100);
            sup "nVent Electric (NVT)" "NVT" (72 # 100) ]
          "AI datacenter buildout requires 3x cooling capacity for GPU clusters";
        mkDepCategory "Power Infrastructure"
          [ sup "Eaton (ETN)" "ETN" (78 # 100);
            sup "Schneider Electric (SBGSY)" "SBGSY" (75 # 100) ]
          "AI compute demands robust UPS and power distribution systems";
        mkDepCategory "Networking Equipment"
          [ sup "Arista Networks (ANET)" "ANET" (91 # 100);
            sup "Juniper Networks (JNPR)" "JNPR" (68 # 100) ]
          "GPU cluster interconnects require high-bandwidth networking" ]
  | SIX_G => Some
      [ mkDepCategory "RF Components"
          [ sup "Qorvo (QRVO)" "QRVO" (85 # 100);
            sup "Skyworks Solutions (SWKS)" "SWKS" (82 # 100) ]
          "6G and satellite mesh require advanced RF filtering and amplification";
        mkDepCategory "Fiber Optics"
          [ sup "Corning (GLW)" "GLW" (79 # 100);
            sup "Lumentum (LITE)" "LITE" (71 # 100) ]
          "Backhaul infrastructure for 6G requires massive fiber deployment" ]
  | QUANTUM => Some
      [ mkDepCategory "Cryogenic Systems"
          [ private_sup "BlueFors (Private)" (92 # 100);
            sup "Oxford Instruments (OXIG.L)" "OXIG.L" (73 # 100) ]
          "Quantum computers require dilution refrigerators at millikelvin temperatures";
        mkDepCategory "Control Electronics"
          [ sup "Keysight (KEYS)" "KEYS" (68 # 100);
            private_sup "Zurich Instruments (Private)" (84 # 100) ]
          "Quantum systems need precision control and measurement electronics" ]
  | GREEN_ENERGY => Some
      [ mkDepCategory "Rare Earth Mining"
          [ sup "MP Materials (MP)" "MP" (81 # 100);
            sup "Lynas Rare Earths (LYSDY)" "LYSDY" (76 # 100) ]
          "Wind turbines and EV motors require neodymium and dysprosium";
        mkDepCategory "Grid Storage Components"
          [ sup "Fluence Energy (FLNC)" "FLNC" (88 # 100);
            sup "Enphase Energy (ENPH)" "ENPH" (79 # 100) ]
          "Renewable intermittency drives massive battery storage deployment" ]
  | SEMICONDUCTORS => Some
      [ mkDepCategory "Semiconductor Equipment"
          [ sup "ASML (ASML)" "ASML" (95 # 100);
            sup "Applied Materials (AMAT)" "AMAT" (91 # 100);
            sup "Lam Research (LRCX)" "LRCX" (89 # 100) ]
          "Chip fab buildout requires advanced lithography and deposition tools";
        mkDepCategory "Materials & Chemicals"
          [ sup "Entegris (ENTG)" "ENTG" (84 # 100);
            sup "Cabot Microelectronics (CCMP)" "CCMP" (77 # 100) ]
          "Advanced nodes require specialized chemicals and materials" ]
  | CYBERSECURITY => Some
      [ mkDepCategory "Identity Infrastructure"
          [ sup "Okta (OKTA)" "OKTA" (72 # 100);
            sup "Ping Identity (PING)" "PING" (68 # 100) ]
          "Zero-trust architectures built on identity as perimeter" ]
  | DATA_INFRA => Some
      [ mkDepCategory "Cloud Storage"
          [ sup "Pure Storage (PSTG)" "PSTG" (76 # 100);
            sup "NetApp (NTAP)" "NTAP" (71 # 100) ]
          "Data infrastructure growth drives storage infrastructure demand" ]
  | BIOTECH_INFRA => None
  end.

(** [any(kw in name for kw in kws)] *)
Definition any_kw (kws : list string) (name : string) : bool :=
  existsb (fun kw => Py.contains kw name) kws.

Definition _infer_sector (company_name : string) : Sector :=
  let name_lower := Py.lower company_name in
  if any_kw ["ai"; "gpu"; "inference"; "training"; "cerebras"; "groq"] name_lower
  then AI_INFRA
  else if any_kw ["satellite"; "6g"; "wireless"; "ast"] name_lower then SIX_G
  else if any_kw ["quantum"; "ionq"; "rigetti"] name_lower then QUANTUM
  else if any_kw ["energy"; "battery"; "solar"; "form"] name_lower then GREEN_ENERGY
  else if any_kw ["chip"; "semiconductor"; "tenstorrent"] name_lower then SEMICONDUCTORS
  else if any_kw ["security"; "cyber"; "wiz"] name_lower then CYBERSECURITY
  else if any_kw ["data"; "databricks"; "fivetran"] name_lower then DATA_INFRA
  else AI_INFRA.

Section Plays.
Variable now : Py.datetime.
Variable price_correlations : gmap string Q.

(** The body of the innermost loop: no play for a supplier without a
    ticker. *)
Definition supplier_play
    (momentum_score : MomentumScore.t) (dep : DepCategory) (supplier : Supplier)
  : list SecondOrderPlay.t :=
  match supplier_ticker supplier with
  | None => []
  | Some ticker =>
      if String.eqb ticker "" then []
      else
        let correlation := dict_get price_correlations ticker (50 # 100) in
        let is_mispriced :=
          Py.gtb (supplier_dependency supplier) Config.HIGH_DEPENDENCY
          && Py.ltb correlation Config.LOW_CORRELATION in
        let entry_timing := if is_mispriced then "Immediate" else "Monitor" in
        let risk_return := if is_mispriced then "High" else "Medium" in
        [ SecondOrderPlay.mk
            (MomentumScore.company_name momentum_score)
            (MomentumScore.momentum_score momentum_score)
            (supplier_name supplier)
            (Some ticker)
            (dep_category dep)
            (supplier_dependency supplier)
            correlation
            (dep_thesis dep)
            entry_timing
            risk_return
            now ]
  end.

(** The plays one high-momentum score appends, in loop order. *)
Definition plays_of (momentum_score : MomentumScore.t) : list SecondOrderPlay.t :=
  let sector := _infer_sector (MomentumScore.company_name momentum_score) in
  match dependency_map sector with
  | None => []
  | Some dependencies =>
      flat_map
        (fun dep => flat_map (supplier_play momentum_score dep) (dep_suppliers dep))
        dependencies
  end.

(** [price_correlations] absent is the empty dictionary. *)
Definition find_second_order_plays (momentum_scores : list MomentumScore.t)
  : list SecondOrderPlay.t :=
  let high_momentum :=
    List.filter (fun s => Py.gtb (MomentumScore.momentum_score s) 70) momentum_scores in
  let plays := flat_map plays_of high_momentum in
  Py.sort_desc
    (fun p => SecondOrderPlay.dependency_score p - SecondOrderPlay.price_correlation p)
    plays.

End Plays.

(** The default [n] is 10. *)
Definition get_top_plays (plays : list SecondOrderPlay.t) (n : Z)
  : list SecondOrderPlay.t :=
  Py.slice_to plays n.

Definition filter_immediate_entry (plays : list SecondOrderPlay.t)
  : list SecondOrderPlay.t :=
  List.filter (fun p => String.eqb (SecondOrderPlay.entry_timing p) "Immediate") plays.

Definition generate_mock_correlations : gmap string Q :=
  list_to_map
    [ ("VRT", 34 # 100); ("NVT", 42 # 100); ("ETN", 51 # 100); ("SBGSY", 48 # 100);
      ("ANET", 78 # 100); ("JNPR", 45 # 100);
      ("QRVO", 38 # 100); ("SWKS", 41 # 100); ("GLW", 52 # 100); ("LITE", 47 # 100);
      ("OXIG.L", 29 # 100); ("KEYS", 43 # 100);
      ("MP", 58 # 100); ("LYSDY", 52 # 100); ("FLNC", 71 # 100); ("ENPH", 69 # 100);
      ("ASML", 82 # 100); ("AMAT", 79 # 100); ("LRCX", 81 # 100); ("ENTG", 64 # 100);
      ("CCMP", 59 # 100);
      ("OKTA", 67 # 100); ("PING", 62 # 100);
      ("PSTG", 55 # 100); ("NTAP", 58 # 100) ].

End SecondOrderArbitrageEngine.

(** ** src/modules/trade_signals.py *)

Module TradeSignalGenerator.

Local Open Scope string_scope.

Definition is_flag (a b : DivergenceFlag) : bool :=
  match a, b with
  | CONFIRMED_MOMENTUM, CONFIRMED_MOMENTUM
  | MISPRICED_OPPORTUNITY, MISPRICED_OPPORTUNITY
  | BUBBLE_RISK, BUBBLE_RISK
  | NO_SIGNAL, NO_SIGNAL => true
  | _, _ => false
  end.

Definition _generate_recommendation
    (momentum_score : MomentumScore.t) (moat_score : MoatScore.t) : TradeRecommendation :=
  let flag := MomentumScore.divergence_flag momentum_score in
  let momentum := MomentumScore.momentum_score momentum_score in
  let moat := MoatScore.total_moat_score moat_score in
  if is_flag flag CONFIRMED_MOMENTUM && Py.gtb moat 70 then STRONG_BUY
  else if is_flag flag MISPRICED_OPPORTUNITY then BUY
  else if Py.gtb momentum 75 && Py.gtb moat 55 then BUY
  else if is_flag flag BUBBLE_RISK then FADE
  else if Py.gtb momentum 50 then HOLD
  else SELL.

Definition divergence_adjustments (flag : DivergenceFlag) : option Q :=
  match flag with
  | CONFIRMED_MOMENTUM => Some (10 # 100)
  | MISPRICED_OPPORTUNITY => Some (15 # 100)
  | BUBBLE_RISK => Some (- (25 # 100))
  | NO_SIGNAL => Some (- (10 # 100))
  end.

Definition _calculate_conviction
    (momentum_score : MomentumScore.t) (moat_score : MoatScore.t)
    (next_catalyst : option Catalyst.t) : Q :=
  let momentum_conviction := MomentumScore.momentum_score momentum_score / 100 in
  let moat_adjustment := (MoatScore.total_moat_score moat_score - 50) / 500 in
  let catalyst_boost :=
    match next_catalyst with
    | Some c => if Py.gtb (Catalyst.probability_6mo c) (50 # 100) then 10 # 100 else 0
    | None => 0
    end in
  let divergence_adj :=
    default 0 (divergence_adjustments (MomentumScore.divergence_flag momentum_score)) in
  let conviction :=
    momentum_conviction + moat_adjustment + catalyst_boost + divergence_adj in
  Py.max 0 (Py.min 1 conviction).

Definition sector_etfs : list (string * string) :=
  [ ("AI_Infra", "SKYY (Cloud Computing ETF) or WCLD");
    ("Semiconductors", "SMH (Semiconductor ETF) or SOXX");
    ("Cybersecurity", "HACK (Cybersecurity ETF) or CIBR");
    ("Data_Infra", "SKYY (Cloud Computing ETF)");
    ("Green_Energy", "ICLN (Clean Energy ETF) or TAN (Solar)");
    ("6G", "ARKF (Fintech/Telecom) or IYZ (Telecom)");
    ("Quantum", "QTUM (Quantum Computing ETF)");
    ("Biotech_Infra", "XBI (Biotech ETF) or IBB") ].

Fixpoint str_get (d : list (string * string)) (k : string) : option string :=
  match d with
  | [] => None
  | (k', v) :: r => if String.eqb k' k then Some v else str_get r k
  end.

(** The f-string built from the best proxy. *)
Definition proxy_text (best_proxy : PublicProxy.t) : string :=
  PublicProxy.ticker best_proxy ++ " (" ++ PublicProxy.exposure_type best_proxy
  ++ ", correlation " ++ Py.format_fixed 2 (PublicProxy.correlation_score best_proxy)
  ++ ")".

Definition _identify_public_proxy (company : Company.t) : option string :=
  match Company.public_proxies company with
  | p :: ps =>
      let best_proxy := Py.max_by PublicProxy.correlation_score p ps in
      Some (proxy_text best_proxy)
  | [] =>
      Some (default "QQQ (Nasdaq-100)"
              (str_get sector_etfs (Sector_value (Company.sector company))))
  end.

(** Dividing an absent [last_valuation] raises [TypeError]. *)
Definition _identify_pre_ipo_access (company : Company.t) : Py.result (option string) :=
  if Py.gtb (Company.ipo_probability_12mo company) (50 # 100)
     && Py.gtb (Company.total_funding company) 300000000
  then
    match Company.last_valuation company with
    | Some last_valuation =>
        Py.Ok (Some ("Secondary market access (Forge/EquityZen), estimated valuation $"
                     ++ Py.format_fixed 0 (last_valuation / 1000000) ++ "M"))
    | None => Py.Raise Py.TypeError
    end
  else Py.Ok None.

Definition _generate_synthetic_exposure (company : Company.t) : option string :=
  let value := Sector_value (Company.sector company) in
  if String.eqb value "AI_Infra" then
    Some "Custom basket: 40% NVDA, 30% AVGO, 20% ANET, 10% VRT (cooling exposure)"
  else if String.eqb value "Semiconductors" then
    Some "Custom basket: 30% ASML, 25% AMAT, 25% LRCX, 20% ENTG"
  else if String.eqb value "6G" then
    Some "Custom basket: 35% QRVO, 35% SWKS, 30% GLW"
  else if String.eqb value "Cybersecurity" then
    Some "HACK ETF or custom basket: 25% PANW, 25% CRWD, 25% ZS, 25% FTNT"
  else if String.eqb value "Green_Energy" then
    Some "Custom basket: 40% FLNC, 30% ENPH, 30% MP (rare earths)"
  else Some "QQQ call spreads (tech proxy)".

Definition _determine_entry_timing
    (momentum_score : MomentumScore.t) (next_catalyst : option Catalyst.t) : string :=
  let momentum := MomentumScore.momentum_score momentum_score in
  let near_term :=
    match next_catalyst with
    | Some c => Py.gtb momentum 75 && Py.gtb (Catalyst.probability_6mo c) (50 # 100)
    | None => false
    end in
  if near_term then "Immediate (catalyst within 6 months)"
  else if is_flag (MomentumScore.divergence_flag momentum_score) MISPRICED_OPPORTUNITY
  then "Immediate (mispriced execution momentum)"
  else if Py.gtb momentum 75 then "Immediate"
  else if Py.gtb momentum 55 then "Staged entry (build position over 30-60 days)"
  else
    match next_catalyst with
    | Some c =>
        "Wait for catalyst (monitor until "
        ++ Py.strftime_Ym (Catalyst.estimated_date c) ++ ")"
    | None => "Monitor (no immediate entry)"
    end.

Definition capex_sectors : list string :=
  [ "Semiconductors"; "Quantum"; "6G"; "Green_Energy" ].

Definition _assess_risk_level (company : Company.t) (moat_score : MoatScore.t) : string :=
  if Py.gtb (MoatScore.total_moat_score moat_score) 70 then "Low"
  else if Py.gtb (MoatScore.total_moat_score moat_score) 50
          && Py.gtb (Company.total_funding company) 300000000 then "Medium"
  else if TimingPredictionEngine.str_in (Sector_value (Company.sector company)) capex_sectors
  then "High"
  else if Py.ltb (Company.total_funding company) 150000000 then "High"
  else "Medium".

(** [risks.append(text)] when the condition holds. *)
Definition append_if (cond : bool) (text : string) (risks : list string) : list string :=
  if cond then (risks ++ [text])%list else risks.

Definition _identify_risk_factors
    (company : Company.t) (momentum_score : MomentumScore.t) (moat_score : MoatScore.t)
  : list string :=
  let value := Sector_value (Company.sector company) in
  let risks := [] in
  let risks :=
    append_if (is_flag (MomentumScore.divergence_flag momentum_score) BUBBLE_RISK)
      "Bubble risk: High hype relative to execution" risks in
  let risks :=
    append_if (Py.ltb (MoatScore.total_moat_score moat_score) 40)
      "Weak competitive moat (susceptible to competition)" risks in
  let risks :=
    append_if (Company.fortune_500_customers company <? 10)%Z
      "Limited customer diversification" risks in
  let risks :=
    append_if (Py.ltb (Company.total_funding company) 200000000)
      "Requires additional funding rounds (dilution risk)" risks in
  let risks :=
    append_if (TimingPredictionEngine.str_in value capex_sectors)
      "Capital-intensive model (high burn rate)" risks in
  let risks :=
    append_if (Py.gtb (Company.ipo_probability_12mo company) (60 # 100))
      "IPO window dependency (market conditions)" risks in
  if String.eqb value "Quantum" then
    (risks ++ ["Technology commercialization timeline uncertain"])%list
  else if String.eqb value "Biotech_Infra" then
    (risks ++ ["Regulatory approval timelines"])%list
  else risks.

Definition _estimate_expected_return
    (momentum_score : MomentumScore.t) (moat_score : MoatScore.t)
    (next_catalyst : option Catalyst.t) : string :=
  let momentum := MomentumScore.momentum_score momentum_score in
  let very_high :=
    match next_catalyst with
    | Some c =>
        Py.gtb momentum 85 && Py.gtb (MoatScore.total_moat_score moat_score) 70
        && Py.gtb (Catalyst.probability_6mo c) (60 # 100)
    | None => false
    end in
  if very_high then "50-100% (12-18 months)"
  else if Py.gtb momentum 75 && bool_decide (is_Some next_catalyst)
  then "30-60% (12 months)"
  else if is_flag (MomentumScore.divergence_flag momentum_score) MISPRICED_OPPORTUNITY
  then "40-80% (18-24 months, mispricing corrects)"
  else if Py.gtb momentum 60 then "20-40% (12-18 months)"
  else "10-25% (18-24 months)".

Definition _determine_time_horizon
    (now : Py.datetime) (next_catalyst : option Catalyst.t) : string :=
  match next_catalyst with
  | None => "18-36 months (long-term hold)"
  | Some c =>
      let days := Py.delta_days (Catalyst.estimated_date c) now in
      if (days <? 180)%Z then "3-6 months (near-term catalyst)"
      else if (days <? 365)%Z then "6-12 months (medium-term)"
      else if (days <? 730)%Z then "12-24 months (long-term)"
      else "24+ months (very long-term)"
  end.

Section Generator.
Variable now : Py.datetime.

Definition generate_signal
    (rank : Z) (company : Company.t) (momentum_score : MomentumScore.t)
    (moat_score : MoatScore.t) (next_catalyst : option Catalyst.t)
  : Py.result TradeSignal.t :=
  let recommendation := _generate_recommendation momentum_score moat_score in
  let conviction := _calculate_conviction momentum_score moat_score next_catalyst in
  let public_proxy := _identify_public_proxy company in
  letr pre_ipo_access := _identify_pre_ipo_access company in
  let synthetic_exposure := _generate_synthetic_exposure company in
  let risk_level := _assess_risk_level company moat_score in
  let position_size := Utils.calculate_position_size conviction risk_level in
  let entry_timing := _determine_entry_timing momentum_score next_catalyst in
  let risk_factors := _identify_risk_factors company momentum_score moat_score in
  let expected_return :=
    _estimate_expected_return momentum_score moat_score next_catalyst in
  let time_horizon := _determine_time_horizon now next_catalyst in
  Py.Ok (TradeSignal.mk
           rank
           (Company.name company)
           (Company.company_id company)
           (Company.sector company)
           (MomentumScore.momentum_score momentum_score)
           (MomentumScore.momentum_change_7d momentum_score)
           (MomentumScore.hype_score momentum_score)
           (MomentumScore.build_score momentum_score)
           (MoatScore.total_moat_score moat_score)
           public_proxy
           pre_ipo_access
           synthetic_exposure
           recommendation
           conviction
           position_size
           None
           None
           (Catalyst.catalyst_type <$> next_catalyst)
           (Catalyst.estimated_date <$> next_catalyst)
           entry_timing
           risk_factors
           (Some expected_return)
           time_horizon
           now).

Variable momentum_scores : list MomentumScore.t.
Variable moat_scores : list MoatScore.t.
Variable catalysts : gmap string Catalyst.t.

(** The first loop of [generate_signals], from index [i] on: the signals
    in input order, or the first exception. *)
Fixpoint collect_signals (i : nat) (companies : list Company.t)
  : Py.result (list TradeSignal.t) :=
  match companies with
  | [] => Py.Ok []
  | company :: rest =>
      letr momentum_score := Py.index momentum_scores i in
      letr moat_score := Py.index moat_scores i in
      let next_catalyst := catalysts !! Company.company_id company in
      letr signal :=
        generate_signal (Z.of_nat i + 1) company momentum_score moat_score next_catalyst in
      letr signals := collect_signals (S i) rest in
      Py.Ok (signal :: signals)
  end.

(** The second loop: [signal.rank = i + 1]. *)
Fixpoint update_ranks (i : nat) (signals : list TradeSignal.t) : list TradeSignal.t :=
  match signals with
  | [] => []
  | signal :: rest => TradeSignal.set_rank (Z.of_nat i + 1) signal :: update_ranks (S i) rest
  end.

End Generator.

Definition generate_signals
    (now : Py.datetime) (companies : list Company.t)
    (momentum_scores : list MomentumScore.t) (moat_scores : list MoatScore.t)
    (catalysts : gmap string Catalyst.t) : Py.result (list TradeSignal.t) :=
  letr signals := collect_signals now momentum_scores moat_scores catalysts 0 companies in
  let signals := Py.sort_desc TradeSignal.conviction signals in
  Py.Ok (update_ranks 0 signals).


(** The default threshold is 0.70. *)
Definition filter_high_conviction
    (signals : list TradeSignal.t) (threshold : Q) : list TradeSignal.t :=
  List.filter (fun s => Py.geb (TradeSignal.conviction s) threshold) signals.

Definition recommendation_eqb (a b : TradeRecommendation) : bool :=
  match a, b with
  | STRONG_BUY, STRONG_BUY | BUY, BUY | HOLD, HOLD
  | SELL, SELL | SHORT, SHORT | FADE, FADE => true
  | _, _ => false
  end.

Definition filter_by_recommendation
    (signals : list TradeSignal.t) (recommendation : TradeRecommendation)
  : list TradeSignal.t :=
  List.filter
    (fun s => recommendation_eqb (TradeSignal.recommendation s) recommendation) signals.

End TradeSignalGenerator.

(** ** src/engine.py *)

Module WeeklyAlphaReport.
Record t (Bottleneck : Type) : Type := mk {
  report_date : Py.datetime;
  top_10_momentum_plays : list TradeSignal.t;
  emerging_bottlenecks : list Bottleneck;
  second_order_plays : list SecondOrderPlay.t;
  portfolio_rebalance_actions : list string;
  ipo_window_health : string;
  macro_conditions : gmap string string;
  signals_generated : Z;
  high_conviction_count : Z;
  average_momentum_score : Q;
}.
Arguments mk {Bottleneck}.
Arguments report_date {Bottleneck}.
Arguments top_10_momentum_plays {Bottleneck}.
Arguments emerging_bottlenecks {Bottleneck}.
Arguments second_order_plays {Bottleneck}.
Arguments portfolio_rebalance_actions {Bottleneck}.
Arguments ipo_window_health {Bottleneck}.
Arguments macro_conditions {Bottleneck}.
Arguments signals_generated {Bottleneck}.
Arguments high_conviction_count {Bottleneck}.
Arguments average_momentum_score {Bottleneck}.
End WeeklyAlphaReport.

Module TechMomentumArbitrageEngine.

Section Report.
(** The list [generate_nov_2025_bottlenecks()] returns is fixed data of
    src/modules/bottleneck_discovery.py; the report carries it along
    unchanged. *)
Context {Bottleneck : Type}.
Variable generate_nov_2025_bottlenecks : list Bottleneck.
Variable now : Py.datetime.

Definition default_market_conditions : gmap string string :=
  list_to_map
    [ ("ipo_window", "open"); ("volatility", "medium"); ("interest_rates", "neutral") ]%string.

(** Step 3: the dictionary of next catalysts, by company id. *)
Definition predict_catalysts
    (companies : list Company.t) (market_conditions : gmap string string)
  : gmap string Catalyst.t :=
  fold_left
    (fun catalysts company =>
       match TimingPredictionEngine.get_next_catalyst now company (Some market_conditions) with
       | Some catalyst => <[Company.company_id company := catalyst]> catalysts
       | None => catalysts
       end)
    companies ∅.

(** Steps 1 to 4: the signals of the report before the top ten are
    taken. *)
Definition report_signals
    (companies : list Company.t) (market_conditions : gmap string string)
  : Py.result (list TradeSignal.t) :=
  let momentum_scores := MomentumScoringEngine.score_companies now companies ∅ in
  let moat_scores := MoatScoringEngine.score_companies now companies ∅ in
  let catalysts := predict_catalysts companies market_conditions in
  TradeSignalGenerator.generate_signals now companies momentum_scores moat_scores catalysts.

Definition generate_weekly_report
    (companies : list Company.t) (market_conditions : option (gmap string string))
  : Py.outcome (WeeklyAlphaReport.t Bottleneck) :=
  let market_conditions :=
    match market_conditions with
    | Some conditions =>
        if dict_truthy conditions then conditions else default_market_conditions
    | None => default_market_conditions
    end in
  let momentum_scores := MomentumScoringEngine.score_companies now companies ∅ in
  match report_signals companies market_conditions with
  | Py.Raise e => Py.Throw (Py.Earlier e)
  | Py.Ok signals =>
      let top_10 := Py.slice_to signals 10 in
      let high_conviction :=
        List.filter (fun s => Py.geb (TradeSignal.conviction s) (70 # 100)) signals in
      let emerging_bottlenecks := generate_nov_2025_bottlenecks in
      let correlations := SecondOrderArbitrageEngine.generate_mock_correlations in
      let second_order_plays :=
        SecondOrderArbitrageEngine.find_second_order_plays now correlations
          momentum_scores in
      let top_second_order := Py.slice_to second_order_plays 10 in
      match momentum_scores with
      | [] => Py.Throw Py.ZeroDivisionError
      | _ =>
          let avg_momentum :=
            Py.sum (map MomentumScore.momentum_score momentum_scores)
            / inject_Z (Z.of_nat (length momentum_scores)) in
          match market_conditions !! "ipo_window"%string with
          | None => Py.Throw Py.KeyError
          | Some ipo_window =>
              Py.Return
                (WeeklyAlphaReport.mk now top_10 emerging_bottlenecks top_second_order
                   [] ipo_window market_conditions
                   (Z.of_nat (length signals)) (Z.of_nat (length high_conviction))
                   avg_momentum)
          end
      end
  end.

End Report.
End TechMomentumArbitrageEngine.

(** ** The conviction arithmetic on binary64 values

    [TradeSignalGenerator._calculate_conviction] once more, with the
    numbers it reads given as IEEE-754 doubles and every operation
    rounded as Python rounds it. The decimal literals denote the nearest
    double, as in the source. *)

Module Binary64.

Set Warnings "-inexact-float".
Local Open Scope float_scope.

(** [max(a, b)] and [min(a, b)]: [a] stays unless [b > a], resp. [b < a];
    a comparison with NaN is false. *)
Definition max (a b : float) : float := if PrimFloat.ltb a b then b else a.
Definition min (a b : float) : float := if PrimFloat.ltb b a then b else a.

Definition divergence_adjustments (flag : DivergenceFlag) : option float :=
  match flag with
  | CONFIRMED_MOMENTUM => Some 0.10
  | MISPRICED_OPPORTUNITY => Some 0.15
  | BUBBLE_RISK => Some (-0.25)
  | NO_SIGNAL => Some (-0.10)
  end.

(** The arguments are [momentum_score.momentum_score],
    [moat_score.total_moat_score], [momentum_score.divergence_flag] and
    the [probability_6mo] of the catalyst, if there is one. *)
Definition _calculate_conviction
    (momentum_score total_moat_score : float) (divergence_flag : DivergenceFlag)
    (probability_6mo : option float) : float :=
  let momentum_conviction := momentum_score / 100 in
  let moat_adjustment := (total_moat_score - 50) / 500 in
  let catalyst_boost :=
    match probability_6mo with
    | Some p => if PrimFloat.ltb 0.50 p then 0.10 else 0.0
    | None => 0.0
    end in
  let divergence_adj := default 0 (divergence_adjustments divergence_flag) in
  let conviction :=
    momentum_conviction + moat_adjustment + catalyst_boost + divergence_adj in
  max 0.0 (min 1.0 conviction).

Set Warnings "+inexact-float".

End Binary64.

(** * Properties *)

(** ** Comparisons, [min], [max] and rounding *)

Section PyFacts.

Lemma Qle_bool_false (a b : Q) : Qle_bool a b = false -> b < a.
Proof.
  intros H. apply Qnot_le_lt. intros Hle.
  apply Qle_bool_iff in Hle. congruence.
Qed.

Lemma ltb_true a b : Py.ltb a b = true <-> a < b.
Proof.
  unfold Py.ltb. destruct (Qle_bool b a) eqn:E; simpl; split; intros H; try discriminate.
  - apply Qle_bool_iff in E. lra.
  - now apply Qle_bool_false.
  - reflexivity.
Qed.

Lemma ltb_false a b : Py.ltb a b = false <-> b <= a.
Proof.
  unfold Py.ltb. destruct (Qle_bool b a) eqn:E; simpl; split; intros H; try discriminate.
  - now apply Qle_bool_iff.
  - reflexivity.
  - apply Qle_bool_false in E. lra.
Qed.

Lemma gtb_ltb a b : Py.gtb a b = Py.ltb b a.
Proof. reflexivity. Qed.

Lemma geb_true a b : Py.geb a b = true <-> b <= a.
Proof. apply Qle_bool_iff. Qed.

Lemma geb_false a b : Py.geb a b = false <-> a < b.
Proof.
  unfold Py.geb. split; intros H.
  - now apply Qle_bool_false.
  - destruct (Qle_bool b a) eqn:E; [apply Qle_bool_iff in E; lra | reflexivity].
Qed.

Lemma leb_true a b : Py.leb a b = true <-> a <= b.
Proof. apply Qle_bool_iff. Qed.

Lemma leb_false a b : Py.leb a b = false <-> b < a.
Proof. apply (geb_false b a). Qed.

Lemma eqb_true a b : Py.eqb a b = true <-> a == b.
Proof. apply Qeq_bool_iff. Qed.

End PyFacts.

(** Case analysis on every comparison in the goal, leaving the order
    facts in the context. *)
Ltac cmp_cases :=
  rewrite ?gtb_ltb in *;
  repeat match goal with
  | |- context [Py.ltb ?a ?b] =>
      let E := fresh "E" in
      destruct (Py.ltb a b) eqn:E;
      [apply ltb_true in E | apply ltb_false in E]
  | |- context [Py.geb ?a ?b] =>
      let E := fresh "E" in
      destruct (Py.geb a b) eqn:E;
      [apply geb_true in E | apply geb_false in E]
  | |- context [Py.leb ?a ?b] =>
      let E := fresh "E" in
      destruct (Py.leb a b) eqn:E;
      [apply leb_true in E | apply leb_false in E]
  end.

Section Clamp.

Lemma min_le_l a b : Py.min a b <= a.
Proof. unfold Py.min. cmp_cases; lra. Qed.

Lemma min_le_r a b : Py.min a b <= b.
Proof. unfold Py.min. cmp_cases; lra. Qed.

Lemma min_glb a b c : c <= a -> c <= b -> c <= Py.min a b.
Proof. intros. unfold Py.min. cmp_cases; lra. Qed.

Lemma max_ge_l a b : a <= Py.max a b.
Proof. unfold Py.max. cmp_cases; lra. Qed.

Lemma max_lub a b c : a <= c -> b <= c -> Py.max a b <= c.
Proof. intros. unfold Py.max. cmp_cases; lra. Qed.

(** [max(0, min(s, x))] lies in [0, s]. *)
Lemma clamp_range s x : 0 <= s -> 0 <= Py.max 0 (Py.min s x) <= s.
Proof.
  intros Hs. split.
  - apply max_ge_l.
  - apply max_lub; [assumption | apply min_le_l].
Qed.

Lemma normalize_score_range value min_val max_val scale :
  0 <= scale -> 0 <= Utils.normalize_score value min_val max_val scale <= scale.
Proof.
  intros Hs. unfold Utils.normalize_score.
  destruct (Py.eqb max_val min_val).
  - lra.
  - now apply clamp_range.
Qed.

End Clamp.

Section Rounding.

Lemma round_half_even_cases q :
  Py.round_half_even q = Qfloor q \/
  (Py.round_half_even q = (Qfloor q + 1)%Z /\ inject_Z (Qfloor q) < q).
Proof.
  unfold Py.round_half_even. cbv zeta. cmp_cases.
  - now left.
  - right. split; [reflexivity | lra].
  - destruct (Z.even (Qfloor q)); [now left | right; split; [reflexivity | lra]].
Qed.

Lemma round_half_even_lower (a : Z) q :
  inject_Z a <= q -> (a <= Py.round_half_even q)%Z.
Proof.
  intros H.
  assert (Hf : (a <= Qfloor q)%Z).
  { rewrite <- (Qfloor_Z a). now apply Qfloor_resp_le. }
  destruct (round_half_even_cases q) as [-> | [-> _]]; lia.
Qed.

Lemma round_half_even_upper (b : Z) q :
  q <= inject_Z b -> (Py.round_half_even q <= b)%Z.
Proof.
  intros H.
  assert (Hf : (Qfloor q <= b)%Z).
  { rewrite <- (Qfloor_Z b). now apply Qfloor_resp_le. }
  destruct (round_half_even_cases q) as [-> | [-> Hlt]]; [assumption |].
  assert (Hq : inject_Z (Qfloor q) < inject_Z b) by lra.
  rewrite <- Zlt_Qlt in Hq. lia.
Qed.

Lemma ltb_proper a a' b b' : a == a' -> b == b' -> Py.ltb a b = Py.ltb a' b'.
Proof.
  intros Ha Hb.
  destruct (Py.ltb a b) eqn:E1, (Py.ltb a' b') eqn:E2; try reflexivity;
    rewrite ?ltb_true, ?ltb_false in *; lra.
Qed.

(** Rounding does not see how a rational is written. *)
Lemma round_half_even_proper q q' :
  q == q' -> Py.round_half_even q = Py.round_half_even q'.
Proof.
  intros H. unfold Py.round_half_even. cbv zeta.
  assert (Hf : Qfloor q = Qfloor q') by now apply Qfloor_comp.
  rewrite !gtb_ltb, <- Hf.
  rewrite (ltb_proper (q - inject_Z (Qfloor q)) (q' - inject_Z (Qfloor q)) (1 # 2) (1 # 2))
    by lra.
  rewrite (ltb_proper (1 # 2) (1 # 2) (q - inject_Z (Qfloor q)) (q' - inject_Z (Qfloor q)))
    by lra.
  reflexivity.
Qed.

Lemma round2_proper q q' : q == q' -> Py.round2 q = Py.round2 q'.
Proof.
  intros H. unfold Py.round2.
  rewrite (round_half_even_proper (q * 100) (q' * 100)) by lra.
  reflexivity.
Qed.

Lemma round2_range q : 0 <= q <= 100 -> 0 <= Py.round2 q <= 100.
Proof.
  intros [H0 H1]. unfold Py.round2.
  assert (Ha : (0 <= Py.round_half_even (q * 100))%Z).
  { apply round_half_even_lower. change (inject_Z 0) with 0. lra. }
  assert (Hb : (Py.round_half_even (q * 100) <= 10000)%Z).
  { apply round_half_even_upper.
    assert (E : inject_Z 10000 == 10000) by reflexivity. lra. }
  rewrite Zle_Qle in Ha, Hb.
  assert (E : inject_Z 10000 == 10000) by reflexivity.
  change (inject_Z 0) with 0 in Ha.
  set (n := inject_Z (Py.round_half_even (q * 100))) in *.
  split.
  - apply Qle_shift_div_l; lra.
  - apply Qle_shift_div_r; lra.
Qed.

End Rounding.

(** ** The stable descending sort *)

Section Sorting.
Context {A : Type} (key : A -> Q).

(** [a] may stand in front of [b]. *)
Definition desc (a b : A) : Prop := key b <= key a.

Lemma insert_desc_perm x l : Permutation (Py.insert_desc key x l) (x :: l).
Proof.
  induction l as [| y ys IH]; simpl.
  - reflexivity.
  - destruct (Py.leb (key y) (key x)).
    + reflexivity.
    + rewrite IH. apply perm_swap.
Qed.

Lemma sort_desc_perm l : Permutation (Py.sort_desc key l) l.
Proof.
  induction l as [| x l IH]; simpl.
  - reflexivity.
  - unfold Py.sort_desc in *. simpl. rewrite insert_desc_perm. now constructor.
Qed.

Lemma sort_desc_length l : length (Py.sort_desc key l) = length l.
Proof. apply Permutation_length, sort_desc_perm. Qed.

Lemma insert_desc_hd x y l :
  desc y x -> HdRel desc y l -> HdRel desc y (Py.insert_desc key x l).
Proof.
  intros Hx Hl. destruct l as [| z zs]; simpl.
  - now constructor.
  - destruct (Py.leb (key z) (key x)); constructor; [assumption |].
    now inversion Hl.
Qed.

Lemma insert_desc_sorted x l :
  Sorted desc l -> Sorted desc (Py.insert_desc key x l).
Proof.
  induction 1 as [| y ys Hs IH Hhd]; simpl.
  - repeat constructor.
  - destruct (Py.leb (key y) (key x)) eqn:E.
    + apply leb_true in E. constructor.
      * now constructor.
      * now constructor.
    + apply leb_false in E. constructor.
      * exact IH.
      * apply insert_desc_hd; [unfold desc; lra | assumption].
Qed.

Lemma sort_desc_sorted l : Sorted desc (Py.sort_desc key l).
Proof.
  induction l as [| x l IH]; simpl.
  - constructor.
  - apply insert_desc_sorted, IH.
Qed.

Lemma desc_trans a b c : desc a b -> desc b c -> desc a c.
Proof. unfold desc. intros. lra. Qed.

Lemma sort_desc_strongly_sorted l : StronglySorted desc (Py.sort_desc key l).
Proof.
  apply Sorted_StronglySorted.
  - intros a b c. apply desc_trans.
  - apply sort_desc_sorted.
Qed.

(** The elements with one given key. *)
Definition with_key (c : Q) (l : list A) : list A :=
  List.filter (fun a => Py.eqb (key a) c) l.

Lemma insert_desc_with_key c x l :
  with_key c (Py.insert_desc key x l) = with_key c (x :: l).
Proof.
  induction l as [| y ys IH]; simpl.
  - reflexivity.
  - destruct (Py.leb (key y) (key x)) eqn:E.
    + reflexivity.
    + apply leb_false in E. unfold with_key in *. simpl in *. rewrite IH.
      destruct (Py.eqb (key x) c) eqn:Ex, (Py.eqb (key y) c) eqn:Ey; try reflexivity.
      apply eqb_true in Ex, Ey. lra.
Qed.

(** Stability: sorting does not reorder elements of equal key. *)
Lemma sort_desc_stable c l : with_key c (Py.sort_desc key l) = with_key c l.
Proof.
  induction l as [| x l IH]; simpl.
  - reflexivity.
  - rewrite insert_desc_with_key. unfold with_key in *. simpl. now rewrite IH.
Qed.

End Sorting.

(** A list that changed is read differently at some index. *)
Lemma changed_not_aligned {A} (l l' : list A) :
  l <> l' -> ~ (forall i : nat, l !! i = l' !! i).
Proof. intros Hne Hall. apply Hne. now apply list_eq. Qed.

(** ** Score ranges *)

(** Name every normalised term and keep only its range. *)
Ltac bound_normalized :=
  repeat match goal with
  | |- context [Utils.normalize_score ?v ?a ?b ?s] =>
      let n := fresh "n" in
      let Hn := fresh "Hn" in
      pose proof (normalize_score_range v a b s ltac:(lra)) as Hn;
      set (n := Utils.normalize_score v a b s) in *;
      clearbody n
  end.

Ltac split_ifs :=
  repeat match goal with
  | |- context [if ?c then _ else _] => destruct c
  end.

Section ScoreRanges.

Lemma cap_range s : 0 <= s -> 0 <= Py.min s 100 <= 100.
Proof.
  intros Hs. split.
  - apply min_glb; lra.
  - apply min_le_r.
Qed.

Variable now : Py.datetime.

Lemma media_velocity_range media_mentions :
  0 <= MomentumScoringEngine._score_media_velocity now media_mentions <= 100.
Proof.
  unfold MomentumScoringEngine._score_media_velocity.
  destruct media_mentions as [[| m l] |]; try lra.
  apply normalize_score_range. lra.
Qed.

Lemma social_signal_range social_metrics :
  0 <= MomentumScoringEngine._score_social_signal social_metrics <= 100.
Proof.
  unfold MomentumScoringEngine._score_social_signal.
  destruct social_metrics as [metrics |]; [| lra].
  destruct (negb (dict_truthy metrics)); [lra |].
  cbv zeta. bound_normalized. lra.
Qed.

Lemma vc_buzz_range vc_mentions funding_rounds :
  0 <= MomentumScoringEngine._score_vc_buzz now vc_mentions funding_rounds <= 100.
Proof.
  unfold MomentumScoringEngine._score_vc_buzz. cbv zeta.
  apply cap_range.
  destruct vc_mentions as [[| v l] |]; split_ifs; bound_normalized; lra.
Qed.

Lemma conference_presence_range company :
  0 <= MomentumScoringEngine._score_conference_presence company <= 100.
Proof.
  unfold MomentumScoringEngine._score_conference_presence. cbv zeta.
  split_ifs; lra.
Qed.

Lemma search_trends_range search_data :
  0 <= MomentumScoringEngine._score_search_trends search_data <= 100.
Proof.
  unfold MomentumScoringEngine._score_search_trends.
  destruct search_data as [data |]; [| lra].
  destruct (negb (dict_truthy data)); [lra |].
  cbv zeta. destruct (Py.gtb _ 0); apply normalize_score_range; lra.
Qed.

Lemma revenue_indicators_range company :
  0 <= MomentumScoringEngine._score_revenue_indicators company <= 100.
Proof.
  unfold MomentumScoringEngine._score_revenue_indicators. cbv zeta.
  split_ifs; lra.
Qed.

Lemma customer_logos_range company :
  0 <= MomentumScoringEngine._score_customer_logos company <= 100.
Proof.
  unfold MomentumScoringEngine._score_customer_logos. cbv zeta.
  apply normalize_score_range. lra.
Qed.

Lemma patent_velocity_range patent_grants :
  0 <= MomentumScoringEngine._score_patent_velocity now patent_grants <= 100.
Proof.
  unfold MomentumScoringEngine._score_patent_velocity.
  destruct patent_grants; [lra |].
  cbv zeta. apply normalize_score_range. lra.
Qed.

Lemma talent_density_range company :
  0 <= MomentumScoringEngine._score_talent_density company <= 100.
Proof.
  unfold MomentumScoringEngine._score_talent_density. cbv zeta.
  apply cap_range. bound_normalized. split_ifs; lra.
Qed.

Lemma product_milestones_range company :
  0 <= MomentumScoringEngine._score_product_milestones company <= 100.
Proof.
  unfold MomentumScoringEngine._score_product_milestones. cbv zeta.
  apply cap_range. split_ifs; lra.
Qed.

(** A weighted score of five components in [0, 100] under weights that
    sum to one. *)
Lemma weighted5_range k1 k2 k3 k4 k5 s1 s2 s3 s4 s5 w1 w2 w3 w4 w5 weights :
  Utils.weighted_total
    [(k1, s1); (k2, s2); (k3, s3); (k4, s4); (k5, s5)] weights 0
  = 0 + s1 * w1 + s2 * w2 + s3 * w3 + s4 * w4 + s5 * w5 ->
  0 <= w1 -> 0 <= w2 -> 0 <= w3 -> 0 <= w4 -> 0 <= w5 ->
  w1 + w2 + w3 + w4 + w5 == 1 ->
  0 <= s1 <= 100 -> 0 <= s2 <= 100 -> 0 <= s3 <= 100 ->
  0 <= s4 <= 100 -> 0 <= s5 <= 100 ->
  0 <= Utils.weighted_score
         [(k1, s1); (k2, s2); (k3, s3); (k4, s4); (k5, s5)] weights <= 100.
Proof.
  intros E Hw1 Hw2 Hw3 Hw4 Hw5 Hsum H1 H2 H3 H4 H5.
  unfold Utils.weighted_score. rewrite E.
  apply round2_range. split.
  - assert (0 <= s1 * w1) by (apply Qmult_le_0_compat; lra).
    assert (0 <= s2 * w2) by (apply Qmult_le_0_compat; lra).
    assert (0 <= s3 * w3) by (apply Qmult_le_0_compat; lra).
    assert (0 <= s4 * w4) by (apply Qmult_le_0_compat; lra).
    assert (0 <= s5 * w5) by (apply Qmult_le_0_compat; lra).
    lra.
  - assert (0 <= (100 - s1) * w1) by (apply Qmult_le_0_compat; lra).
    assert (0 <= (100 - s2) * w2) by (apply Qmult_le_0_compat; lra).
    assert (0 <= (100 - s3) * w3) by (apply Qmult_le_0_compat; lra).
    assert (0 <= (100 - s4) * w4) by (apply Qmult_le_0_compat; lra).
    assert (0 <= (100 - s5) * w5) by (apply Qmult_le_0_compat; lra).
    lra.
Qed.

Lemma hype_total s1 s2 s3 s4 s5 :
  Utils.weighted_total
    [ ("media_velocity", s1); ("social_signal", s2); ("vc_buzz", s3);
      ("conference_presence", s4); ("search_trends", s5) ]%string
    Config.HYPE_WEIGHTS 0
  = 0 + s1 * (25 # 100) + s2 * (20 # 100) + s3 * (30 # 100)
    + s4 * (15 # 100) + s5 * (10 # 100).
Proof. reflexivity. Qed.

Lemma build_total s1 s2 s3 s4 s5 :
  Utils.weighted_total
    [ ("revenue_indicators", s1); ("customer_logos", s2); ("patent_velocity", s3);
      ("talent_density", s4); ("product_milestones", s5) ]%string
    Config.BUILD_WEIGHTS 0
  = 0 + s1 * (30 # 100) + s2 * (25 # 100) + s3 * (15 # 100)
    + s4 * (20 # 100) + s5 * (10 # 100).
Proof. reflexivity. Qed.

Lemma hype_score_range company ext :
  0 <= Utils.weighted_score
         (MomentumScoringEngine._calculate_hype_score now company ext)
         Config.HYPE_WEIGHTS <= 100.
Proof.
  unfold MomentumScoringEngine._calculate_hype_score.
  apply (weighted5_range _ _ _ _ _ _ _ _ _ _ _ _ _ _ _ _ (hype_total _ _ _ _ _));
    try lra.
  - apply media_velocity_range.
  - apply social_signal_range.
  - apply vc_buzz_range.
  - apply conference_presence_range.
  - apply search_trends_range.
Qed.

Lemma build_score_range company :
  0 <= Utils.weighted_score
         (MomentumScoringEngine._calculate_build_score now company)
         Config.BUILD_WEIGHTS <= 100.
Proof.
  unfold MomentumScoringEngine._calculate_build_score.
  apply (weighted5_range _ _ _ _ _ _ _ _ _ _ _ _ _ _ _ _ (build_total _ _ _ _ _));
    try lra.
  - apply revenue_indicators_range.
  - apply customer_logos_range.
  - apply patent_velocity_range.
  - apply talent_density_range.
  - apply product_milestones_range.
Qed.

(** The composite of two scores under the weights 0.40 and 0.60. *)
Lemma composite_weighted hype build :
  Utils.weighted_score
    [("hype"%string, hype); ("build"%string, build)] Config.MOMENTUM_COMPOSITE_WEIGHTS
  = Py.round2 (hype * (40 # 100) + build * (60 # 100)).
Proof.
  unfold Utils.weighted_score. simpl. apply round2_proper. lra.
Qed.

Lemma composite_range hype build :
  0 <= hype <= 100 -> 0 <= build <= 100 ->
  0 <= Utils.weighted_score
         [("hype"%string, hype); ("build"%string, build)]
         Config.MOMENTUM_COMPOSITE_WEIGHTS <= 100.
Proof.
  intros Hh Hb. rewrite composite_weighted. apply round2_range. lra.
Qed.

End ScoreRanges.

Section MoatRanges.

Lemma regulatory_moat_range company industry_data :
  0 <= MoatScoringEngine._score_regulatory_moat company industry_data <= 100.
Proof.
  unfold MoatScoringEngine._score_regulatory_moat. cbv zeta.
  apply cap_range.
  assert (Hb : 0 <= default 20 (MoatScoringEngine.high_regulatory_sectors
                                  (Company.sector company)))
    by (destruct (Company.sector company); simpl; lra).
  set (n := Z.of_nat (length (IndustryData.regulatory_approvals industry_data))).
  assert (Hn : 0 <= inject_Z (n * 3)).
  { change 0 with (inject_Z 0). rewrite <- Zle_Qle. lia. }
  assert (Hm : 0 <= Py.min (inject_Z (n * 3)) 15) by (apply min_glb; lra).
  destruct (IndustryData.regulatory_approvals industry_data); split_ifs; lra.
Qed.

Lemma network_effects_range company :
  0 <= MoatScoringEngine._score_network_effects company <= 100.
Proof.
  unfold MoatScoringEngine._score_network_effects. cbv zeta.
  apply cap_range. bound_normalized.
  destruct (Company.sector company); simpl; split_ifs; lra.
Qed.

Lemma capital_intensity_range company :
  0 <= MoatScoringEngine._score_capital_intensity company <= 100.
Proof.
  unfold MoatScoringEngine._score_capital_intensity. cbv zeta.
  apply cap_range. bound_normalized.
  destruct (Company.sector company); simpl; lra.
Qed.

Lemma data_moat_range company :
  0 <= MoatScoringEngine._score_data_moat company <= 100.
Proof.
  unfold MoatScoringEngine._score_data_moat. cbv zeta.
  apply cap_range. bound_normalized.
  destruct (Company.sector company); simpl; lra.
Qed.

Lemma switching_costs_range company :
  0 <= MoatScoringEngine._score_switching_costs company <= 100.
Proof.
  unfold MoatScoringEngine._score_switching_costs. cbv zeta.
  apply cap_range. bound_normalized.
  destruct (Company.sector company); simpl; split_ifs; lra.
Qed.

Lemma moat_total s1 s2 s3 s4 s5 :
  Utils.weighted_total
    [ ("regulatory_moat", s1); ("network_effects", s2); ("capital_intensity", s3);
      ("data_moat", s4); ("switching_costs", s5) ]%string
    Config.MOAT_WEIGHTS 0
  = 0 + s1 * (30 # 100) + s2 * (25 # 100) + s3 * (20 # 100)
    + s4 * (15 # 100) + s5 * (10 # 100).
Proof. reflexivity. Qed.

Lemma total_moat_range now company industry_data :
  0 <= MoatScore.total_moat_score
         (MoatScoringEngine.calculate_moat_score now company industry_data) <= 100.
Proof.
  unfold MoatScoringEngine.calculate_moat_score. cbv zeta. simpl.
  apply (weighted5_range _ _ _ _ _ _ _ _ _ _ _ _ _ _ _ _ (moat_total _ _ _ _ _));
    try lra.
  - apply regulatory_moat_range.
  - apply network_effects_range.
  - apply capital_intensity_range.
  - apply data_moat_range.
  - apply switching_costs_range.
Qed.

End MoatRanges.

(** ** C3, C4, C5: the momentum and moat scorers *)

(** C3. The divergence flag is a function of the two composites alone,
    with the thresholds 65 and 45: both at least 65 is
    CONFIRMED_MOMENTUM; hype below 45 with build at least 65 is
    MISPRICED_OPPORTUNITY; hype at least 65 with build below 45 is
    BUBBLE_RISK; every other pair is NO_SIGNAL. At the boundaries:
    (65, 65), (44.9, 65), (65, 44.9) and (50, 50) give the four flags in
    that order. *)
Theorem detect_divergence_table (hype build : Q) :
  Config.HIGH_SCORE_THRESHOLD = 65 /\ Config.LOW_SCORE_THRESHOLD = 45 /\
  (65 <= hype -> 65 <= build ->
   MomentumScoringEngine._detect_divergence hype build = CONFIRMED_MOMENTUM) /\
  (hype < 45 -> 65 <= build ->
   MomentumScoringEngine._detect_divergence hype build = MISPRICED_OPPORTUNITY) /\
  (65 <= hype -> build < 45 ->
   MomentumScoringEngine._detect_divergence hype build = BUBBLE_RISK) /\
  (~ (65 <= hype /\ 65 <= build) -> ~ (hype < 45 /\ 65 <= build) ->
   ~ (65 <= hype /\ build < 45) ->
   MomentumScoringEngine._detect_divergence hype build = NO_SIGNAL) /\
  (forall hype' build', hype == hype' -> build == build' ->
   MomentumScoringEngine._detect_divergence hype build
   = MomentumScoringEngine._detect_divergence hype' build') /\
  MomentumScoringEngine._detect_divergence 65 65 = CONFIRMED_MOMENTUM /\
  MomentumScoringEngine._detect_divergence (449 # 10) 65 = MISPRICED_OPPORTUNITY /\
  MomentumScoringEngine._detect_divergence 65 (449 # 10) = BUBBLE_RISK /\
  MomentumScoringEngine._detect_divergence 50 50 = NO_SIGNAL.
Proof.
  split; [reflexivity |]. split; [reflexivity |].
  unfold MomentumScoringEngine._detect_divergence,
    Config.HIGH_SCORE_THRESHOLD, Config.LOW_SCORE_THRESHOLD.
  cbv zeta.
  repeat split; try reflexivity.
  - intros Hh Hb. cmp_cases; simpl; try reflexivity; lra.
  - intros Hh Hb. cmp_cases; simpl; try reflexivity; lra.
  - intros Hh Hb. cmp_cases; simpl; try reflexivity; lra.
  - intros H1 H2 H3. cmp_cases; simpl; try reflexivity; exfalso; tauto.
  - intros hype' build' Hh Hb.
    unfold Py.geb.
    rewrite (ltb_proper hype hype' 45 45), (ltb_proper build build' 45 45) by lra.
    assert (E1 : Qle_bool 65 hype = Qle_bool 65 hype').
    { destruct (Qle_bool 65 hype) eqn:A, (Qle_bool 65 hype') eqn:B; try reflexivity;
        rewrite ?Qle_bool_iff in *; try apply Qle_bool_false in A;
        try apply Qle_bool_false in B; lra. }
    assert (E2 : Qle_bool 65 build = Qle_bool 65 build').
    { destruct (Qle_bool 65 build) eqn:A, (Qle_bool 65 build') eqn:B; try reflexivity;
        rewrite ?Qle_bool_iff in *; try apply Qle_bool_false in A;
        try apply Qle_bool_false in B; lra. }
    now rewrite E1, E2.
Qed.

Lemma detect_divergence_table_witness :
  MomentumScoringEngine._detect_divergence 80 70 = CONFIRMED_MOMENTUM /\
  MomentumScoringEngine._detect_divergence 30 70 = MISPRICED_OPPORTUNITY /\
  MomentumScoringEngine._detect_divergence 80 30 = BUBBLE_RISK /\
  MomentumScoringEngine._detect_divergence 40 40 = NO_SIGNAL.
Proof.
  split; [| split; [| split]].
  - destruct (detect_divergence_table 80 70) as (_ & _ & H & _).
    apply H; discriminate.
  - destruct (detect_divergence_table 30 70) as (_ & _ & _ & H & _).
    apply H; [reflexivity | discriminate].
  - destruct (detect_divergence_table 80 30) as (_ & _ & _ & _ & H & _).
    apply H; [discriminate | reflexivity].
  - destruct (detect_divergence_table 40 40) as (_ & _ & _ & _ & _ & H & _).
    apply H; intros [A B]; first [now apply A | now apply B].
Defined.

(** C4. For every company and every external-signal input, the composite
    momentum score of the returned MomentumScore is
    round(hype_score * 0.40 + build_score * 0.60, 2), with the hype and
    build composites stored in that same MomentumScore. *)
Theorem momentum_score_composite
    (now : Py.datetime) (company : Company.t) (ext : ExternalData.t) :
  let score := MomentumScoringEngine.calculate_momentum_score now company ext in
  MomentumScore.momentum_score score
  = Py.round2 (MomentumScore.hype_score score * (40 # 100)
               + MomentumScore.build_score score * (60 # 100)).
Proof.
  cbv zeta. unfold MomentumScoringEngine.calculate_momentum_score. cbv zeta.
  cbn [MomentumScore.momentum_score MomentumScore.hype_score MomentumScore.build_score].
  apply composite_weighted.
Qed.

(** C5. For every company and every optional external input, each of the
    five hype sub-scores, the five build sub-scores, the hype and build
    composites and the momentum composite of the MomentumScore, and each
    of the five dimension scores and the weighted composite of the
    MoatScore, lies in [0, 100]. *)
Theorem scores_in_range
    (now : Py.datetime) (company : Company.t)
    (ext : ExternalData.t) (industry_data : IndustryData.t) :
  let m := MomentumScoringEngine.calculate_momentum_score now company ext in
  let t := MoatScoringEngine.calculate_moat_score now company industry_data in
  (0 <= MomentumScore.media_velocity m <= 100 /\
   0 <= MomentumScore.social_signal m <= 100 /\
   0 <= MomentumScore.vc_buzz m <= 100 /\
   0 <= MomentumScore.conference_presence m <= 100 /\
   0 <= MomentumScore.search_trends m <= 100) /\
  (0 <= MomentumScore.revenue_indicators m <= 100 /\
   0 <= MomentumScore.customer_logos m <= 100 /\
   0 <= MomentumScore.patent_velocity m <= 100 /\
   0 <= MomentumScore.talent_density m <= 100 /\
   0 <= MomentumScore.product_milestones m <= 100) /\
  (0 <= MomentumScore.hype_score m <= 100 /\
   0 <= MomentumScore.build_score m <= 100 /\
   0 <= MomentumScore.momentum_score m <= 100) /\
  (0 <= MoatScore.regulatory_moat t <= 100 /\
   0 <= MoatScore.network_effects t <= 100 /\
   0 <= MoatScore.capital_intensity t <= 100 /\
   0 <= MoatScore.data_moat t <= 100 /\
   0 <= MoatScore.switching_costs t <= 100) /\
  0 <= MoatScore.total_moat_score t <= 100.
Proof.
  cbv zeta.
  split; [| split; [| split; [| split]]].
  - unfold MomentumScoringEngine.calculate_momentum_score. cbv zeta.
    cbn [MomentumScore.media_velocity MomentumScore.social_signal MomentumScore.vc_buzz
         MomentumScore.conference_presence MomentumScore.search_trends].
    unfold MomentumScoringEngine._calculate_hype_score, MomentumScoringEngine.item.
    cbn [Config.get String.eqb Ascii.eqb Bool.eqb default option_rect fst snd].
    split; [apply media_velocity_range |].
    split; [apply social_signal_range |].
    split; [apply vc_buzz_range |].
    split; [apply conference_presence_range | apply search_trends_range].
  - unfold MomentumScoringEngine.calculate_momentum_score. cbv zeta.
    cbn [MomentumScore.revenue_indicators MomentumScore.customer_logos
         MomentumScore.patent_velocity MomentumScore.talent_density
         MomentumScore.product_milestones].
    unfold MomentumScoringEngine._calculate_build_score, MomentumScoringEngine.item.
    cbn [Config.get String.eqb Ascii.eqb Bool.eqb default option_rect fst snd].
    split; [apply revenue_indicators_range |].
    split; [apply customer_logos_range |].
    split; [apply patent_velocity_range |].
    split; [apply talent_density_range | apply product_milestones_range].
  - unfold MomentumScoringEngine.calculate_momentum_score. cbv zeta.
    cbn [MomentumScore.hype_score MomentumScore.build_score MomentumScore.momentum_score].
    split; [apply hype_score_range |].
    split; [apply build_score_range |].
    apply composite_range; [apply hype_score_range | apply build_score_range].
  - unfold MoatScoringEngine.calculate_moat_score. cbv zeta.
    cbn [MoatScore.regulatory_moat MoatScore.network_effects MoatScore.capital_intensity
         MoatScore.data_moat MoatScore.switching_costs].
    split; [apply regulatory_moat_range |].
    split; [apply network_effects_range |].
    split; [apply capital_intensity_range |].
    split; [apply data_moat_range | apply switching_costs_range].
  - apply total_moat_range.
Qed.

(** ** C9: the batch scorers *)

(** C9. Each batch scorer returns one score per input company, sorted in
    descending order of the composite: the momentum engine by
    momentum_score, the moat engine by total_moat_score. Whenever the
    sort changes the order of the scores, the output is not
    index-aligned with the input companies: some position does not hold
    the score of the company at that position. *)
Theorem score_companies_sorted
    (now : Py.datetime) (companies : list Company.t)
    (external_data : gmap string ExternalData.t)
    (industry_data_map : gmap string IndustryData.t) :
  let momentum_of company :=
    MomentumScoringEngine.calculate_momentum_score now company
      (dict_get external_data (Company.company_id company) ExternalData.empty) in
  let moat_of company :=
    MoatScoringEngine.calculate_moat_score now company
      (dict_get industry_data_map (Company.company_id company) IndustryData.empty) in
  let momentum := MomentumScoringEngine.score_companies now companies external_data in
  let moat := MoatScoringEngine.score_companies now companies industry_data_map in
  (length momentum = length companies /\
   Permutation momentum (map momentum_of companies) /\
   StronglySorted (desc MomentumScore.momentum_score) momentum /\
   (momentum <> map momentum_of companies ->
    ~ (forall i : nat, momentum !! i = momentum_of <$> companies !! i))) /\
  (length moat = length companies /\
   Permutation moat (map moat_of companies) /\
   StronglySorted (desc MoatScore.total_moat_score) moat /\
   (moat <> map moat_of companies ->
    ~ (forall i : nat, moat !! i = moat_of <$> companies !! i))).
Proof.
  cbv zeta.
  unfold MomentumScoringEngine.score_companies, MoatScoringEngine.score_companies.
  cbv zeta. split.
  - split; [| split; [| split]].
    + now rewrite sort_desc_length, length_map.
    + apply sort_desc_perm.
    + apply sort_desc_strongly_sorted.
    + intros Hne Hall. apply (changed_not_aligned _ _ Hne).
      intros i. rewrite Hall. symmetry. apply list_lookup_fmap.
  - split; [| split; [| split]].
    + now rewrite sort_desc_length, length_map.
    + apply sort_desc_perm.
    + apply sort_desc_strongly_sorted.
    + intros Hne Hall. apply (changed_not_aligned _ _ Hne).
      intros i. rewrite Hall. symmetry. apply list_lookup_fmap.
Qed.

(** ** Sample inputs *)

Module Sample.

Local Open Scope string_scope.

(** 2026-11-04T00:00:00 *)
Definition now : Py.datetime := Py.timedelta 739923.

(** An early-stage company with no traction yet. *)
Definition seedling : Company.t :=
  Company.mk "c-001" "Seedling Data" DATA_INFRA WAVE_1 "pipeline sprawl"
    [] 0 None [] 0 [] 0 0 0 [] 0 None 0 0 None
    (Py.timedelta 738000) "Austin" "https://seedling.example" now.

(** A late-stage company with revenue, customers and staff. *)
Definition flagship : Company.t :=
  Company.mk "c-002" "Flagship Quantum" QUANTUM WAVE_3 "qubit stability"
    [] 600000000 (Some 4000000000) [] 40 [] 6000 70 30
    [ PublicProxy.mk "IONQ" "peer" (55 # 100) None;
      PublicProxy.mk "IBM" "platform" (62 # 100) None;
      PublicProxy.mk "HON" "supplier" (62 # 100) None ]
    60 (Some 600000000) (40 # 100) (70 # 100) None
    (Py.timedelta 735000) "Boulder" "https://flagship.example" now.

(** A late-stage company whose last valuation is not recorded. *)
Definition unpriced : Company.t :=
  Company.mk "c-003" "Unpriced Security" CYBERSECURITY WAVE_2 "identity sprawl"
    [] 400000000 None [] 5 [] 900 50 10 [] 12 None (30 # 100) (60 # 100) None
    (Py.timedelta 736000) "Boston" "https://unpriced.example" now.

(** A company with exactly $100M of funding. *)
Definition midstage : Company.t :=
  Company.mk "c-004" "Midstage Cyber" CYBERSECURITY WAVE_2 "breach fatigue"
    [] 100000000 (Some 500000000) [] 3 [] 300 50 10 [] 8 None (10 # 100) (20 # 100) None
    (Py.timedelta 737000) "Denver" "https://midstage.example" now.

Definition momentum_for (company : Company.t) (momentum : Q) (flag : DivergenceFlag)
  : MomentumScore.t :=
  MomentumScore.mk (Company.company_id company) (Company.name company)
    20 25 0 10 20 50 30 0 15 0 20 50 momentum 0 0 flag now.

Definition moat_for (company : Company.t) (total : Q) : MoatScore.t :=
  MoatScore.mk (Company.company_id company) (Company.name company)
    50 50 50 50 50 total WAVE_2 "Medium" now.

End Sample.

Lemma score_companies_sorted_witness :
  ~ (forall i : nat,
       MomentumScoringEngine.score_companies Sample.now
         [Sample.seedling; Sample.flagship] ∅ !! i
       = (fun company =>
            MomentumScoringEngine.calculate_momentum_score Sample.now company
              (dict_get ∅ (Company.company_id company) ExternalData.empty))
         <$> [Sample.seedling; Sample.flagship] !! i) /\
  ~ (forall i : nat,
       MoatScoringEngine.score_companies Sample.now
         [Sample.seedling; Sample.flagship] ∅ !! i
       = (fun company =>
            MoatScoringEngine.calculate_moat_score Sample.now company
              (dict_get ∅ (Company.company_id company) IndustryData.empty))
         <$> [Sample.seedling; Sample.flagship] !! i).
Proof.
  destruct (score_companies_sorted Sample.now [Sample.seedling; Sample.flagship] ∅ ∅)
    as [(_ & _ & _ & Hm) (_ & _ & _ & Ht)].
  split.
  - apply Hm. intros E.
    apply (f_equal (fun l => MomentumScore.company_id <$> l !! 0%nat)) in E.
    vm_compute in E. discriminate E.
  - apply Ht. intros E.
    apply (f_equal (fun l => MoatScore.company_id <$> l !! 0%nat)) in E.
    vm_compute in E. discriminate E.
Defined.

(** ** C2: conviction *)

(** The conviction formula in the words of the specification: the sum of
    four terms, clamped to [0, 1]. *)
Definition spec_divergence_adjustment (flag : DivergenceFlag) : Q :=
  match flag with
  | CONFIRMED_MOMENTUM => 10 # 100
  | MISPRICED_OPPORTUNITY => 15 # 100
  | BUBBLE_RISK => - (25 # 100)
  | NO_SIGNAL => - (10 # 100)
  end.

Definition spec_catalyst_boost (catalyst : option Catalyst.t) : Q :=
  match catalyst with
  | Some c => if Qlt_le_dec (50 # 100) (Catalyst.probability_6mo c) then 10 # 100 else 0
  | None => 0
  end.

Definition spec_conviction
    (momentum moat : Q) (flag : DivergenceFlag) (catalyst : option Catalyst.t) : Q :=
  Qmax 0 (Qmin 1 (momentum / 100 + (moat - 50) / 500
                  + spec_catalyst_boost catalyst + spec_divergence_adjustment flag)).

Section Conviction.

Lemma py_clamp_is_clamp x : Py.max 0 (Py.min 1 x) == Qmax 0 (Qmin 1 x).
Proof.
  destruct (Q.min_spec 1 x) as [[H1 E1] | [H1 E1]];
    destruct (Q.max_spec 0 (Qmin 1 x)) as [[H2 E2] | [H2 E2]];
    set (lo := Qmin 1 x) in *; set (hi := Qmax 0 lo) in *;
    unfold Py.min; destruct (Py.ltb x 1) eqn:E;
    [apply ltb_true in E | apply ltb_false in E | apply ltb_true in E
    | apply ltb_false in E | apply ltb_true in E | apply ltb_false in E
    | apply ltb_true in E | apply ltb_false in E];
    unfold Py.max; cmp_cases; lra.
Qed.

Lemma catalyst_boost_spec (catalyst : option Catalyst.t) :
  match catalyst with
  | Some c => if Py.gtb (Catalyst.probability_6mo c) (50 # 100) then 10 # 100 else 0
  | None => 0
  end = spec_catalyst_boost catalyst.
Proof.
  unfold spec_catalyst_boost. destruct catalyst as [c |]; [| reflexivity].
  destruct (Qlt_le_dec _ _) as [H | H]; cmp_cases; try reflexivity; lra.
Qed.

Lemma conviction_refines_spec m t c :
  TradeSignalGenerator._calculate_conviction m t c
  == spec_conviction (MomentumScore.momentum_score m) (MoatScore.total_moat_score t)
       (MomentumScore.divergence_flag m) c.
Proof.
  unfold TradeSignalGenerator._calculate_conviction, spec_conviction. cbv zeta.
  rewrite catalyst_boost_spec, py_clamp_is_clamp.
  destruct (MomentumScore.divergence_flag m); reflexivity.
Qed.

Lemma conviction_range m t c :
  0 <= TradeSignalGenerator._calculate_conviction m t c <= 1.
Proof.
  unfold TradeSignalGenerator._calculate_conviction. cbv zeta.
  apply clamp_range. lra.
Qed.

Local Open Scope float_scope.

Lemma float_ltb_leb (x y : float) : PrimFloat.ltb x y = true -> PrimFloat.leb x y = true.
Proof.
  rewrite ltb_spec, leb_spec. unfold SFltb, SFleb.
  destruct (SFcompare (Prim2SF x) (Prim2SF y)) as [[] |]; congruence.
Qed.

(** The double the code returns is in [0, 1] for every input, NaN and
    the infinities included. *)
Lemma binary64_conviction_range (momentum moat : float) flag p :
  PrimFloat.leb 0 (Binary64._calculate_conviction momentum moat flag p) = true /\
  PrimFloat.leb (Binary64._calculate_conviction momentum moat flag p) 1 = true.
Proof.
  unfold Binary64._calculate_conviction. cbv zeta.
  generalize (momentum / 100 + (moat - 50) / 500
              + match p with
                | Some p0 => if PrimFloat.ltb 0.5 p0 then 0x1.999999999999ap-4 else 0
                | None => 0
                end
              + default 0 (Binary64.divergence_adjustments flag)).
  intros x. unfold Binary64.min.
  destruct (PrimFloat.ltb x 1) eqn:E1.
  - unfold Binary64.max. destruct (PrimFloat.ltb 0 x) eqn:E0.
    + split; now apply float_ltb_leb.
    + split; reflexivity.
  - split; reflexivity.
Qed.

End Conviction.

Set Warnings "-inexact-float".

(** C2, as the code has it. For every momentum score, moat score and
    optional catalyst the conviction is
    momentum_score/100 + (total_moat_score - 50)/500
    + (0.10 if a catalyst is present with probability_6mo > 0.50, else 0)
    + the divergence adjustment (+0.10, +0.15, -0.25, -0.10), clamped to
    [0, 1], so it always lies in [0, 1]. For momentum_score = 100,
    total_moat_score = 100, BUBBLE_RISK and no catalyst the value is 0.85
    in exact arithmetic; the double the code returns lies in [0, 1] as
    well and is 0x1.b333333333334p-1 (printed 0.8500000000000001), the
    double next above 0.85. *)
Theorem conviction_clamped
    (m : MomentumScore.t) (t : MoatScore.t) (c : option Catalyst.t) :
  let conviction := TradeSignalGenerator._calculate_conviction m t c in
  conviction
  == spec_conviction (MomentumScore.momentum_score m) (MoatScore.total_moat_score t)
       (MomentumScore.divergence_flag m) c /\
  0 <= conviction <= 1 /\
  (MomentumScore.momentum_score m == 100 -> MoatScore.total_moat_score t == 100 ->
   MomentumScore.divergence_flag m = BUBBLE_RISK -> c = None ->
   conviction == 85 # 100) /\
  (forall (momentum moat : float) flag p,
     PrimFloat.leb 0 (Binary64._calculate_conviction momentum moat flag p) = true /\
     PrimFloat.leb (Binary64._calculate_conviction momentum moat flag p) 1 = true) /\
  Binary64._calculate_conviction 100 100 BUBBLE_RISK None = 0x1.b333333333334p-1%float /\
  PrimFloat.next_up 0.85 = 0x1.b333333333334p-1%float.
Proof.
  cbv zeta. split; [apply conviction_refines_spec |].
  split; [apply conviction_range |].
  split.
  - intros Hm Ht Hf ->.
    unfold TradeSignalGenerator._calculate_conviction. cbv zeta. rewrite Hf. simpl.
    unfold Py.min, Py.max.
    set (x := MomentumScore.momentum_score m / 100
              + (MoatScore.total_moat_score t - 50) / 500 + 0 + - (25 # 100)).
    assert (Hx : x == 85 # 100).
    { unfold x. rewrite Hm, Ht. reflexivity. }
    destruct (Py.ltb x 1) eqn:E; [apply ltb_true in E | apply ltb_false in E];
      cmp_cases; lra.
  - split; [apply binary64_conviction_range |].
    split; vm_compute; reflexivity.
Qed.

Lemma conviction_clamped_witness :
  TradeSignalGenerator._calculate_conviction
    (Sample.momentum_for Sample.flagship 100 BUBBLE_RISK)
    (Sample.moat_for Sample.flagship 100) None == 85 # 100.
Proof.
  destruct (conviction_clamped
              (Sample.momentum_for Sample.flagship 100 BUBBLE_RISK)
              (Sample.moat_for Sample.flagship 100) None) as (_ & _ & H & _).
  apply H; reflexivity.
Defined.

(** On the doubles the code computes with, the conviction at
    momentum_score = 100, total_moat_score = 100, BUBBLE_RISK and no
    catalyst is not 0.85: [conviction == 0.85] is false. *)
Lemma conviction_not_exactly_085 :
  PrimFloat.eqb (Binary64._calculate_conviction 100 100 BUBBLE_RISK None) 0.85 = false /\
  Binary64._calculate_conviction 100 100 BUBBLE_RISK None <> 0.85%float.
Proof.
  split.
  - vm_compute. reflexivity.
  - intros E.
    apply (f_equal (fun x => PrimFloat.eqb x 0.85)) in E.
    vm_compute in E. discriminate E.
Qed.

Set Warnings "+inexact-float".

(** ** C7: M&A timing *)

(** The sectors the specification lists for the M&A bonus. *)
Definition spec_high_ma_sector (s : Sector) : bool :=
  match s with
  | CYBERSECURITY | DATA_INFRA | BIOTECH_INFRA => true
  | _ => false
  end.

Lemma high_ma_sector_spec s :
  TimingPredictionEngine.str_in (Sector_value s) TimingPredictionEngine.high_ma_sectors
  = spec_high_ma_sector s.
Proof. destruct s; reflexivity. Qed.

(** C7, as the code has it. predict_ma_timing returns a Catalyst exactly
    when $100M <= total_funding <= $500M, and none otherwise. A returned
    catalyst has confidence 0.35, plus 0.15 when the sector is one of
    Cybersecurity, Data_Infra, Biotech_Infra, and an estimated date 540
    days after the time of the call. *)
Theorem predict_ma_timing_window (now : Py.datetime) (company : Company.t) :
  (is_Some (TimingPredictionEngine.predict_ma_timing now company)
   <-> 100000000 <= Company.total_funding company <= 500000000) /\
  (forall catalyst,
     TimingPredictionEngine.predict_ma_timing now company = Some catalyst ->
     Catalyst.confidence catalyst
     == (35 # 100) + (if spec_high_ma_sector (Company.sector company)
                      then 15 # 100 else 0) /\
     Catalyst.estimated_date catalyst = (now + Py.timedelta 540)%Z /\
     Py.delta_days (Catalyst.estimated_date catalyst) now = 540%Z).
Proof.
  unfold TimingPredictionEngine.predict_ma_timing. cbv zeta.
  rewrite high_ma_sector_spec. split.
  - cmp_cases; split; intros H; try lra; try (now inversion H); eauto.
  - intros catalyst. cmp_cases; try discriminate.
    intros [= <-]. cbn [Catalyst.confidence Catalyst.estimated_date].
    split; [| split].
    + destruct (spec_high_ma_sector _); lra.
    + reflexivity.
    + unfold Py.delta_days, Py.timedelta.
      replace (now + 540 * 86400000000 - now)%Z with (540 * 86400000000)%Z by lia.
      apply Z.div_mul. discriminate.
Qed.

Lemma predict_ma_timing_window_witness :
  is_Some (TimingPredictionEngine.predict_ma_timing Sample.now Sample.unpriced) /\
  (forall catalyst,
     TimingPredictionEngine.predict_ma_timing Sample.now Sample.unpriced = Some catalyst ->
     Catalyst.confidence catalyst == 50 # 100).
Proof.
  destruct (predict_ma_timing_window Sample.now Sample.unpriced) as [Hw Hc].
  split.
  - apply Hw. split; discriminate.
  - intros catalyst E. destruct (Hc catalyst E) as (Hconf & _).
    rewrite Hconf. reflexivity.
Defined.

(** With exactly $100M of funding, which is not more than $100M, a
    catalyst is returned. *)
Lemma predict_ma_timing_at_100M :
  ~ 100000000 < Company.total_funding Sample.midstage /\
  is_Some (TimingPredictionEngine.predict_ma_timing Sample.now Sample.midstage).
Proof.
  split.
  - intros H. discriminate H.
  - vm_compute. eauto.
Qed.

(** ** C8: the second-order engine *)

Section SecondOrder.
Variable now : Py.datetime.
Variable price_correlations : gmap string Q.

Lemma infer_sector_mapped name :
  SecondOrderArbitrageEngine._infer_sector name <> BIOTECH_INFRA.
Proof.
  unfold SecondOrderArbitrageEngine._infer_sector. cbv zeta.
  split_ifs; discriminate.
Qed.

(** Every play appended for a score carries that score's name and
    momentum. *)
Lemma supplier_play_primary s dep supplier p :
  In p (SecondOrderArbitrageEngine.supplier_play now price_correlations s dep supplier) ->
  SecondOrderPlay.primary_technology p = MomentumScore.company_name s /\
  SecondOrderPlay.primary_momentum_score p = MomentumScore.momentum_score s.
Proof.
  unfold SecondOrderArbitrageEngine.supplier_play.
  destruct (SecondOrderArbitrageEngine.supplier_ticker supplier) as [ticker |];
    [| intros []].
  destruct (String.eqb ticker ""); [intros [] |].
  cbv zeta. intros [<- | []]. split; reflexivity.
Qed.

Lemma plays_of_primary s p :
  In p (SecondOrderArbitrageEngine.plays_of now price_correlations s) ->
  SecondOrderPlay.primary_technology p = MomentumScore.company_name s /\
  SecondOrderPlay.primary_momentum_score p = MomentumScore.momentum_score s.
Proof.
  unfold SecondOrderArbitrageEngine.plays_of. cbv zeta.
  destruct (SecondOrderArbitrageEngine.dependency_map _) as [deps |]; [| intros []].
  intros H. apply in_flat_map in H as (dep & _ & H).
  apply in_flat_map in H as (supplier & _ & H).
  eapply supplier_play_primary, H.
Qed.

(** Every score contributes at least one play once it is considered. *)
Lemma plays_of_nonempty s :
  exists p, In p (SecondOrderArbitrageEngine.plays_of now price_correlations s).
Proof.
  unfold SecondOrderArbitrageEngine.plays_of. cbv zeta.
  pose proof (infer_sector_mapped (MomentumScore.company_name s)) as Hs.
  destruct (SecondOrderArbitrageEngine._infer_sector (MomentumScore.company_name s));
    try congruence; simpl; eexists; left; reflexivity.
Qed.

Lemma in_find_second_order_plays scores p :
  In p (SecondOrderArbitrageEngine.find_second_order_plays now price_correlations scores)
  <-> exists s, In s scores /\ 70 < MomentumScore.momentum_score s /\
                In p (SecondOrderArbitrageEngine.plays_of now price_correlations s).
Proof.
  unfold SecondOrderArbitrageEngine.find_second_order_plays. cbv zeta.
  split.
  - intros H. eapply Permutation_in in H; [| apply sort_desc_perm].
    apply in_flat_map in H as (s & Hs & Hp).
    apply filter_In in Hs as [Hs Hgt].
    rewrite gtb_ltb in Hgt. apply ltb_true in Hgt. eauto.
  - intros (s & Hs & Hgt & Hp).
    eapply Permutation_in; [symmetry; apply sort_desc_perm |].
    apply in_flat_map. exists s. split; [| exact Hp].
    apply filter_In. split; [exact Hs |].
    rewrite gtb_ltb. now apply ltb_true.
Qed.

End SecondOrder.

(** C8. find_second_order_plays considers a momentum score only when its
    momentum_score is strictly greater than 70. Every returned play comes
    from such a score; a score of exactly 70 contributes nothing, the
    result being the one obtained without it; every score above 70 has an
    inferred sector with dependency-map entries and contributes a play.
    A company at 70.0 alone gives no plays, the same company at 70.01
    gives some. *)
Theorem second_order_threshold
    (now : Py.datetime) (price_correlations : gmap string Q)
    (scores : list MomentumScore.t) :
  let plays :=
    SecondOrderArbitrageEngine.find_second_order_plays now price_correlations scores in
  (forall p, In p plays ->
     exists s, In s scores /\ 70 < MomentumScore.momentum_score s /\
               SecondOrderPlay.primary_technology p = MomentumScore.company_name s /\
               SecondOrderPlay.primary_momentum_score p = MomentumScore.momentum_score s) /\
  (forall before s after,
     scores = (before ++ s :: after)%list -> MomentumScore.momentum_score s == 70 ->
     plays = SecondOrderArbitrageEngine.find_second_order_plays now price_correlations
               (before ++ after)) /\
  (forall s, In s scores -> 70 < MomentumScore.momentum_score s ->
     is_Some (SecondOrderArbitrageEngine.dependency_map
                (SecondOrderArbitrageEngine._infer_sector (MomentumScore.company_name s))) /\
     exists p, In p plays /\
               SecondOrderPlay.primary_technology p = MomentumScore.company_name s /\
               SecondOrderPlay.primary_momentum_score p = MomentumScore.momentum_score s) /\
  SecondOrderArbitrageEngine.find_second_order_plays now price_correlations
    [Sample.momentum_for Sample.flagship 70 NO_SIGNAL] = [] /\
  SecondOrderArbitrageEngine.find_second_order_plays now price_correlations
    [Sample.momentum_for Sample.flagship (7001 # 100) NO_SIGNAL] <> [].
Proof.
  cbv zeta. split; [| split; [| split; [| split]]].
  - intros p Hp. apply in_find_second_order_plays in Hp as (s & Hs & Hgt & Hp).
    apply plays_of_primary in Hp as [H1 H2]. eauto.
  - intros before s after -> Hs.
    unfold SecondOrderArbitrageEngine.find_second_order_plays. cbv zeta.
    rewrite !List.filter_app. simpl.
    assert (E : Py.gtb (MomentumScore.momentum_score s) 70 = false).
    { rewrite gtb_ltb. apply ltb_false. lra. }
    now rewrite E.
  - intros s Hs Hgt. split.
    + pose proof (infer_sector_mapped (MomentumScore.company_name s)) as Hm.
      destruct (SecondOrderArbitrageEngine._infer_sector (MomentumScore.company_name s));
        try congruence; simpl; eauto.
    + destruct (plays_of_nonempty now price_correlations s) as [p Hp].
      exists p. split.
      * apply in_find_second_order_plays. eauto.
      * eapply plays_of_primary, Hp.
  - reflexivity.
  - intros E.
    apply (f_equal (@length _)) in E.
    unfold SecondOrderArbitrageEngine.find_second_order_plays in E.
    rewrite sort_desc_length in E.
    vm_compute in E. discriminate E.
Qed.

Lemma second_order_threshold_witness :
  exists p,
    In p (SecondOrderArbitrageEngine.find_second_order_plays Sample.now ∅
            [ Sample.momentum_for Sample.seedling 70 NO_SIGNAL;
              Sample.momentum_for Sample.flagship (7001 # 100) NO_SIGNAL ]) /\
    SecondOrderPlay.primary_technology p = "Flagship Quantum"%string.
Proof.
  destruct (second_order_threshold Sample.now ∅
              [ Sample.momentum_for Sample.seedling 70 NO_SIGNAL;
                Sample.momentum_for Sample.flagship (7001 # 100) NO_SIGNAL ])
    as (_ & _ & H & _).
  destruct (H (Sample.momentum_for Sample.flagship (7001 # 100) NO_SIGNAL))
    as (_ & p & Hp & Hname & _).
  - right. left. reflexivity.
  - reflexivity.
  - exists p. split; [exact Hp | exact Hname].
Defined.

(** ** C10: the public proxy *)

Section PublicProxyFacts.

Lemma max_by_spec {A} (key : A -> Q) (l : list A) (x : A) :
  In (Py.max_by key x l) (x :: l) /\
  forall y, In y (x :: l) -> key y <= key (Py.max_by key x l).
Proof.
  revert x. induction l as [| z l IH]; intros x.
  - unfold Py.max_by. simpl. split; [now left |]. intros y [<- | []]. lra.
  - unfold Py.max_by in *. simpl fold_left.
    destruct (Py.gtb (key z) (key x)) eqn:E.
    + rewrite gtb_ltb in E. apply ltb_true in E.
      destruct (IH z) as [Hin Hmax]. split.
      * right. exact Hin.
      * intros y [<- | Hy]; [| now apply Hmax].
        specialize (Hmax z (or_introl eq_refl)). lra.
    + rewrite gtb_ltb in E. apply ltb_false in E.
      destruct (IH x) as [Hin Hmax]. split.
      * destruct Hin as [<- | Hin]; [now left | right; now right].
      * intros y [<- | [<- | Hy]].
        -- apply Hmax. now left.
        -- specialize (Hmax x (or_introl eq_refl)). lra.
        -- apply Hmax. now right.
Qed.

Lemma sector_etfs_total s :
  is_Some (TradeSignalGenerator.str_get TradeSignalGenerator.sector_etfs (Sector_value s)).
Proof. destruct s; simpl; eauto. Qed.

Lemma generate_signal_public_proxy now rank company m t catalyst signal :
  TradeSignalGenerator.generate_signal now rank company m t catalyst = Py.Ok signal ->
  TradeSignal.public_proxy signal = TradeSignalGenerator._identify_public_proxy company.
Proof.
  unfold TradeSignalGenerator.generate_signal. cbv zeta.
  destruct (TradeSignalGenerator._identify_pre_ipo_access company); simpl;
    [| discriminate].
  intros [= <-]. reflexivity.
Qed.

End PublicProxyFacts.

(** C10. For every company the public-proxy route is present:
    _identify_public_proxy returns a string, built from the
    highest-correlation entry of public_proxies when that list is not
    empty, otherwise the sector-ETF string of the company's sector,
    otherwise "QQQ (Nasdaq-100)"; so the public_proxy field of every
    generated TradeSignal is present. *)
Theorem public_proxy_present (company : Company.t) :
  is_Some (TradeSignalGenerator._identify_public_proxy company) /\
  (Company.public_proxies company <> [] ->
   exists best,
     In best (Company.public_proxies company) /\
     (forall p, In p (Company.public_proxies company) ->
        PublicProxy.correlation_score p <= PublicProxy.correlation_score best) /\
     TradeSignalGenerator._identify_public_proxy company
     = Some (TradeSignalGenerator.proxy_text best)) /\
  (Company.public_proxies company = [] ->
   TradeSignalGenerator._identify_public_proxy company
   = Some (default "QQQ (Nasdaq-100)"%string
             (TradeSignalGenerator.str_get TradeSignalGenerator.sector_etfs
                (Sector_value (Company.sector company))))) /\
  (forall now rank m t catalyst signal,
     TradeSignalGenerator.generate_signal now rank company m t catalyst = Py.Ok signal ->
     is_Some (TradeSignal.public_proxy signal)).
Proof.
  assert (Hsome : is_Some (TradeSignalGenerator._identify_public_proxy company)).
  { unfold TradeSignalGenerator._identify_public_proxy.
    destruct (Company.public_proxies company); eauto. }
  split; [exact Hsome |]. split; [| split].
  - unfold TradeSignalGenerator._identify_public_proxy.
    destruct (Company.public_proxies company) as [| p ps]; [congruence |].
    intros _. cbv zeta.
    destruct (max_by_spec PublicProxy.correlation_score ps p) as [Hin Hmax].
    exists (Py.max_by PublicProxy.correlation_score p ps). auto.
  - unfold TradeSignalGenerator._identify_public_proxy. now intros ->.
  - intros now rank m t catalyst signal E.
    rewrite (generate_signal_public_proxy _ _ _ _ _ _ _ E). exact Hsome.
Qed.

Lemma public_proxy_present_witness :
  (exists best,
     In best (Company.public_proxies Sample.flagship) /\
     TradeSignalGenerator._identify_public_proxy Sample.flagship
     = Some (TradeSignalGenerator.proxy_text best)) /\
  TradeSignalGenerator._identify_public_proxy Sample.seedling
  = Some "SKYY (Cloud Computing ETF)"%string.
Proof.
  split.
  - destruct (public_proxy_present Sample.flagship) as (_ & H & _).
    destruct H as (best & Hin & _ & E); [discriminate |].
    exists best. split; [exact Hin | exact E].
  - destruct (public_proxy_present Sample.seedling) as (_ & _ & H & _).
    rewrite H; reflexivity.
Defined.

(** ** C1, C6: the batch of trade signals *)

(** The secondary-market text can be built: a company that qualifies for
    it has a last valuation. *)
Definition valuation_known (company : Company.t) : Prop :=
  50 # 100 < Company.ipo_probability_12mo company ->
  300000000 < Company.total_funding company ->
  is_Some (Company.last_valuation company).

(** A signal with its rank erased. *)
Definition unranked (signal : TradeSignal.t) : TradeSignal.t :=
  TradeSignal.set_rank 0 signal.

Section Signals.
Variable now : Py.datetime.

Lemma pre_ipo_access_total company :
  valuation_known company ->
  exists text, TradeSignalGenerator._identify_pre_ipo_access company = Py.Ok text.
Proof.
  unfold valuation_known, TradeSignalGenerator._identify_pre_ipo_access.
  intros H. rewrite !gtb_ltb.
  destruct (Py.ltb (50 # 100) _) eqn:E1; simpl; [| eauto].
  destruct (Py.ltb 300000000 _) eqn:E2; simpl; [| eauto].
  apply ltb_true in E1, E2. destruct (H E1 E2) as [v ->]. eauto.
Qed.

Lemma pre_ipo_access_raises company e :
  TradeSignalGenerator._identify_pre_ipo_access company = Py.Raise e ->
  e = Py.TypeError /\ ~ valuation_known company.
Proof.
  unfold valuation_known, TradeSignalGenerator._identify_pre_ipo_access.
  rewrite !gtb_ltb.
  destruct (Py.ltb (50 # 100) _) eqn:E1; simpl; [| discriminate].
  destruct (Py.ltb 300000000 _) eqn:E2; simpl; [| discriminate].
  apply ltb_true in E1, E2.
  destruct (Company.last_valuation company) eqn:Ev; [discriminate |].
  intros [= <-]. split; [reflexivity |].
  intros H. destruct (H E1 E2) as [v Hv]. discriminate Hv.
Qed.

Lemma generate_signal_total rank company m t catalyst :
  valuation_known company ->
  exists signal,
    TradeSignalGenerator.generate_signal now rank company m t catalyst = Py.Ok signal.
Proof.
  intros H. unfold TradeSignalGenerator.generate_signal. cbv zeta.
  destruct (pre_ipo_access_total company H) as [text ->]. simpl. eauto.
Qed.

Lemma generate_signal_raises rank company m t catalyst e :
  TradeSignalGenerator.generate_signal now rank company m t catalyst = Py.Raise e ->
  e = Py.TypeError /\ ~ valuation_known company.
Proof.
  unfold TradeSignalGenerator.generate_signal. cbv zeta.
  destruct (TradeSignalGenerator._identify_pre_ipo_access company) eqn:E; simpl;
    [discriminate |].
  intros [= <-]. eapply pre_ipo_access_raises, E.
Qed.

Lemma index_Ok {A} (l : list A) i a : Py.index l i = Py.Ok a <-> l !! i = Some a.
Proof.
  unfold Py.index. destruct (l !! i); split; intros H; try discriminate; congruence.
Qed.

Lemma index_Raise {A} (l : list A) i e :
  Py.index l i = Py.Raise e <-> (length l <= i)%nat /\ e = Py.IndexError.
Proof.
  unfold Py.index. destruct (l !! i) eqn:E; split.
  - discriminate.
  - intros [Hlen _]. apply lookup_lt_Some in E. lia.
  - intros [= <-]. apply lookup_ge_None in E. split; [exact E | reflexivity].
  - now intros [_ ->].
Qed.

Variable momentum_scores : list MomentumScore.t.
Variable moat_scores : list MoatScore.t.
Variable catalysts : gmap string Catalyst.t.

Local Abbreviation collect :=
  (TradeSignalGenerator.collect_signals now momentum_scores moat_scores catalysts).

(** What the first loop produces when it completes: the signal of each
    company, from the scores at the company's index. *)
Lemma collect_signals_spec companies : forall i signals,
  collect i companies = Py.Ok signals ->
  length signals = length companies /\
  forall k company, companies !! k = Some company ->
    exists m t signal,
      momentum_scores !! (i + k)%nat = Some m /\
      moat_scores !! (i + k)%nat = Some t /\
      TradeSignalGenerator.generate_signal now (Z.of_nat (i + k) + 1) company m t
        (catalysts !! Company.company_id company) = Py.Ok signal /\
      signals !! k = Some signal.
Proof.
  induction companies as [| company rest IH]; intros i signals H; simpl in H.
  - injection H as <-. split; [reflexivity |]. intros k c Hk. discriminate Hk.
  - destruct (Py.index momentum_scores i) as [m |] eqn:Em; simpl in H; [| discriminate].
    destruct (Py.index moat_scores i) as [t |] eqn:Et; simpl in H; [| discriminate].
    destruct (TradeSignalGenerator.generate_signal now _ company m t _)
      as [signal |] eqn:Es; simpl in H; [| discriminate].
    destruct (collect (S i) rest) as [signals' |] eqn:Er; simpl in H; [| discriminate].
    injection H as <-.
    destruct (IH _ _ Er) as [Hlen Hall].
    split; [simpl; now rewrite Hlen |].
    intros [| k] c Hk; simpl in Hk.
    + injection Hk as <-. exists m, t, signal.
      rewrite Nat.add_0_r. apply index_Ok in Em, Et. auto.
    + destruct (Hall k c Hk) as (m' & t' & s' & H1 & H2 & H3 & H4).
      exists m', t', s'.
      replace (i + S k)%nat with (S i + k)%nat by lia. auto.
Qed.

Lemma collect_signals_total companies : forall i,
  (i + length companies <= length momentum_scores)%nat ->
  (i + length companies <= length moat_scores)%nat ->
  Forall valuation_known companies ->
  exists signals, collect i companies = Py.Ok signals.
Proof.
  induction companies as [| company rest IH]; intros i Hm Ht Hv; simpl in *.
  - eauto.
  - destruct (lookup_lt_is_Some_2 momentum_scores i ltac:(lia)) as [m Em].
    destruct (lookup_lt_is_Some_2 moat_scores i ltac:(lia)) as [t Et].
    apply index_Ok in Em, Et. rewrite Em, Et. simpl.
    inversion Hv as [| ? ? Hc Hrest]; subst.
    destruct (generate_signal_total (Z.of_nat i + 1) company m t
                (catalysts !! Company.company_id company) Hc) as [signal ->].
    simpl.
    destruct (IH (S i) ltac:(lia) ltac:(lia) Hrest) as [signals ->].
    simpl. eauto.
Qed.

(** The exception of a short score list is the IndexError of its first
    missing entry as soon as every company before that entry has
    generated its signal: the companies from that entry on are never
    looked at. *)
Lemma collect_signals_short_prefix companies : forall i,
  (i <= length momentum_scores)%nat -> (i <= length moat_scores)%nat ->
  (length momentum_scores < i + length companies
   \/ length moat_scores < i + length companies)%nat ->
  exists e,
    collect i companies = Py.Raise e /\
    (Forall valuation_known
       (take (Nat.min (length momentum_scores) (length moat_scores) - i) companies) ->
     e = Py.IndexError).
Proof.
  induction companies as [| company rest IH]; intros i Hm Ht Hshort; simpl in *.
  - lia.
  - destruct (Py.index momentum_scores i) as [m | e] eqn:Em; simpl.
    2: { apply index_Raise in Em as [_ ->]. eauto. }
    destruct (Py.index moat_scores i) as [t | e] eqn:Et; simpl.
    2: { apply index_Raise in Et as [_ ->]. eauto. }
    apply index_Ok in Em, Et.
    apply lookup_lt_Some in Em, Et.
    replace (Nat.min (length momentum_scores) (length moat_scores) - i)%nat
      with (S (Nat.min (length momentum_scores) (length moat_scores) - S i)) by lia.
    rewrite firstn_cons.
    destruct (TradeSignalGenerator.generate_signal now _ company m t _)
      as [signal | e] eqn:Es; simpl.
    2: { apply generate_signal_raises in Es as [-> Hnot].
         eexists. split; [reflexivity |].
         intros Hv. inversion Hv; subst. contradiction. }
    destruct (IH (S i) ltac:(lia) ltac:(lia) ltac:(lia)) as (e & -> & He).
    simpl. exists e. split; [reflexivity |].
    intros Hv. inversion Hv; subst. auto.
Qed.

End Signals.

Section Surplus.
Variable now : Py.datetime.
Variable catalysts : gmap string Catalyst.t.

(** Entries beyond the last company are never read. *)
Lemma collect_signals_take momentum_scores moat_scores n companies : forall i,
  (i + length companies <= n)%nat ->
  TradeSignalGenerator.collect_signals now
    (take n momentum_scores) (take n moat_scores) catalysts i companies
  = TradeSignalGenerator.collect_signals now
      momentum_scores moat_scores catalysts i companies.
Proof.
  induction companies as [| company rest IH]; intros i Hn; simpl in *.
  - reflexivity.
  - unfold Py.index. rewrite !lookup_take_lt by lia.
    rewrite IH by lia. reflexivity.
Qed.

End Surplus.

Section Ranks.

Lemma update_ranks_length signals : forall i,
  length (TradeSignalGenerator.update_ranks i signals) = length signals.
Proof. induction signals; intros i; simpl; [reflexivity | now rewrite IHsignals]. Qed.

Lemma update_ranks_rank signals : forall i,
  map TradeSignal.rank (TradeSignalGenerator.update_ranks i signals)
  = map Z.of_nat (seq (S i) (length signals)).
Proof.
  induction signals as [| s l IH]; intros i; simpl; [reflexivity |].
  rewrite IH. f_equal. lia.
Qed.

Lemma update_ranks_conviction signals : forall i,
  map TradeSignal.conviction (TradeSignalGenerator.update_ranks i signals)
  = map TradeSignal.conviction signals.
Proof.
  induction signals as [| s l IH]; intros i; simpl; [reflexivity |].
  now rewrite IH.
Qed.

Lemma update_ranks_unranked signals : forall i,
  map unranked (TradeSignalGenerator.update_ranks i signals) = map unranked signals.
Proof.
  induction signals as [| s l IH]; intros i; simpl; [reflexivity |].
  now rewrite IH.
Qed.

(** Being sorted by a key is a property of the list of keys. *)
Lemma sorted_by_keys {A} (key : A -> Q) (l l' : list A) :
  map key l = map key l' ->
  StronglySorted (desc key) l -> StronglySorted (desc key) l'.
Proof.
  revert l'. induction l as [| x l IH]; intros [| y l'] E Hs; simpl in E;
    try discriminate.
  - constructor.
  - injection E as Ex El. inversion Hs as [| ? ? Hs' Hall]; subst.
    constructor; [now apply IH |].
    rewrite List.Forall_forall in *. intros z Hz.
    apply (in_map key) in Hz. rewrite <- El in Hz.
    apply in_map_iff in Hz as (z0 & Ez & Hz0).
    specialize (Hall z0 Hz0). unfold desc in *. rewrite <- Ex, <- Ez. exact Hall.
Qed.

Lemma with_key_unranked c signals :
  with_key TradeSignal.conviction c (map unranked signals)
  = map unranked (with_key TradeSignal.conviction c signals).
Proof.
  unfold with_key. induction signals as [| s l IH]; simpl; [reflexivity |].
  destruct (Py.eqb (TradeSignal.conviction s) c); simpl; now rewrite IH.
Qed.

End Ranks.

Lemma generate_signals_Ok now companies momentum_scores moat_scores catalysts ranked :
  TradeSignalGenerator.generate_signals now companies momentum_scores moat_scores catalysts
  = Py.Ok ranked ->
  exists signals,
    TradeSignalGenerator.collect_signals now momentum_scores moat_scores catalysts
      0 companies = Py.Ok signals /\
    ranked = TradeSignalGenerator.update_ranks 0
               (Py.sort_desc TradeSignal.conviction signals).
Proof.
  unfold TradeSignalGenerator.generate_signals.
  destruct (TradeSignalGenerator.collect_signals _ _ _ _ _ _) as [signals |];
    simpl; [| discriminate].
  intros [= <-]. eauto.
Qed.

(** What the ranking does for the calls that return. When the momentum
    and moat score lists are as long as the company list, every list
    generate_signals returns holds exactly one TradeSignal per input
    company (the signal generated from the company and the scores at its
    index); its ranks are 1..N, the i-th element holding rank i; it is
    sorted in descending order of conviction; and signals of equal
    conviction keep the relative order of their companies in the input.
    The call returns whenever every company that qualifies for the
    secondary-market text has a last valuation; it does not return for
    every aligned call (the failing call is evaluated further down). *)
Theorem generate_signals_ranked
    (now : Py.datetime) (companies : list Company.t)
    (momentum_scores : list MomentumScore.t) (moat_scores : list MoatScore.t)
    (catalysts : gmap string Catalyst.t) :
  length momentum_scores = length companies ->
  length moat_scores = length companies ->
  (forall ranked,
     TradeSignalGenerator.generate_signals now companies momentum_scores moat_scores
       catalysts = Py.Ok ranked ->
     exists signals,
       length signals = length companies /\
       (forall i company, companies !! i = Some company ->
          exists m t signal,
            momentum_scores !! i = Some m /\ moat_scores !! i = Some t /\
            TradeSignalGenerator.generate_signal now (Z.of_nat i + 1) company m t
              (catalysts !! Company.company_id company) = Py.Ok signal /\
            signals !! i = Some signal) /\
       length ranked = length companies /\
       Permutation (map unranked ranked) (map unranked signals) /\
       map TradeSignal.rank ranked = map Z.of_nat (seq 1 (length companies)) /\
       StronglySorted (desc TradeSignal.conviction) ranked /\
       (forall c,
          with_key TradeSignal.conviction c (map unranked ranked)
          = with_key TradeSignal.conviction c (map unranked signals))) /\
  (Forall valuation_known companies ->
   exists ranked,
     TradeSignalGenerator.generate_signals now companies momentum_scores moat_scores
       catalysts = Py.Ok ranked).
Proof.
  intros Hm Ht. split.
  - intros ranked E.
    apply generate_signals_Ok in E as (signals & Ec & ->).
    apply collect_signals_spec in Ec as [Hlen Hall].
    exists signals. split; [exact Hlen |]. split; [exact Hall |].
    split; [| split; [| split; [| split]]].
    + now rewrite update_ranks_length, sort_desc_length.
    + rewrite update_ranks_unranked. apply Permutation_map, sort_desc_perm.
    + now rewrite update_ranks_rank, sort_desc_length, Hlen.
    + apply (sorted_by_keys TradeSignal.conviction
               (Py.sort_desc TradeSignal.conviction signals)).
      * symmetry. apply update_ranks_conviction.
      * apply sort_desc_strongly_sorted.
    + intros c. rewrite update_ranks_unranked, !with_key_unranked.
      now rewrite sort_desc_stable.
  - intros Hv.
    destruct (collect_signals_total now momentum_scores moat_scores catalysts
                companies 0%nat) as [signals Ec]; simpl; try lia; [exact Hv |].
    unfold TradeSignalGenerator.generate_signals. rewrite Ec. simpl. eauto.
Qed.

Lemma generate_signals_ranked_witness :
  exists ranked,
    TradeSignalGenerator.generate_signals Sample.now
      [Sample.seedling; Sample.flagship; Sample.midstage]
      [ Sample.momentum_for Sample.seedling 40 NO_SIGNAL;
        Sample.momentum_for Sample.flagship 80 CONFIRMED_MOMENTUM;
        Sample.momentum_for Sample.midstage 40 NO_SIGNAL ]
      [ Sample.moat_for Sample.seedling 50; Sample.moat_for Sample.flagship 80;
        Sample.moat_for Sample.midstage 50 ]
      ∅ = Py.Ok ranked /\
    map TradeSignal.rank ranked = [1; 2; 3]%Z /\
    StronglySorted (desc TradeSignal.conviction) ranked.
Proof.
  destruct (generate_signals_ranked Sample.now
              [Sample.seedling; Sample.flagship; Sample.midstage]
              [ Sample.momentum_for Sample.seedling 40 NO_SIGNAL;
                Sample.momentum_for Sample.flagship 80 CONFIRMED_MOMENTUM;
                Sample.momentum_for Sample.midstage 40 NO_SIGNAL ]
              [ Sample.moat_for Sample.seedling 50; Sample.moat_for Sample.flagship 80;
                Sample.moat_for Sample.midstage 50 ]
              ∅ eq_refl eq_refl) as [Hranked Hreturns].
  destruct Hreturns as [ranked E].
  - repeat constructor; intros H1 H2;
      first [discriminate H1 | discriminate H2 | (simpl; eauto)].
  - exists ranked. split; [exact E |].
    destruct (Hranked ranked E) as (signals & _ & _ & _ & _ & Hrank & Hsorted & _).
    split; [exact Hrank | exact Hsorted].
Defined.

(** C6, as the code has it. generate_signals does not compare the
    lengths of its lists. When momentum_scores or moat_scores is shorter
    than companies the call raises and returns no list; the exception is
    Python's IndexError whenever, among the first k companies (k the
    length of the shorter score list), each one with ipo_probability_12mo
    above 0.50 and total_funding above $300M has a last_valuation. When
    both lists are at least as long as companies, the entries beyond the
    last company are never read: the call does exactly what the call on
    the first len(companies) entries does, and it returns a list of one
    signal per company whenever each company with ipo_probability_12mo
    above 0.50 and total_funding above $300M has a last_valuation. *)
Theorem generate_signals_misaligned
    (now : Py.datetime) (companies : list Company.t)
    (momentum_scores : list MomentumScore.t) (moat_scores : list MoatScore.t)
    (catalysts : gmap string Catalyst.t) :
  ((length momentum_scores < length companies
    \/ length moat_scores < length companies)%nat ->
   exists e,
     TradeSignalGenerator.generate_signals now companies momentum_scores moat_scores
       catalysts = Py.Raise e /\
     (Forall valuation_known
        (take (Nat.min (length momentum_scores) (length moat_scores)) companies) ->
      e = Py.IndexError)) /\
  ((length companies <= length momentum_scores)%nat ->
   (length companies <= length moat_scores)%nat ->
   TradeSignalGenerator.generate_signals now companies momentum_scores moat_scores
     catalysts
   = TradeSignalGenerator.generate_signals now companies
       (take (length companies) momentum_scores) (take (length companies) moat_scores)
       catalysts /\
   (Forall valuation_known companies ->
    exists ranked,
      TradeSignalGenerator.generate_signals now companies momentum_scores moat_scores
        catalysts = Py.Ok ranked /\
      length ranked = length companies)).
Proof.
  split.
  - intros Hshort.
    destruct (collect_signals_short_prefix now momentum_scores moat_scores catalysts
                companies 0%nat) as (e & Ec & He); simpl; try lia.
    exists e. unfold TradeSignalGenerator.generate_signals. rewrite Ec.
    split; [reflexivity |].
    rewrite Nat.sub_0_r in He. exact He.
  - intros Hm Ht. split.
    + unfold TradeSignalGenerator.generate_signals.
      rewrite collect_signals_take by (simpl; lia). reflexivity.
    + intros Hv.
      destruct (collect_signals_total now momentum_scores moat_scores catalysts
                  companies 0%nat) as [signals Ec]; simpl; try lia; [exact Hv |].
      unfold TradeSignalGenerator.generate_signals. rewrite Ec. simpl.
      eexists. split; [reflexivity |].
      rewrite update_ranks_length, sort_desc_length.
      now apply collect_signals_spec in Ec as [-> _].
Qed.

Lemma generate_signals_misaligned_witness :
  (exists e,
     TradeSignalGenerator.generate_signals Sample.now
       [Sample.seedling; Sample.flagship]
       [Sample.momentum_for Sample.seedling 40 NO_SIGNAL]
       [Sample.moat_for Sample.seedling 50; Sample.moat_for Sample.flagship 80]
       ∅ = Py.Raise e /\ e = Py.IndexError) /\
  TradeSignalGenerator.generate_signals Sample.now
    [Sample.seedling]
    [ Sample.momentum_for Sample.seedling 40 NO_SIGNAL;
      Sample.momentum_for Sample.flagship 80 CONFIRMED_MOMENTUM ]
    [Sample.moat_for Sample.seedling 50]
    ∅
  = TradeSignalGenerator.generate_signals Sample.now
      [Sample.seedling]
      [Sample.momentum_for Sample.seedling 40 NO_SIGNAL]
      [Sample.moat_for Sample.seedling 50]
      ∅.
Proof.
  split.
  - destruct (generate_signals_misaligned Sample.now
                [Sample.seedling; Sample.flagship]
                [Sample.momentum_for Sample.seedling 40 NO_SIGNAL]
                [Sample.moat_for Sample.seedling 50; Sample.moat_for Sample.flagship 80]
                ∅) as [Hshort _].
    destruct Hshort as (e & E & He); [left; simpl; lia |].
    exists e. split; [exact E |].
    apply He. simpl. constructor; [| constructor].
    intros H1 H2. discriminate H1.
  - destruct (generate_signals_misaligned Sample.now
                [Sample.seedling]
                [ Sample.momentum_for Sample.seedling 40 NO_SIGNAL;
                  Sample.momentum_for Sample.flagship 80 CONFIRMED_MOMENTUM ]
                [Sample.moat_for Sample.seedling 50]
                ∅) as [_ Hlong].
    destruct Hlong as [E _]; [simpl; lia | simpl; lia |].
    exact E.
Defined.

(** The lengths disagree, two momentum scores for one company, and the
    call returns a list: no error of any kind is raised. *)
Lemma generate_signals_accepts_surplus :
  length [ Sample.momentum_for Sample.seedling 40 NO_SIGNAL;
           Sample.momentum_for Sample.flagship 80 CONFIRMED_MOMENTUM ]
  <> length [Sample.seedling] /\
  exists ranked,
    TradeSignalGenerator.generate_signals Sample.now
      [Sample.seedling]
      [ Sample.momentum_for Sample.seedling 40 NO_SIGNAL;
        Sample.momentum_for Sample.flagship 80 CONFIRMED_MOMENTUM ]
      [Sample.moat_for Sample.seedling 50]
      ∅ = Py.Ok ranked.
Proof.
  split; [discriminate |].
  vm_compute. eexists. reflexivity.
Qed.

(** C1. The claim promises a ranked list, one signal per company, for
    every index-aligned call. The code does not deliver it for this one:
    two companies, each with its own momentum and moat score at its own
    index, the second company having ipo_probability_12mo 0.60,
    total_funding $400M and no last_valuation (the field is optional).
    _identify_pre_ipo_access then divides the absent valuation, and
    generate_signals raises TypeError instead of returning a list. *)
Theorem generate_signals_unpriced :
  let companies := [Sample.seedling; Sample.unpriced] in
  let momentum_scores :=
    [ Sample.momentum_for Sample.seedling 40 NO_SIGNAL;
      Sample.momentum_for Sample.unpriced 60 NO_SIGNAL ] in
  let moat_scores :=
    [Sample.moat_for Sample.seedling 50; Sample.moat_for Sample.unpriced 60] in
  map MomentumScore.company_id momentum_scores = map Company.company_id companies /\
  map MoatScore.company_id moat_scores = map Company.company_id companies /\
  Company.last_valuation Sample.unpriced = None /\
  TradeSignalGenerator.generate_signals Sample.now companies momentum_scores
    moat_scores ∅ = Py.Raise Py.TypeError /\
  ~ exists ranked,
      TradeSignalGenerator.generate_signals Sample.now companies momentum_scores
        moat_scores ∅ = Py.Ok ranked.
Proof.
  cbv zeta.
  assert (E : TradeSignalGenerator.generate_signals Sample.now
                [Sample.seedling; Sample.unpriced]
                [ Sample.momentum_for Sample.seedling 40 NO_SIGNAL;
                  Sample.momentum_for Sample.unpriced 60 NO_SIGNAL ]
                [Sample.moat_for Sample.seedling 50; Sample.moat_for Sample.unpriced 60]
                ∅ = Py.Raise Py.TypeError) by (vm_compute; reflexivity).
  split; [reflexivity |]. split; [reflexivity |]. split; [reflexivity |].
  split; [exact E |].
  intros [ranked H]. rewrite E in H. discriminate H.
Qed.

(** * Further properties of the code *)

(** ** src/core/utils.py *)

Section NormalizeProfile.

Lemma ratio_le_0 v lo hi : lo < hi -> v <= lo -> (v - lo) / (hi - lo) <= 0.
Proof. intros H Hv. apply Qle_shift_div_r; lra. Qed.

Lemma ratio_ge_1 v lo hi : lo < hi -> hi <= v -> 1 <= (v - lo) / (hi - lo).
Proof. intros H Hv. apply Qle_shift_div_l; lra. Qed.

Lemma ratio_mono v v' lo hi :
  lo < hi -> v <= v' -> (v - lo) / (hi - lo) <= (v' - lo) / (hi - lo).
Proof.
  intros H Hv. unfold Qdiv. apply Qmult_le_compat_r; [lra |].
  apply Qlt_le_weak, Qinv_lt_0_compat. lra.
Qed.

Lemma clamp_mono s x y : x <= y -> Py.max 0 (Py.min s x) <= Py.max 0 (Py.min s y).
Proof.
  intros H. unfold Py.min.
  destruct (Py.ltb x s) eqn:Ex; [apply ltb_true in Ex | apply ltb_false in Ex];
    destruct (Py.ltb y s) eqn:Ey; [apply ltb_true in Ey | apply ltb_false in Ey
                                  | apply ltb_true in Ey | apply ltb_false in Ey];
    unfold Py.max; cmp_cases; lra.
Qed.

Lemma clamp_inside s x : 0 <= x <= s -> Py.max 0 (Py.min s x) == x.
Proof.
  intros H. unfold Py.min.
  destruct (Py.ltb x s) eqn:Ex; [apply ltb_true in Ex | apply ltb_false in Ex];
    unfold Py.max; cmp_cases; lra.
Qed.

Lemma clamp_below s x : 0 <= s -> x <= 0 -> Py.max 0 (Py.min s x) == 0.
Proof.
  intros Hs H. unfold Py.min.
  destruct (Py.ltb x s) eqn:Ex; [apply ltb_true in Ex | apply ltb_false in Ex];
    unfold Py.max; cmp_cases; lra.
Qed.

Lemma clamp_above s x : 0 <= s -> s <= x -> Py.max 0 (Py.min s x) == s.
Proof.
  intros Hs H. unfold Py.min.
  destruct (Py.ltb x s) eqn:Ex; [apply ltb_true in Ex | apply ltb_false in Ex];
    unfold Py.max; cmp_cases; lra.
Qed.

Lemma eqb_false_of_lt a b : b < a -> Py.eqb a b = false.
Proof.
  intros H. destruct (Py.eqb a b) eqn:E; [| reflexivity].
  apply eqb_true in E. lra.
Qed.

End NormalizeProfile.

(** X1. On a proper range (min_val < max_val) with a non-negative scale,
    normalize_score is 0 at and below min_val, scale at and above
    max_val, the linear interpolation in between, and never decreases
    when the value grows. *)
Theorem normalize_score_profile (min_val max_val scale : Q) :
  min_val < max_val -> 0 <= scale ->
  (forall v, v <= min_val -> Utils.normalize_score v min_val max_val scale == 0) /\
  (forall v, max_val <= v -> Utils.normalize_score v min_val max_val scale == scale) /\
  (forall v, min_val <= v <= max_val ->
     Utils.normalize_score v min_val max_val scale
     == (v - min_val) / (max_val - min_val) * scale) /\
  (forall v v', v <= v' ->
     Utils.normalize_score v min_val max_val scale
     <= Utils.normalize_score v' min_val max_val scale).
Proof.
  intros Hr Hs. unfold Utils.normalize_score.
  rewrite (eqb_false_of_lt max_val min_val Hr). cbv zeta.
  split; [| split; [| split]].
  - intros v Hv. apply clamp_below; [exact Hs |].
    pose proof (ratio_le_0 v min_val max_val Hr Hv) as H.
    set (r := (v - min_val) / (max_val - min_val)) in *.
    assert (0 <= (- r) * scale) by (apply Qmult_le_0_compat; lra). lra.
  - intros v Hv. apply clamp_above; [exact Hs |].
    pose proof (ratio_ge_1 v min_val max_val Hr Hv) as H.
    set (r := (v - min_val) / (max_val - min_val)) in *.
    assert (0 <= (r - 1) * scale) by (apply Qmult_le_0_compat; lra). lra.
  - intros v [Hlo Hhi]. apply clamp_inside.
    pose proof (ratio_mono min_val v min_val max_val Hr Hlo) as H0.
    pose proof (ratio_mono v max_val min_val max_val Hr Hhi) as H1.
    assert (E0 : (min_val - min_val) / (max_val - min_val) == 0).
    { field. lra. }
    assert (E1 : (max_val - min_val) / (max_val - min_val) == 1).
    { apply Qmult_inv_r. lra. }
    set (r := (v - min_val) / (max_val - min_val)) in *.
    assert (0 <= r * scale) by (apply Qmult_le_0_compat; lra).
    assert (0 <= (1 - r) * scale) by (apply Qmult_le_0_compat; lra).
    lra.
  - intros v v' Hv. apply clamp_mono.
    apply Qmult_le_compat_r; [| exact Hs].
    now apply ratio_mono.
Qed.

Lemma normalize_score_profile_witness :
  Utils.normalize_score 25 0 50 100 == 50 /\
  Utils.normalize_score 80 0 50 100 == 100 /\
  Utils.normalize_score (-3) 0 50 100 == 0.
Proof.
  destruct (normalize_score_profile 0 50 100) as (Hlo & Hhi & Hmid & _);
    [reflexivity | discriminate |].
  split; [| split].
  - rewrite Hmid; [reflexivity | split; discriminate].
  - apply Hhi. discriminate.
  - apply Hlo. discriminate.
Defined.

Section WeightedFacts.

Lemma weighted_total_app components more weights : forall total,
  Utils.weighted_total (components ++ more) weights total
  = Utils.weighted_total more weights (Utils.weighted_total components weights total).
Proof.
  induction components as [| [k v] r IH]; intros total; simpl; [reflexivity |].
  destruct (Config.get weights k); apply IH.
Qed.

Lemma weighted_total_shift components weights : forall total,
  Utils.weighted_total components weights total
  == total + Utils.weighted_total components weights 0.
Proof.
  induction components as [| [k v] r IH]; intros total; simpl; [lra |].
  destruct (Config.get weights k) as [w |].
  - rewrite (IH (total + v * w)), (IH (0 + v * w)). lra.
  - apply IH.
Qed.

Lemma weighted_total_unknown components weights : forall total,
  Forall (fun entry => Config.get weights (fst entry) = None) components ->
  Utils.weighted_total components weights total = total.
Proof.
  induction components as [| [k v] r IH]; intros total H; simpl; [reflexivity |].
  inversion H as [| ? ? Hk Hr]; subst. simpl in Hk. rewrite Hk. now apply IH.
Qed.

End WeightedFacts.

(** X2. weighted_score skips every component whose key the weight table
    does not have: such an entry, wherever it stands, leaves the score
    unchanged, and components none of whose keys is in the table score
    0. *)
Theorem weighted_score_skips_unknown_keys
    (before after components weights : Config.table) (key : string) (value : Q) :
  (Config.get weights key = None ->
   Utils.weighted_score (before ++ (key, value) :: after) weights
   = Utils.weighted_score (before ++ after) weights) /\
  (Forall (fun entry => Config.get weights (fst entry) = None) components ->
   Utils.weighted_score components weights == 0).
Proof.
  split.
  - intros H. unfold Utils.weighted_score.
    rewrite !weighted_total_app. simpl. now rewrite H.
  - intros H. unfold Utils.weighted_score.
    rewrite (weighted_total_unknown _ _ 0 H). reflexivity.
Qed.

Lemma weighted_score_skips_unknown_keys_witness :
  Utils.weighted_score
    [ ("hype", 80); ("sentiment", 1000000); ("build", 60) ]%string
    Config.MOMENTUM_COMPOSITE_WEIGHTS
  = Utils.weighted_score
      [ ("hype", 80); ("build", 60) ]%string Config.MOMENTUM_COMPOSITE_WEIGHTS /\
  Utils.weighted_score
    [ ("sentiment", 1000000); ("reach", 7) ]%string Config.MOMENTUM_COMPOSITE_WEIGHTS
  == 0.
Proof.
  destruct (weighted_score_skips_unknown_keys
              [("hype"%string, 80)] [("build"%string, 60)]
              [ ("sentiment", 1000000); ("reach", 7) ]%string
              Config.MOMENTUM_COMPOSITE_WEIGHTS "sentiment" 1000000) as [H1 H2].
  split.
  - apply H1. reflexivity.
  - apply H2. repeat constructor.
Defined.

Section Series.

Definition within (lo hi : Q) (values : list Q) : Prop :=
  Forall (fun v => lo <= v <= hi) values.

Lemma count_succ (n : nat) : inject_Z (Z.of_nat (S n)) == inject_Z (Z.of_nat n) + 1.
Proof. rewrite Nat2Z.inj_succ. unfold Z.succ. rewrite inject_Z_plus. reflexivity. Qed.

Lemma count_nonneg (n : nat) : 0 <= inject_Z (Z.of_nat n).
Proof. change 0 with (inject_Z 0). rewrite <- Zle_Qle. lia. Qed.

Lemma fold_sum_bounds lo hi values : forall acc,
  within lo hi values ->
  acc + lo * inject_Z (Z.of_nat (length values)) <= fold_left Qplus values acc
  /\ fold_left Qplus values acc <= acc + hi * inject_Z (Z.of_nat (length values)).
Proof.
  induction values as [| v l IH]; intros acc H.
  - cbn [fold_left length]. change (inject_Z (Z.of_nat 0)) with 0. split; lra.
  - inversion H as [| ? ? Hv Hl]; subst.
    destruct (IH (acc + v) Hl) as [IH1 IH2].
    cbn [fold_left length]. rewrite count_succ.
    set (n := inject_Z (Z.of_nat (length l))) in *.
    split; lra.
Qed.

(** The mean of a non-empty list lies between its bounds. *)
Lemma mean_within lo hi values :
  values <> [] -> within lo hi values ->
  lo <= Py.sum values / inject_Z (Z.of_nat (length values)) <= hi.
Proof.
  intros Hne H. unfold Py.sum.
  destruct (fold_sum_bounds lo hi values 0 H) as [H1 H2].
  assert (Hn : 0 < inject_Z (Z.of_nat (length values))).
  { destruct values; [congruence |].
    cbn [length]. rewrite count_succ. pose proof (count_nonneg (length values)). lra. }
  set (n := inject_Z (Z.of_nat (length values))) in *.
  split.
  - apply Qle_shift_div_l; lra.
  - apply Qle_shift_div_r; lra.
Qed.



Lemma drawdown_fold_range values : forall peak max_dd,
  Forall (fun v => 0 <= v) values -> 0 <= peak -> 0 <= max_dd <= 1 ->
  0 <= snd (fold_left Utils.drawdown_step values (peak, max_dd)) <= 1.
Proof.
  induction values as [| v l IH]; intros peak max_dd H Hp Hd; simpl; [exact Hd |].
  inversion H as [| ? ? Hv Hl]; subst.
  rewrite !gtb_ltb.
  destruct (Py.ltb peak v) eqn:E1; [apply ltb_true in E1 | apply ltb_false in E1].
  - destruct (Py.ltb 0 v) eqn:E2; [apply ltb_true in E2 | apply ltb_false in E2].
    + assert (E : (v - v) / v == 0) by (field; lra).
      destruct (Py.ltb max_dd ((v - v) / v)) eqn:E3;
        [apply ltb_true in E3 | apply ltb_false in E3]; apply IH; auto; lra.
    + destruct (Py.ltb max_dd 0) eqn:E3;
        [apply ltb_true in E3 | apply ltb_false in E3]; apply IH; auto; lra.
  - destruct (Py.ltb 0 peak) eqn:E2; [apply ltb_true in E2 | apply ltb_false in E2].
    + assert (Hlo : 0 <= (peak - v) / peak) by (apply Qle_shift_div_l; lra).
      assert (Hhi : (peak - v) / peak <= 1) by (apply Qle_shift_div_r; lra).
      destruct (Py.ltb max_dd ((peak - v) / peak)) eqn:E3;
        [apply ltb_true in E3 | apply ltb_false in E3]; apply IH; auto; lra.
    + destruct (Py.ltb max_dd 0) eqn:E3;
        [apply ltb_true in E3 | apply ltb_false in E3]; apply IH; auto; lra.
Qed.

(** On a series that never falls, the running maximum stays 0. *)
Lemma drawdown_fold_rising values : forall peak max_dd,
  StronglySorted Qle values -> Forall (fun v => peak <= v) values -> max_dd == 0 ->
  snd (fold_left Utils.drawdown_step values (peak, max_dd)) == 0.
Proof.
  induction values as [| v l IH]; intros peak max_dd Hs Hp Hd; simpl; [exact Hd |].
  inversion Hs as [| ? ? Hs' Hall]; subst.
  inversion Hp as [| ? ? Hv Hl]; subst.
  rewrite !gtb_ltb.
  destruct (Py.ltb peak v) eqn:E1; [apply ltb_true in E1 | apply ltb_false in E1].
  - destruct (Py.ltb 0 v) eqn:E2; [apply ltb_true in E2 | apply ltb_false in E2].
    + assert (E : (v - v) / v == 0) by (field; lra).
      destruct (Py.ltb max_dd ((v - v) / v)) eqn:E3;
        [apply ltb_true in E3 | apply ltb_false in E3]; apply IH; auto; lra.
    + destruct (Py.ltb max_dd 0) eqn:E3;
        [apply ltb_true in E3 | apply ltb_false in E3]; apply IH; auto; lra.
  - assert (Hall' : Forall (fun v' => peak <= v') l).
    { rewrite List.Forall_forall in *. intros x Hx. specialize (Hall x Hx). lra. }
    destruct (Py.ltb 0 peak) eqn:E2; [apply ltb_true in E2 | apply ltb_false in E2].
    + assert (E : (peak - v) / peak == 0).
      { assert (Ev : v == peak) by lra. rewrite Ev. field. lra. }
      destruct (Py.ltb max_dd ((peak - v) / peak)) eqn:E3;
        [apply ltb_true in E3 | apply ltb_false in E3]; apply IH; auto; lra.
    + destruct (Py.ltb max_dd 0) eqn:E3;
        [apply ltb_true in E3 | apply ltb_false in E3]; apply IH; auto; lra.
Qed.

Lemma round2_zero q : q == 0 -> Py.round2 q == 0.
Proof. intros H. rewrite (round2_proper q 0 H). reflexivity. Qed.

End Series.

(** X3. moving_average of an empty list is 0.0. With a window of at
    least 1 it never fails on a non-empty list and averages exactly the
    last min(window, len) values; a window of 0 averages the whole list.
    A negative window -p averages what is left after the first p values,
    and raises ZeroDivisionError when nothing is left (p at least the
    length of the list). The average is sum/len as the code computes
    it; nothing is said about its size. *)
Theorem moving_average_window (values : list Q) (window : Z) :
  Utils.moving_average [] window = Py.Return 0 /\
  (values <> [] -> (1 <= window)%Z ->
   let recent := drop (length values - Z.to_nat window) values in
   Utils.moving_average values window
   = Py.Return (Py.sum recent / inject_Z (Z.of_nat (length recent))) /\
   length recent = Nat.min (Z.to_nat window) (length values)) /\
  (values <> [] -> window = 0%Z ->
   Utils.moving_average values window
   = Py.Return (Py.sum values / inject_Z (Z.of_nat (length values)))) /\
  (values <> [] -> (window < 0)%Z -> (- window < Z.of_nat (length values))%Z ->
   let rest := drop (Z.to_nat (- window)) values in
   Utils.moving_average values window
   = Py.Return (Py.sum rest / inject_Z (Z.of_nat (length rest))) /\
   length rest = (length values - Z.to_nat (- window))%nat) /\
  (values <> [] -> (window < 0)%Z -> (Z.of_nat (length values) <= - window)%Z ->
   Utils.moving_average values window = Py.Throw Py.ZeroDivisionError).
Proof.
  split; [reflexivity |]. split; [| split; [| split]].
  - intros Hne Hw. cbv zeta.
    assert (Hlen : length (drop (length values - Z.to_nat window) values)
                   = Nat.min (Z.to_nat window) (length values)).
    { rewrite length_drop. lia. }
    assert (Hrec : drop (length values - Z.to_nat window) values <> []).
    { intros E. rewrite E in Hlen. simpl in Hlen.
      destruct values; [congruence | simpl in Hlen; lia]. }
    split; [| exact Hlen].
    unfold Utils.moving_average.
    destruct values as [| v l] eqn:Ev; [congruence |]. rewrite <- Ev in *.
    destruct (Z.of_nat (length values) <? window)%Z eqn:E.
    + apply Z.ltb_lt in E.
      replace (length values - Z.to_nat window)%nat with 0%nat by lia.
      reflexivity.
    + apply Z.ltb_ge in E. cbv zeta.
      unfold Py.slice_from, Py.slice_index.
      replace (- window <? 0)%Z with true by (symmetry; apply Z.ltb_lt; lia).
      replace (Z.to_nat (Z.max 0 (Z.of_nat (length values) + - window)))
        with (length values - Z.to_nat window)%nat by lia.
      destruct (drop (length values - Z.to_nat window) values) eqn:Ed;
        [congruence | reflexivity].
  - intros Hne ->. unfold Utils.moving_average.
    destruct values as [| v l] eqn:Ev; [congruence |]. rewrite <- Ev in *.
    replace (Z.of_nat (length values) <? 0)%Z with false
      by (symmetry; apply Z.ltb_ge; lia).
    cbv zeta. unfold Py.slice_from, Py.slice_index. simpl Z.opp.
    replace (0 <? 0)%Z with false by reflexivity.
    rewrite Z.min_l by lia. simpl drop. rewrite Ev. reflexivity.
  - intros Hne Hw Hlen. cbv zeta.
    assert (Hrest : length (drop (Z.to_nat (- window)) values)
                    = (length values - Z.to_nat (- window))%nat).
    { apply length_drop. }
    split; [| exact Hrest].
    unfold Utils.moving_average.
    destruct values as [| v l] eqn:Ev; [congruence |]. rewrite <- Ev in *.
    replace (Z.of_nat (length values) <? window)%Z with false
      by (symmetry; apply Z.ltb_ge; lia).
    cbv zeta. unfold Py.slice_from, Py.slice_index.
    replace (- window <? 0)%Z with false by (symmetry; apply Z.ltb_ge; lia).
    rewrite Z.min_l by lia.
    destruct (drop (Z.to_nat (- window)) values) eqn:Ed; [| reflexivity].
    simpl in Hrest. lia.
  - intros Hne Hw Hlen. unfold Utils.moving_average.
    destruct values as [| v l] eqn:Ev; [congruence |]. rewrite <- Ev in *.
    replace (Z.of_nat (length values) <? window)%Z with false
      by (symmetry; apply Z.ltb_ge; lia).
    cbv zeta. unfold Py.slice_from, Py.slice_index.
    replace (- window <? 0)%Z with false by (symmetry; apply Z.ltb_ge; lia).
    rewrite Z.min_r by lia. rewrite Nat2Z.id, drop_all. reflexivity.
Qed.

Lemma moving_average_window_witness :
  Utils.moving_average [10; 20; 60] 2 = Py.Return (Py.sum [20; 60] / 2) /\
  Utils.moving_average [10; 20; 60] (-1) = Py.Return (Py.sum [20; 60] / 2) /\
  Utils.moving_average [10; 20; 60] (-3) = Py.Throw Py.ZeroDivisionError.
Proof.
  destruct (moving_average_window [10; 20; 60] 2) as (_ & H & _).
  destruct (moving_average_window [10; 20; 60] (-1)) as (_ & _ & _ & H1 & _).
  destruct (moving_average_window [10; 20; 60] (-3)) as (_ & _ & _ & _ & H').
  split; [| split].
  - destruct H as (E & _); [discriminate | lia |]. exact E.
  - destruct H1 as (E & _); [discriminate | lia | simpl; lia |]. exact E.
  - apply H'; [discriminate | lia | simpl; lia].
Defined.



(** X5. max_drawdown is 0 for an empty series and for a series that
    never falls, and for every series without negative values it is a
    percentage between 0 and 100. *)
Theorem max_drawdown_range (values : list Q) :
  Utils.max_drawdown [] = 0 /\
  (StronglySorted Qle values -> Utils.max_drawdown values == 0) /\
  (Forall (fun v => 0 <= v) values -> 0 <= Utils.max_drawdown values <= 100).
Proof.
  split; [reflexivity |]. split.
  - intros Hs. unfold Utils.max_drawdown.
    destruct values as [| v l] eqn:Ev; [reflexivity |]. rewrite <- Ev.
    pose proof (drawdown_fold_rising values v 0) as H.
    destruct (fold_left Utils.drawdown_step values (v, 0)) as [peak dd].
    simpl in H. apply round2_zero.
    rewrite H; [reflexivity | now rewrite Ev | | reflexivity].
    rewrite Ev in *. inversion Hs as [| ? ? _ Hall]; subst.
    constructor; [lra | exact Hall].
  - intros H0. unfold Utils.max_drawdown.
    destruct values as [| v l] eqn:Ev; [lra |]. rewrite <- Ev.
    pose proof (drawdown_fold_range values v 0) as H.
    destruct (fold_left Utils.drawdown_step values (v, 0)) as [peak dd].
    simpl in H. apply round2_range.
    assert (Hd : 0 <= dd <= 1).
    { apply H; [now rewrite Ev | | lra]. now inversion H0. }
    lra.
Qed.

Lemma max_drawdown_range_witness :
  Utils.max_drawdown [100; 120; 90; 130] == 25 /\
  Utils.max_drawdown [100; 120; 120; 130] == 0.
Proof.
  split.
  - reflexivity.
  - destruct (max_drawdown_range [100; 120; 120; 130]) as (_ & H & _).
    apply H. repeat constructor; discriminate.
Defined.

(** ** Scorers and their filters *)

Section SortedFilter.
Context {A : Type} (key : A -> Q) (threshold : Q).

Definition at_least (x : A) : bool := Py.geb (key x) threshold.

(** Filtering a descending list by a lower bound on the key keeps a
    prefix of it. *)
Lemma filter_sorted_prefix l :
  StronglySorted (desc key) l ->
  List.filter at_least l = take (length (List.filter at_least l)) l /\
  Forall (fun x => key x < threshold) (drop (length (List.filter at_least l)) l).
Proof.
  induction 1 as [| x l Hs [IH1 IH2] Hall]; simpl.
  - split; [reflexivity | constructor].
  - destruct (at_least x) eqn:E; unfold at_least in E.
    + simpl. split; [now rewrite <- IH1 | exact IH2].
    + apply geb_false in E.
      assert (Hnone : List.filter at_least l = []).
      { clear IH1 IH2 Hs. induction l as [| y l IHl]; [reflexivity |].
        inversion Hall as [| ? ? Hy Hl]; subst. simpl.
        destruct (at_least y) eqn:Ey; unfold at_least in Ey.
        - apply geb_true in Ey. unfold desc in Hy. lra.
        - now apply IHl. }
      rewrite Hnone. simpl. split; [reflexivity |].
      constructor; [exact E |].
      rewrite Hnone in IH2. exact IH2.
Qed.

End SortedFilter.

Section MomentumExtras.

Lemma round2_upper (k : Z) q : q <= inject_Z k / 100 -> Py.round2 q <= inject_Z k / 100.
Proof.
  intros H. unfold Py.round2.
  assert (Hq : q * 100 <= inject_Z k).
  { assert (E : inject_Z k / 100 * 100 == inject_Z k) by (field; lra). lra. }
  pose proof (round_half_even_upper k (q * 100) Hq) as Hr.
  rewrite Zle_Qle in Hr.
  unfold Qdiv. apply Qmult_le_compat_r; [exact Hr | discriminate].
Qed.

Lemma round2_lower (k : Z) q : inject_Z k / 100 <= q -> inject_Z k / 100 <= Py.round2 q.
Proof.
  intros H. unfold Py.round2.
  assert (Hq : inject_Z k <= q * 100).
  { assert (E : inject_Z k / 100 * 100 == inject_Z k) by (field; lra). lra. }
  pose proof (round_half_even_lower k (q * 100) Hq) as Hr.
  rewrite Zle_Qle in Hr.
  unfold Qdiv. apply Qmult_le_compat_r; [exact Hr | discriminate].
Qed.

Variable now : Py.datetime.

Lemma vc_buzz_without_mentions funding_rounds :
  MomentumScoringEngine._score_vc_buzz now None funding_rounds <= 60.
Proof.
  unfold MomentumScoringEngine._score_vc_buzz. cbv zeta.
  eapply Qle_trans; [apply min_le_l |]. split_ifs; lra.
Qed.

Lemma hype_without_external_data company :
  MomentumScore.hype_score
    (MomentumScoringEngine.calculate_momentum_score now company ExternalData.empty)
  <= 42.
Proof.
  unfold MomentumScoringEngine.calculate_momentum_score. cbv zeta.
  cbn [MomentumScore.hype_score].
  unfold MomentumScoringEngine._calculate_hype_score, Utils.weighted_score.
  rewrite hype_total. cbn [ExternalData.media_mentions ExternalData.social_metrics
    ExternalData.vc_mentions ExternalData.search_data ExternalData.empty].
  pose proof (vc_buzz_without_mentions (Company.funding_rounds company)) as Hvc.
  pose proof (conference_presence_range company) as [_ Hconf].
  change (MomentumScoringEngine._score_media_velocity now None) with 20.
  change (MomentumScoringEngine._score_social_signal None) with 25.
  change (MomentumScoringEngine._score_search_trends None) with 20.
  assert (E : 42 == inject_Z 4200 / 100) by reflexivity.
  rewrite E. apply round2_upper. rewrite <- E.
  assert (Hc : MomentumScoringEngine._score_conference_presence company <= 80).
  { unfold MomentumScoringEngine._score_conference_presence. cbv zeta. split_ifs; lra. }
  lra.
Qed.

End MomentumExtras.


(** X7. Scored without external signals, which is how score_companies is
    called by the report and the heatmap, a company's hype composite is
    at most 42, below the low threshold 45: its divergence flag is
    MISPRICED_OPPORTUNITY or NO_SIGNAL, never CONFIRMED_MOMENTUM or
    BUBBLE_RISK. *)
Theorem no_external_data_caps_hype (now : Py.datetime) (companies : list Company.t) :
  (forall company,
     let score :=
       MomentumScoringEngine.calculate_momentum_score now company ExternalData.empty in
     MomentumScore.hype_score score <= 42 /\
     (MomentumScore.divergence_flag score = MISPRICED_OPPORTUNITY
      \/ MomentumScore.divergence_flag score = NO_SIGNAL)) /\
  (forall score,
     In score (MomentumScoringEngine.score_companies now companies ∅) ->
     MomentumScore.hype_score score <= 42 /\
     (MomentumScore.divergence_flag score = MISPRICED_OPPORTUNITY
      \/ MomentumScore.divergence_flag score = NO_SIGNAL)).
Proof.
  assert (Hone : forall company,
    let score :=
      MomentumScoringEngine.calculate_momentum_score now company ExternalData.empty in
    MomentumScore.hype_score score <= 42 /\
    (MomentumScore.divergence_flag score = MISPRICED_OPPORTUNITY
     \/ MomentumScore.divergence_flag score = NO_SIGNAL)).
  { intros company. cbv zeta.
    pose proof (hype_without_external_data now company) as Hh.
    split; [exact Hh |].
    unfold MomentumScoringEngine.calculate_momentum_score in *. cbv zeta in *.
    cbn [MomentumScore.hype_score MomentumScore.divergence_flag] in *.
    unfold MomentumScoringEngine._detect_divergence,
      Config.HIGH_SCORE_THRESHOLD, Config.LOW_SCORE_THRESHOLD. cbv zeta.
    set (h := Utils.weighted_score _ Config.HYPE_WEIGHTS) in *.
    set (b := Utils.weighted_score _ Config.BUILD_WEIGHTS).
    destruct (Py.geb h 65) eqn:E1; [apply geb_true in E1; lra |].
    destruct (Py.ltb h 45) eqn:E2; [| apply ltb_false in E2; lra].
    cbn [andb]. destruct (Py.geb b 65); auto. }
  split; [exact Hone |].
  intros score Hin.
  unfold MomentumScoringEngine.score_companies in Hin.
  eapply Permutation_in in Hin; [| apply sort_desc_perm].
  apply in_map_iff in Hin as (company & <- & _).
  unfold dict_get. rewrite lookup_empty.
  change (default ExternalData.empty None) with ExternalData.empty.
  exact (Hone company).
Qed.

(** X8. MomentumScoringEngine.filter_high_conviction applied to the
    output of score_companies returns its first k scores for some k:
    exactly the scores at or above the threshold, with every score left
    out strictly below it. *)
Theorem momentum_filter_is_prefix
    (now : Py.datetime) (companies : list Company.t)
    (external_data : gmap string ExternalData.t) (threshold : Q) :
  let scores := MomentumScoringEngine.score_companies now companies external_data in
  let kept := MomentumScoringEngine.filter_high_conviction scores threshold in
  kept = take (length kept) scores /\
  Forall (fun s => threshold <= MomentumScore.momentum_score s) kept /\
  Forall (fun s => MomentumScore.momentum_score s < threshold)
    (drop (length kept) scores).
Proof.
  cbv zeta. unfold MomentumScoringEngine.filter_high_conviction.
  destruct (filter_sorted_prefix MomentumScore.momentum_score threshold
              (MomentumScoringEngine.score_companies now companies external_data))
    as [H1 H2].
  { apply sort_desc_strongly_sorted. }
  split; [exact H1 |]. split; [| exact H2].
  apply List.Forall_forall. intros s Hs. apply filter_In in Hs as [_ Hs].
  now apply geb_true in Hs.
Qed.

(** X9. In every MoatScore the two classifications agree with the total:
    a total of at least 75 is WAVE_4 and at least 80 is also "Very
    High"; "High" goes with WAVE_3 or WAVE_4 and "Medium" with WAVE_2;
    below 40 the durability is "Low" and the wave potential is the
    company's own wave category. *)
Theorem moat_classification_consistent
    (now : Py.datetime) (company : Company.t) (industry_data : IndustryData.t) :
  let t := MoatScoringEngine.calculate_moat_score now company industry_data in
  (75 <= MoatScore.total_moat_score t -> MoatScore.wave_potential t = WAVE_4) /\
  (80 <= MoatScore.total_moat_score t ->
   MoatScore.durability_rating t = "Very High"%string) /\
  (MoatScore.durability_rating t = "Very High"%string ->
   MoatScore.wave_potential t = WAVE_4) /\
  (MoatScore.durability_rating t = "High"%string ->
   MoatScore.wave_potential t = WAVE_3 \/ MoatScore.wave_potential t = WAVE_4) /\
  (MoatScore.durability_rating t = "Medium"%string ->
   MoatScore.wave_potential t = WAVE_2) /\
  (MoatScore.total_moat_score t < 40 ->
   MoatScore.durability_rating t = "Low"%string /\
   MoatScore.wave_potential t = Company.wave_category company).
Proof.
  cbv zeta. unfold MoatScoringEngine.calculate_moat_score. cbv zeta.
  cbn [MoatScore.total_moat_score MoatScore.wave_potential MoatScore.durability_rating].
  set (total := Utils.weighted_score _ Config.MOAT_WEIGHTS).
  unfold MoatScoringEngine._classify_wave_potential,
    MoatScoringEngine._classify_durability,
    Config.WAVE_4_MOAT_THRESHOLD, Config.STRONG_MOAT, Config.MEDIUM_MOAT.
  destruct (Py.geb total 75) eqn:E75; [apply geb_true in E75 | apply geb_false in E75];
    destruct (Py.geb total 60) eqn:E60; [apply geb_true in E60 | apply geb_false in E60
                                        | apply geb_true in E60 | apply geb_false in E60];
    destruct (Py.geb total 40) eqn:E40;
    destruct (Py.geb total 80) eqn:E80;
    rewrite ?geb_true, ?geb_false in *;
    (split; [| split; [| split; [| split; [| split]]]]);
    intros H; try reflexivity; try discriminate H; try lra; auto.
Qed.

Lemma moat_classification_consistent_witness :
  MoatScore.durability_rating
    (MoatScoringEngine.calculate_moat_score Sample.now Sample.seedling IndustryData.empty)
  = "Low"%string /\
  MoatScore.wave_potential
    (MoatScoringEngine.calculate_moat_score Sample.now Sample.seedling IndustryData.empty)
  = WAVE_1.
Proof.
  destruct (moat_classification_consistent Sample.now Sample.seedling IndustryData.empty)
    as (_ & _ & _ & _ & _ & H).
  apply H. reflexivity.
Defined.

(** X10. filter_wave_4_candidates applied to the output of the moat
    engine's score_companies returns its first k scores, the ones with a
    total of at least 75; every candidate has wave potential WAVE_4 and
    durability "High" or "Very High". *)
Theorem wave_4_candidates
    (now : Py.datetime) (companies : list Company.t)
    (industry_data_map : gmap string IndustryData.t) :
  let scores := MoatScoringEngine.score_companies now companies industry_data_map in
  let kept := MoatScoringEngine.filter_wave_4_candidates scores in
  kept = take (length kept) scores /\
  Forall (fun s => MoatScore.total_moat_score s < 75) (drop (length kept) scores) /\
  Forall (fun s =>
            75 <= MoatScore.total_moat_score s /\
            MoatScore.wave_potential s = WAVE_4 /\
            (MoatScore.durability_rating s = "High"%string
             \/ MoatScore.durability_rating s = "Very High"%string)) kept.
Proof.
  cbv zeta. unfold MoatScoringEngine.filter_wave_4_candidates. cbv zeta.
  destruct (filter_sorted_prefix MoatScore.total_moat_score Config.WAVE_4_MOAT_THRESHOLD
              (MoatScoringEngine.score_companies now companies industry_data_map))
    as [H1 H2].
  { apply sort_desc_strongly_sorted. }
  split; [exact H1 |]. split; [exact H2 |].
  apply List.Forall_forall. intros s Hs. apply filter_In in Hs as [Hin Hs].
  apply geb_true in Hs. unfold Config.WAVE_4_MOAT_THRESHOLD in Hs.
  split; [exact Hs |].
  unfold MoatScoringEngine.score_companies in Hin.
  eapply Permutation_in in Hin; [| apply sort_desc_perm].
  apply in_map_iff in Hin as (company & <- & _).
  revert Hs. unfold MoatScoringEngine.calculate_moat_score. cbv zeta.
  cbn [MoatScore.total_moat_score MoatScore.wave_potential MoatScore.durability_rating].
  set (total := Utils.weighted_score _ Config.MOAT_WEIGHTS).
  unfold MoatScoringEngine._classify_wave_potential,
    MoatScoringEngine._classify_durability,
    Config.WAVE_4_MOAT_THRESHOLD, Config.STRONG_MOAT, Config.MEDIUM_MOAT.
  intros Hs.
  destruct (Py.geb total 75) eqn:E75; [| apply geb_false in E75; lra].
  destruct (Py.geb total 80) eqn:E80; [auto |].
  destruct (Py.geb total 60) eqn:E60; [auto | apply geb_false in E60; lra].
Qed.

(** ** Trade signals *)

Section SignalExtras.

Lemma is_flag_true a b : TradeSignalGenerator.is_flag a b = true <-> a = b.
Proof. destruct a, b; simpl; split; intros H; congruence. Qed.

Lemma detect_divergence_inv hype build :
  match MomentumScoringEngine._detect_divergence hype build with
  | CONFIRMED_MOMENTUM => 65 <= hype /\ 65 <= build
  | MISPRICED_OPPORTUNITY => hype < 45 /\ 65 <= build
  | BUBBLE_RISK => 65 <= hype /\ build < 45
  | NO_SIGNAL => True
  end.
Proof.
  unfold MomentumScoringEngine._detect_divergence,
    Config.HIGH_SCORE_THRESHOLD, Config.LOW_SCORE_THRESHOLD. cbv zeta.
  destruct (Py.geb hype 65) eqn:E1; [apply geb_true in E1 | apply geb_false in E1];
    destruct (Py.geb build 65) eqn:E2; [apply geb_true in E2 | apply geb_false in E2
                                       | apply geb_true in E2 | apply geb_false in E2];
    destruct (Py.ltb hype 45) eqn:E3; [apply ltb_true in E3 | apply ltb_false in E3
                                      | apply ltb_true in E3 | apply ltb_false in E3
                                      | apply ltb_true in E3 | apply ltb_false in E3
                                      | apply ltb_true in E3 | apply ltb_false in E3];
    destruct (Py.ltb build 45) eqn:E4;
    rewrite ?ltb_true, ?ltb_false in *; simpl; auto.
Qed.

End SignalExtras.

(** X11. _generate_recommendation never returns SHORT. It returns
    STRONG_BUY exactly for CONFIRMED_MOMENTUM with a moat above 70,
    always BUY for MISPRICED_OPPORTUNITY, FADE only for BUBBLE_RISK,
    HOLD only with momentum above 50 and SELL only with momentum at most
    50. *)
Theorem recommendation_cases (m : MomentumScore.t) (t : MoatScore.t) :
  let r := TradeSignalGenerator._generate_recommendation m t in
  r <> SHORT /\
  (r = STRONG_BUY <->
   MomentumScore.divergence_flag m = CONFIRMED_MOMENTUM
   /\ 70 < MoatScore.total_moat_score t) /\
  (MomentumScore.divergence_flag m = MISPRICED_OPPORTUNITY -> r = BUY) /\
  (r = FADE -> MomentumScore.divergence_flag m = BUBBLE_RISK) /\
  (r = HOLD -> 50 < MomentumScore.momentum_score m) /\
  (r = SELL -> MomentumScore.momentum_score m <= 50).
Proof.
  cbv zeta. unfold TradeSignalGenerator._generate_recommendation. cbv zeta.
  rewrite !gtb_ltb.
  destruct (MomentumScore.divergence_flag m); cbn [TradeSignalGenerator.is_flag andb];
    destruct (Py.ltb 70 (MoatScore.total_moat_score t)) eqn:E70;
    destruct (Py.ltb 75 (MomentumScore.momentum_score m)) eqn:E75;
    destruct (Py.ltb 55 (MoatScore.total_moat_score t)) eqn:E55;
    destruct (Py.ltb 50 (MomentumScore.momentum_score m)) eqn:E50;
    rewrite ?ltb_true, ?ltb_false in *; cbn [andb];
    repeat match goal with |- _ /\ _ => split end;
    try discriminate;
    try (split; [intros H; first [discriminate H | split; [reflexivity | lra]]
                | intros [H1 H2]; first [discriminate H1 | reflexivity | lra]]);
    try (intros H; first [discriminate H | reflexivity | lra]).
Qed.

Lemma recommendation_cases_witness :
  TradeSignalGenerator._generate_recommendation
    (Sample.momentum_for Sample.flagship 60 MISPRICED_OPPORTUNITY)
    (Sample.moat_for Sample.flagship 30) = BUY.
Proof.
  destruct (recommendation_cases
              (Sample.momentum_for Sample.flagship 60 MISPRICED_OPPORTUNITY)
              (Sample.moat_for Sample.flagship 30)) as (_ & _ & H & _).
  apply H. reflexivity.
Defined.

(** X12. For a MomentumScore that calculate_momentum_score produced, a
    BUBBLE_RISK flag means a hype composite of at least 65 with a build
    composite below 45, hence a momentum_score of at most 67: the
    recommendation is then always FADE, whatever the moat. A
    CONFIRMED_MOMENTUM score has momentum at least 65 and is never
    recommended SELL or FADE. *)
Theorem scored_bubble_always_fades
    (now : Py.datetime) (company : Company.t) (ext : ExternalData.t) (t : MoatScore.t) :
  let m := MomentumScoringEngine.calculate_momentum_score now company ext in
  (MomentumScore.divergence_flag m = BUBBLE_RISK ->
   MomentumScore.momentum_score m <= 67 /\
   TradeSignalGenerator._generate_recommendation m t = FADE) /\
  (MomentumScore.divergence_flag m = CONFIRMED_MOMENTUM ->
   65 <= MomentumScore.momentum_score m /\
   TradeSignalGenerator._generate_recommendation m t <> SELL /\
   TradeSignalGenerator._generate_recommendation m t <> FADE).
Proof.
  cbv zeta.
  unfold TradeSignalGenerator._generate_recommendation. cbv zeta.
  unfold MomentumScoringEngine.calculate_momentum_score. cbv zeta.
  cbn [MomentumScore.divergence_flag MomentumScore.momentum_score].
  rewrite composite_weighted.
  pose proof (hype_score_range now company ext) as Hh.
  pose proof (build_score_range now company) as Hb.
  set (h := Utils.weighted_score _ Config.HYPE_WEIGHTS) in *.
  set (b := Utils.weighted_score _ Config.BUILD_WEIGHTS) in *.
  pose proof (detect_divergence_inv h b) as Hinv.
  assert (E67 : 67 == inject_Z 6700 / 100) by reflexivity.
  assert (E65 : 65 == inject_Z 6500 / 100) by reflexivity.
  split; intros Hf; rewrite Hf in *; cbn [TradeSignalGenerator.is_flag andb].
  - destruct Hinv as [H1 H2].
    assert (Hm : Py.round2 (h * (40 # 100) + b * (60 # 100)) <= 67).
    { rewrite E67. apply round2_upper. rewrite <- E67. lra. }
    split; [exact Hm |].
    rewrite !gtb_ltb.
    destruct (Py.ltb 75 _) eqn:E; [apply ltb_true in E; lra | reflexivity].
  - destruct Hinv as [H1 H2].
    assert (Hm : 65 <= Py.round2 (h * (40 # 100) + b * (60 # 100))).
    { rewrite E65. apply round2_lower. rewrite <- E65. lra. }
    split; [exact Hm |].
    rewrite !gtb_ltb.
    destruct (Py.ltb 70 _); cbn [andb]; [split; discriminate |].
    destruct (Py.ltb 75 _ && Py.ltb 55 _); [split; discriminate |].
    destruct (Py.ltb 50 _) eqn:E; [split; discriminate |].
    apply ltb_false in E. lra.
Qed.

(** X13. _assess_risk_level only ever answers "Low", "Medium" or "High",
    "Low" exactly when the moat total is above 70. The "Very High" entry
    of the position-size multipliers and their 0.8 default are therefore
    never used for a generated signal. *)
Theorem risk_level_values (company : Company.t) (t : MoatScore.t) :
  let level := TradeSignalGenerator._assess_risk_level company t in
  (level = "Low"%string \/ level = "Medium"%string \/ level = "High"%string) /\
  (level = "Low"%string <-> 70 < MoatScore.total_moat_score t) /\
  is_Some (Config.get Utils.risk_multipliers level) /\
  level <> "Very High"%string.
Proof.
  cbv zeta. unfold TradeSignalGenerator._assess_risk_level.
  rewrite !gtb_ltb.
  destruct (Py.ltb 70 _) eqn:E70; [apply ltb_true in E70 | apply ltb_false in E70].
  - split; [auto |]. split; [tauto |]. split; [simpl; eauto | discriminate].
  - assert (Hlow : forall s : string, s <> "Low"%string ->
              (s = "Low"%string <-> 70 < MoatScore.total_moat_score t)).
    { intros s Hs. split; [congruence | lra]. }
    destruct (Py.ltb 50 _ && Py.ltb 300000000 _);
      [split; [auto |]; split; [apply Hlow; discriminate |];
       split; [simpl; eauto | discriminate] |].
    destruct (TimingPredictionEngine.str_in _ _);
      [split; [auto |]; split; [apply Hlow; discriminate |];
       split; [simpl; eauto | discriminate] |].
    destruct (Py.ltb _ 150000000);
      split; auto; split; try (apply Hlow; discriminate);
      split; try discriminate; simpl; eauto.
Qed.

(** X14. Conviction never decreases when the momentum score or the moat
    total grows with the flag unchanged, and a catalyst never lowers
    it. *)
Theorem conviction_monotone
    (m m' : MomentumScore.t) (t t' : MoatScore.t) (c : option Catalyst.t) :
  MomentumScore.divergence_flag m = MomentumScore.divergence_flag m' ->
  MomentumScore.momentum_score m <= MomentumScore.momentum_score m' ->
  MoatScore.total_moat_score t <= MoatScore.total_moat_score t' ->
  TradeSignalGenerator._calculate_conviction m t c
  <= TradeSignalGenerator._calculate_conviction m' t' c /\
  TradeSignalGenerator._calculate_conviction m t None
  <= TradeSignalGenerator._calculate_conviction m t c.
Proof.
  intros Hf Hm Ht. unfold TradeSignalGenerator._calculate_conviction. cbv zeta.
  rewrite Hf. split.
  - apply clamp_mono.
    assert (H1 : MomentumScore.momentum_score m / 100
                 <= MomentumScore.momentum_score m' / 100).
    { unfold Qdiv. apply Qmult_le_compat_r; [exact Hm | discriminate]. }
    assert (H2 : (MoatScore.total_moat_score t - 50) / 500
                 <= (MoatScore.total_moat_score t' - 50) / 500).
    { unfold Qdiv. apply Qmult_le_compat_r; [lra | discriminate]. }
    lra.
  - apply clamp_mono.
    destruct c as [c |]; [| lra].
    destruct (Py.gtb _ _); lra.
Qed.

Lemma conviction_monotone_witness :
  TradeSignalGenerator._calculate_conviction
    (Sample.momentum_for Sample.flagship 60 NO_SIGNAL)
    (Sample.moat_for Sample.flagship 50) None
  <= TradeSignalGenerator._calculate_conviction
       (Sample.momentum_for Sample.flagship 80 NO_SIGNAL)
       (Sample.moat_for Sample.flagship 70) None.
Proof.
  apply (conviction_monotone
           (Sample.momentum_for Sample.flagship 60 NO_SIGNAL)
           (Sample.momentum_for Sample.flagship 80 NO_SIGNAL)
           (Sample.moat_for Sample.flagship 50) (Sample.moat_for Sample.flagship 70) None);
    [reflexivity | discriminate | discriminate].
Defined.

(** External signals of a company in the headlines. *)
Module Buzz.

Definition mention : MediaMention.t := MediaMention.mk (Some Sample.now).

Definition external : ExternalData.t :=
  ExternalData.mk
    (Some (repeat mention 50))
    (Some (list_to_map [ ("linkedin_growth_rate", 20); ("twitter_engagement", 10) ]%string))
    (Some (repeat "thesis"%string 10))
    (Some (list_to_map [ ("current_interest", 100); ("previous_interest", 0) ]%string)).

End Buzz.

Lemma scored_bubble_always_fades_witness :
  TradeSignalGenerator._generate_recommendation
    (MomentumScoringEngine.calculate_momentum_score Sample.now Sample.seedling
       Buzz.external)
    (Sample.moat_for Sample.seedling 90) = FADE.
Proof.
  destruct (scored_bubble_always_fades Sample.now Sample.seedling Buzz.external
              (Sample.moat_for Sample.seedling 90)) as [H _].
  apply H. vm_compute. reflexivity.
Defined.

Section BatchErrors.
Variable now : Py.datetime.

(** The company qualifies for the secondary-market text and has no last
    valuation. *)
Definition unpriced (company : Company.t) : Prop :=
  50 # 100 < Company.ipo_probability_12mo company /\
  300000000 < Company.total_funding company /\
  Company.last_valuation company = None.

Lemma pre_ipo_access_cases company :
  (TradeSignalGenerator._identify_pre_ipo_access company = Py.Raise Py.TypeError
   /\ unpriced company)
  \/ (exists text, TradeSignalGenerator._identify_pre_ipo_access company = Py.Ok text
      /\ ~ unpriced company
      /\ (is_Some text <-> 50 # 100 < Company.ipo_probability_12mo company
                           /\ 300000000 < Company.total_funding company)).
Proof.
  unfold unpriced, TradeSignalGenerator._identify_pre_ipo_access.
  rewrite !gtb_ltb.
  destruct (Py.ltb (50 # 100) _) eqn:E1; [apply ltb_true in E1 | apply ltb_false in E1];
    cbn [andb].
  - destruct (Py.ltb 300000000 _) eqn:E2; [apply ltb_true in E2 | apply ltb_false in E2].
    + destruct (Company.last_valuation company) as [v |] eqn:Ev.
      * right. eexists. split; [reflexivity |]. split; [intros (_ & _ & H); discriminate |].
        split; [auto | eauto].
      * left. auto.
    + right. eexists. split; [reflexivity |]. split; [intros (_ & H & _); lra |].
      split; [intros [x Hx]; discriminate | intros [_ H]; lra].
  - right. eexists. split; [reflexivity |]. split; [intros (H & _); lra |].
    split; [intros [x Hx]; discriminate | intros [H _]; lra].
Qed.

Lemma generate_signal_cases rank company m t catalyst :
  (TradeSignalGenerator.generate_signal now rank company m t catalyst
   = Py.Raise Py.TypeError /\ unpriced company)
  \/ (exists signal,
        TradeSignalGenerator.generate_signal now rank company m t catalyst = Py.Ok signal
        /\ ~ unpriced company).
Proof.
  unfold TradeSignalGenerator.generate_signal. cbv zeta.
  destruct (pre_ipo_access_cases company) as [[-> H] | (text & -> & H & _)]; simpl.
  - left. auto.
  - right. eauto.
Qed.

Variable momentum_scores : list MomentumScore.t.
Variable moat_scores : list MoatScore.t.
Variable catalysts : gmap string Catalyst.t.

Lemma collect_signals_cases companies : forall i,
  (i + length companies <= length momentum_scores)%nat ->
  (i + length companies <= length moat_scores)%nat ->
  (TradeSignalGenerator.collect_signals now momentum_scores moat_scores catalysts
     i companies = Py.Raise Py.TypeError /\ Exists unpriced companies)
  \/ (exists signals,
        TradeSignalGenerator.collect_signals now momentum_scores moat_scores catalysts
          i companies = Py.Ok signals /\ Forall (fun c => ~ unpriced c) companies).
Proof.
  induction companies as [| company rest IH]; intros i Hm Ht; simpl in *.
  - right. eexists. split; [reflexivity | constructor].
  - destruct (lookup_lt_is_Some_2 momentum_scores i ltac:(lia)) as [m Em].
    destruct (lookup_lt_is_Some_2 moat_scores i ltac:(lia)) as [t Et].
    apply index_Ok in Em, Et. rewrite Em, Et. simpl.
    destruct (generate_signal_cases (Z.of_nat i + 1) company m t
                (catalysts !! Company.company_id company))
      as [[-> Hu] | (signal & -> & Hu)]; simpl.
    + left. split; [reflexivity | now constructor].
    + destruct (IH (S i) ltac:(lia) ltac:(lia)) as [[-> He] | (signals & -> & Hf)]; simpl.
      * left. split; [reflexivity | now apply Exists_cons_tl].
      * right. eexists. split; [reflexivity | now constructor].
Qed.

End BatchErrors.

(** X15. With score lists as long as the company list, generate_signals
    fails exactly when some company has ipo_probability_12mo above 0.50,
    total_funding above $300M and no last_valuation, and the exception is
    then TypeError; otherwise it returns a list. A single generate_signal
    call fails under the same condition on its company. *)
Theorem generate_signals_fails_iff_unpriced
    (now : Py.datetime) (companies : list Company.t)
    (momentum_scores : list MomentumScore.t) (moat_scores : list MoatScore.t)
    (catalysts : gmap string Catalyst.t) :
  length momentum_scores = length companies ->
  length moat_scores = length companies ->
  (forall e,
     TradeSignalGenerator.generate_signals now companies momentum_scores moat_scores
       catalysts = Py.Raise e
     <-> e = Py.TypeError /\ Exists unpriced companies) /\
  ((exists ranked,
      TradeSignalGenerator.generate_signals now companies momentum_scores moat_scores
        catalysts = Py.Ok ranked)
   <-> Forall (fun c => ~ unpriced c) companies) /\
  (forall rank company m t catalyst e,
     TradeSignalGenerator.generate_signal now rank company m t catalyst = Py.Raise e
     <-> e = Py.TypeError /\ unpriced company).
Proof.
  intros Hm Ht.
  assert (Hcases := collect_signals_cases now momentum_scores moat_scores catalysts
                      companies 0%nat ltac:(simpl; lia) ltac:(simpl; lia)).
  unfold TradeSignalGenerator.generate_signals.
  assert (Hexcl : Exists unpriced companies ->
                  Forall (fun c => ~ unpriced c) companies -> False).
  { intros He Hf. apply List.Exists_exists in He as (c & Hc & Hu).
    rewrite List.Forall_forall in Hf. exact (Hf c Hc Hu). }
  split; [| split].
  - intros e. destruct Hcases as [[-> He] | (signals & -> & Hf)]; simpl.
    + split; [intros [= <-]; auto | intros [-> _]; reflexivity].
    + split; [discriminate | intros [_ He]; exfalso; eauto].
  - destruct Hcases as [[-> He] | (signals & -> & Hf)]; simpl.
    + split; [intros [r Hr]; discriminate | intros Hf; exfalso; eauto].
    + split; [auto | eauto].
  - intros rank company m t catalyst e.
    destruct (generate_signal_cases now rank company m t catalyst)
      as [[-> Hu] | (signal & -> & Hu)].
    + split; [intros [= <-]; auto | intros [-> _]; reflexivity].
    + split; [discriminate | intros [_ H]; contradiction].
Qed.

Lemma generate_signals_fails_iff_unpriced_witness :
  TradeSignalGenerator.generate_signals Sample.now
    [Sample.seedling; Sample.unpriced]
    [ Sample.momentum_for Sample.seedling 40 NO_SIGNAL;
      Sample.momentum_for Sample.unpriced 60 NO_SIGNAL ]
    [Sample.moat_for Sample.seedling 50; Sample.moat_for Sample.unpriced 60]
    ∅ = Py.Raise Py.TypeError.
Proof.
  destruct (generate_signals_fails_iff_unpriced Sample.now
              [Sample.seedling; Sample.unpriced]
              [ Sample.momentum_for Sample.seedling 40 NO_SIGNAL;
                Sample.momentum_for Sample.unpriced 60 NO_SIGNAL ]
              [Sample.moat_for Sample.seedling 50; Sample.moat_for Sample.unpriced 60]
              ∅ eq_refl eq_refl) as (H & _).
  apply H. split; [reflexivity |].
  apply Exists_cons_tl, Exists_cons_hd.
  split; [reflexivity | split; reflexivity].
Defined.

(** ** The ranked batch of signals *)

Section RankedBatch.
Variable now : Py.datetime.
Variable companies : list Company.t.
Variable momentum_scores : list MomentumScore.t.
Variable moat_scores : list MoatScore.t.
Variable catalysts : gmap string Catalyst.t.
Variable ranked : list TradeSignal.t.
Hypothesis Hranked :
  TradeSignalGenerator.generate_signals now companies momentum_scores moat_scores
    catalysts = Py.Ok ranked.

(** Every returned signal is, up to its rank, the signal generated for
    some company from the scores at the company's index. *)
Lemma ranked_signal_origin s :
  In s ranked ->
  exists i company m t signal,
    companies !! i = Some company /\
    momentum_scores !! i = Some m /\ moat_scores !! i = Some t /\
    TradeSignalGenerator.generate_signal now (Z.of_nat i + 1) company m t
      (catalysts !! Company.company_id company) = Py.Ok signal /\
    unranked s = unranked signal.
Proof.
  intros Hin.
  destruct (generate_signals_Ok _ _ _ _ _ _ Hranked) as (signals & Ec & ->).
  apply (in_map unranked) in Hin. rewrite update_ranks_unranked in Hin.
  apply in_map_iff in Hin as (s0 & Es0 & Hs0).
  eapply Permutation_in in Hs0; [| apply sort_desc_perm].
  apply collect_signals_spec in Ec as [Hlen Hall].
  apply list_elem_of_In, list_elem_of_lookup in Hs0 as [k Hk].
  destruct (lookup_lt_is_Some_2 companies k) as [company Hc].
  { rewrite <- Hlen. eapply lookup_lt_Some, Hk. }
  destruct (Hall k company Hc) as (m & t & signal & Hm & Ht & Hg & Hsig).
  simpl in Hm, Ht, Hg.
  exists k, company, m, t, signal.
  assert (signal = s0) as -> by congruence.
  auto.
Qed.

Lemma ranked_sorted : StronglySorted (desc TradeSignal.conviction) ranked.
Proof.
  destruct (generate_signals_Ok _ _ _ _ _ _ Hranked) as (signals & _ & ->).
  apply (sorted_by_keys TradeSignal.conviction
           (Py.sort_desc TradeSignal.conviction signals)).
  - symmetry. apply update_ranks_conviction.
  - apply sort_desc_strongly_sorted.
Qed.

Lemma ranked_ranks :
  map TradeSignal.rank ranked = map Z.of_nat (seq 1 (length ranked)).
Proof.
  destruct (generate_signals_Ok _ _ _ _ _ _ Hranked) as (signals & _ & ->).
  now rewrite update_ranks_rank, update_ranks_length.
Qed.

End RankedBatch.

(** X16. TradeSignalGenerator.filter_high_conviction applied to what
    generate_signals returned keeps exactly its first k signals, the
    ones ranked 1..k, for some k: every kept signal has conviction at
    least the threshold and every signal left out has less. *)
Theorem high_conviction_signals_are_top_ranks
    (now : Py.datetime) (companies : list Company.t)
    (momentum_scores : list MomentumScore.t) (moat_scores : list MoatScore.t)
    (catalysts : gmap string Catalyst.t) (threshold : Q)
    (ranked : list TradeSignal.t) :
  TradeSignalGenerator.generate_signals now companies momentum_scores moat_scores
    catalysts = Py.Ok ranked ->
  let kept := TradeSignalGenerator.filter_high_conviction ranked threshold in
  kept = take (length kept) ranked /\
  map TradeSignal.rank kept = map Z.of_nat (seq 1 (length kept)) /\
  Forall (fun s => threshold <= TradeSignal.conviction s) kept /\
  Forall (fun s => TradeSignal.conviction s < threshold) (drop (length kept) ranked).
Proof.
  intros Hranked. cbv zeta. unfold TradeSignalGenerator.filter_high_conviction.
  destruct (filter_sorted_prefix TradeSignal.conviction threshold ranked) as [H1 H2].
  { eapply ranked_sorted, Hranked. }
  fold (at_least TradeSignal.conviction threshold).
  set (kept := List.filter (at_least TradeSignal.conviction threshold) ranked) in *.
  split; [exact H1 |]. split; [| split; [| exact H2]].
  - assert (Hle : (length kept <= length ranked)%nat).
    { unfold kept. apply List.filter_length_le. }
    rewrite H1 at 1. rewrite <- firstn_map.
    rewrite (ranked_ranks _ _ _ _ _ _ Hranked), firstn_map.
    f_equal. change (take (length kept) (seq 1 (length ranked))
                     = seq 1 (length kept)).
    rewrite take_seq. f_equal. lia.
  - apply List.Forall_forall. intros s Hs. apply filter_In in Hs as [_ Hs].
    unfold at_least in Hs. now apply geb_true in Hs.
Qed.

Lemma high_conviction_signals_are_top_ranks_witness :
  exists ranked,
    TradeSignalGenerator.generate_signals Sample.now
      [Sample.seedling; Sample.flagship]
      [ Sample.momentum_for Sample.seedling 40 NO_SIGNAL;
        Sample.momentum_for Sample.flagship 80 CONFIRMED_MOMENTUM ]
      [Sample.moat_for Sample.seedling 50; Sample.moat_for Sample.flagship 80]
      ∅ = Py.Ok ranked /\
    map TradeSignal.rank
      (TradeSignalGenerator.filter_high_conviction ranked (70 # 100))
    = map Z.of_nat
        (seq 1 (length (TradeSignalGenerator.filter_high_conviction ranked (70 # 100)))).
Proof.
  eexists. split; [vm_compute; reflexivity |].
  refine (proj1 (proj2 (high_conviction_signals_are_top_ranks Sample.now
            [Sample.seedling; Sample.flagship]
            [ Sample.momentum_for Sample.seedling 40 NO_SIGNAL;
              Sample.momentum_for Sample.flagship 80 CONFIRMED_MOMENTUM ]
            [Sample.moat_for Sample.seedling 50; Sample.moat_for Sample.flagship 80]
            ∅ (70 # 100) _ _))).
  vm_compute. reflexivity.
Defined.

(** X17. Every signal generate_signals returns names a company of the
    input and carries that company's id and sector; its entry_price and
    stop_loss are never set, while public_proxy, synthetic_exposure and
    expected_return always are; pre_ipo_access is set exactly when the
    company has ipo_probability_12mo above 0.50 and total_funding above
    $300M; next_catalyst and catalyst_date are set exactly when the
    catalysts dictionary has the company's id. *)
Theorem ranked_signals_fields
    (now : Py.datetime) (companies : list Company.t)
    (momentum_scores : list MomentumScore.t) (moat_scores : list MoatScore.t)
    (catalysts : gmap string Catalyst.t) (ranked : list TradeSignal.t) :
  TradeSignalGenerator.generate_signals now companies momentum_scores moat_scores
    catalysts = Py.Ok ranked ->
  forall s, In s ranked ->
    TradeSignal.entry_price s = None /\
    TradeSignal.stop_loss s = None /\
    is_Some (TradeSignal.public_proxy s) /\
    is_Some (TradeSignal.synthetic_exposure s) /\
    is_Some (TradeSignal.expected_return s) /\
    exists company,
      In company companies /\
      TradeSignal.company s = Company.name company /\
      TradeSignal.company_id s = Company.company_id company /\
      TradeSignal.sector s = Company.sector company /\
      (is_Some (TradeSignal.pre_ipo_access s)
       <-> 50 # 100 < Company.ipo_probability_12mo company
           /\ 300000000 < Company.total_funding company) /\
      (is_Some (TradeSignal.next_catalyst s)
       <-> is_Some (catalysts !! Company.company_id company)) /\
      (is_Some (TradeSignal.catalyst_date s)
       <-> is_Some (catalysts !! Company.company_id company)).
Proof.
  intros Hranked s Hs.
  destruct (ranked_signal_origin _ _ _ _ _ _ Hranked s Hs)
    as (i & company & m & t & signal & Hc & _ & _ & Hg & Eu).
  assert (Hfield : forall {B} (f : TradeSignal.t -> B),
            (forall x, f (unranked x) = f x) -> f s = f signal).
  { intros B f Hf. rewrite <- (Hf s), <- (Hf signal). now rewrite Eu. }
  rewrite (Hfield _ TradeSignal.entry_price), (Hfield _ TradeSignal.stop_loss),
    (Hfield _ TradeSignal.public_proxy), (Hfield _ TradeSignal.synthetic_exposure),
    (Hfield _ TradeSignal.expected_return), (Hfield _ TradeSignal.company),
    (Hfield _ TradeSignal.company_id), (Hfield _ TradeSignal.sector),
    (Hfield _ TradeSignal.pre_ipo_access), (Hfield _ TradeSignal.next_catalyst),
    (Hfield _ TradeSignal.catalyst_date) by reflexivity.
  clear Hfield Eu Hs s.
  unfold TradeSignalGenerator.generate_signal in Hg. cbv zeta in Hg.
  destruct (pre_ipo_access_cases company) as [[E _] | (text & E & _ & Htext)];
    rewrite E in Hg; simpl in Hg; [discriminate |].
  injection Hg as <-. simpl.
  split; [reflexivity |]. split; [reflexivity |].
  split.
  { unfold TradeSignalGenerator._identify_public_proxy.
    destruct (Company.public_proxies company); eauto. }
  split.
  { unfold TradeSignalGenerator._generate_synthetic_exposure. cbv zeta.
    repeat match goal with |- context [if ?b then _ else _] => destruct b end; eauto. }
  split; [eauto |].
  exists company. split.
  { eapply list_elem_of_In, list_elem_of_lookup_2, Hc. }
  split; [reflexivity |]. split; [reflexivity |]. split; [reflexivity |].
  split; [exact Htext |].
  split; rewrite fmap_is_Some; reflexivity.
Qed.

Lemma ranked_signals_fields_witness :
  exists ranked,
    TradeSignalGenerator.generate_signals Sample.now
      [Sample.seedling; Sample.flagship]
      [ Sample.momentum_for Sample.seedling 40 NO_SIGNAL;
        Sample.momentum_for Sample.flagship 80 CONFIRMED_MOMENTUM ]
      [Sample.moat_for Sample.seedling 50; Sample.moat_for Sample.flagship 80]
      ∅ = Py.Ok ranked /\
    length ranked = 2%nat /\
    forall s, In s ranked ->
      TradeSignal.stop_loss s = None /\ is_Some (TradeSignal.public_proxy s).
Proof.
  destruct (TradeSignalGenerator.generate_signals Sample.now
              [Sample.seedling; Sample.flagship]
              [ Sample.momentum_for Sample.seedling 40 NO_SIGNAL;
                Sample.momentum_for Sample.flagship 80 CONFIRMED_MOMENTUM ]
              [Sample.moat_for Sample.seedling 50; Sample.moat_for Sample.flagship 80]
              ∅) as [ranked | e] eqn:E; [| vm_compute in E; discriminate E].
  exists ranked. split; [reflexivity |]. split.
  - vm_compute in E. injection E as <-. reflexivity.
  - intros s Hs.
    destruct (ranked_signals_fields _ _ _ _ _ _ E s Hs) as (_ & H1 & H2 & _).
    split; [exact H1 | exact H2].
Defined.

(** ** Second-order plays *)

Section PlayFacts.
Variable now : Py.datetime.
Variable price_correlations : gmap string Q.

(** The opportunity-quality key of the final sort. *)
Definition gap (p : SecondOrderPlay.t) : Q :=
  SecondOrderPlay.dependency_score p - SecondOrderPlay.price_correlation p.

(** What is recorded of a supplier that gets a play. *)
Definition recorded (p : SecondOrderPlay.t) : Prop :=
  (exists ticker,
     SecondOrderPlay.supplier_ticker p = Some ticker /\ ticker <> ""%string /\
     SecondOrderPlay.price_correlation p = dict_get price_correlations ticker (50 # 100)) /\
  ((SecondOrderPlay.entry_timing p = "Immediate"%string /\
    SecondOrderPlay.risk_adjusted_return p = "High"%string /\
    70 # 100 < SecondOrderPlay.dependency_score p /\
    SecondOrderPlay.price_correlation p < 40 # 100)
   \/
   (SecondOrderPlay.entry_timing p = "Monitor"%string /\
    SecondOrderPlay.risk_adjusted_return p = "Medium"%string /\
    (SecondOrderPlay.dependency_score p <= 70 # 100
     \/ 40 # 100 <= SecondOrderPlay.price_correlation p))).

Lemma supplier_play_recorded s dep supplier p :
  In p (SecondOrderArbitrageEngine.supplier_play now price_correlations s dep supplier) ->
  recorded p /\
  SecondOrderPlay.dependency_score p
  = SecondOrderArbitrageEngine.supplier_dependency supplier.
Proof.
  unfold SecondOrderArbitrageEngine.supplier_play, recorded.
  destruct (SecondOrderArbitrageEngine.supplier_ticker supplier) as [ticker |];
    [| intros []].
  destruct (String.eqb ticker "") eqn:Et; [intros [] |].
  apply String.eqb_neq in Et. cbv zeta.
  unfold Config.HIGH_DEPENDENCY, Config.LOW_CORRELATION. rewrite gtb_ltb.
  intros [<- | []]. cbn [SecondOrderPlay.supplier_ticker SecondOrderPlay.price_correlation
    SecondOrderPlay.entry_timing SecondOrderPlay.risk_adjusted_return
    SecondOrderPlay.dependency_score].
  split; [| reflexivity]. split; [eauto |].
  destruct (Py.ltb (70 # 100) _) eqn:E1; [apply ltb_true in E1 | apply ltb_false in E1];
    cbn [andb].
  - destruct (Py.ltb _ (40 # 100)) eqn:E2; [apply ltb_true in E2 | apply ltb_false in E2].
    + left. auto.
    + right. auto.
  - right. auto.
Qed.

Lemma dependency_map_range sector deps dep supplier :
  SecondOrderArbitrageEngine.dependency_map sector = Some deps ->
  In dep deps -> In supplier (SecondOrderArbitrageEngine.dep_suppliers dep) ->
  68 # 100 <= SecondOrderArbitrageEngine.supplier_dependency supplier <= 95 # 100.
Proof.
  intros Hd Hdep Hs.
  destruct sector; simpl in Hd; try discriminate; injection Hd as <-;
    simpl in Hdep;
    repeat match goal with
           | H : _ \/ _ |- _ => destruct H as [H | H]
           | H : False |- _ => destruct H
           end; subst dep; simpl in Hs;
    repeat match goal with
           | H : _ \/ _ |- _ => destruct H as [H | H]
           | H : False |- _ => destruct H
           end; subst supplier; simpl; lra.
Qed.

Lemma plays_of_recorded s p :
  In p (SecondOrderArbitrageEngine.plays_of now price_correlations s) ->
  recorded p /\ 68 # 100 <= SecondOrderPlay.dependency_score p <= 95 # 100.
Proof.
  unfold SecondOrderArbitrageEngine.plays_of. cbv zeta.
  destruct (SecondOrderArbitrageEngine.dependency_map _) as [deps |] eqn:Ed;
    [| intros []].
  intros H. apply in_flat_map in H as (dep & Hdep & H).
  apply in_flat_map in H as (supplier & Hsup & H).
  apply supplier_play_recorded in H as [Hr ->].
  split; [exact Hr |]. eapply dependency_map_range; eassumption.
Qed.

End PlayFacts.

Lemma second_order_plays_sorted now price_correlations scores :
  StronglySorted (desc gap)
    (SecondOrderArbitrageEngine.find_second_order_plays now price_correlations scores).
Proof.
  unfold SecondOrderArbitrageEngine.find_second_order_plays. cbv zeta.
  apply (sort_desc_strongly_sorted gap).
Qed.

(** X18. find_second_order_plays returns its plays in descending order
    of dependency_score - price_correlation. Every play has a non-empty
    ticker (the private suppliers of the map never appear), the
    correlation recorded is the entry of price_correlations for that
    ticker or 0.50 without one, the dependency lies between 0.68 and
    0.95, and the play is "Immediate" with "High" return exactly when the
    dependency is above 0.70 and the correlation below 0.40, otherwise
    "Monitor" with "Medium". *)
Theorem second_order_plays_profile
    (now : Py.datetime) (price_correlations : gmap string Q)
    (scores : list MomentumScore.t) :
  let plays :=
    SecondOrderArbitrageEngine.find_second_order_plays now price_correlations scores in
  StronglySorted (desc gap) plays /\
  forall p, In p plays ->
    recorded price_correlations p /\
    68 # 100 <= SecondOrderPlay.dependency_score p <= 95 # 100.
Proof.
  cbv zeta. split.
  - apply second_order_plays_sorted.
  - intros p Hp. apply in_find_second_order_plays in Hp as (s & _ & _ & Hp).
    eapply plays_of_recorded, Hp.
Qed.

Lemma immediate_false p :
  SecondOrderPlay.entry_timing p <> "Immediate"%string ->
  String.eqb (SecondOrderPlay.entry_timing p) "Immediate" = false.
Proof. intros H. now apply String.eqb_neq. Qed.

Lemma filter_nil {A} (f : A -> bool) l :
  (forall x, In x l -> f x = false) -> List.filter f l = [].
Proof.
  induction l as [| x l IH]; intros H; simpl; [reflexivity |].
  rewrite (H x (or_introl eq_refl)). apply IH. intros y Hy. apply H. now right.
Qed.

(** With the engine's own table of correlations, the suppliers whose
    play can be "Immediate". *)
Lemma mock_supplier_play now s dep supplier sector deps p :
  SecondOrderArbitrageEngine.dependency_map sector = Some deps ->
  In dep deps -> In supplier (SecondOrderArbitrageEngine.dep_suppliers dep) ->
  In p (SecondOrderArbitrageEngine.supplier_play now
          SecondOrderArbitrageEngine.generate_mock_correlations s dep supplier) ->
  SecondOrderPlay.entry_timing p = "Immediate"%string ->
  In (SecondOrderPlay.supplier_ticker p)
     [Some "VRT"; Some "QRVO"; Some "OXIG.L"]%string.
Proof.
  intros Hd Hdep Hs.
  destruct sector; simpl in Hd; try discriminate; injection Hd as <-;
    simpl in Hdep;
    repeat match goal with
           | H : _ \/ _ |- _ => destruct H as [H | H]
           | H : False |- _ => destruct H
           end; subst dep; simpl in Hs;
    repeat match goal with
           | H : _ \/ _ |- _ => destruct H as [H | H]
           | H : False |- _ => destruct H
           end; subst supplier;
    intros Hp; vm_compute in Hp;
    (destruct Hp as [<- | []] || destruct Hp);
    simpl; intros Ht; first [discriminate Ht | tauto].
Qed.

(** X19. Without price correlations every supplier is taken at the
    default correlation 0.50, so no play is "Immediate":
    filter_immediate_entry of the result is empty, whatever the scores.
    With the table of generate_mock_correlations, which the weekly
    report uses, the plays filter_immediate_entry keeps are on VRT, QRVO
    or OXIG.L only. *)
Theorem immediate_entry_needs_correlations
    (now : Py.datetime) (scores : list MomentumScore.t) :
  SecondOrderArbitrageEngine.filter_immediate_entry
    (SecondOrderArbitrageEngine.find_second_order_plays now ∅ scores) = [] /\
  forall p,
    In p (SecondOrderArbitrageEngine.filter_immediate_entry
            (SecondOrderArbitrageEngine.find_second_order_plays now
               SecondOrderArbitrageEngine.generate_mock_correlations scores)) ->
    In (SecondOrderPlay.supplier_ticker p)
       [Some "VRT"; Some "QRVO"; Some "OXIG.L"]%string.
Proof.
  split.
  - apply filter_nil. intros p Hp. apply immediate_false.
    apply in_find_second_order_plays in Hp as (s & _ & _ & Hp).
    apply plays_of_recorded in Hp as [[(ticker & _ & _ & Hc) Ht] _].
    unfold dict_get in Hc. rewrite lookup_empty in Hc. simpl in Hc.
    destruct Ht as [(_ & _ & _ & Hlow) | (-> & _)]; [| discriminate].
    rewrite Hc in Hlow. lra.
  - intros p Hp.
    unfold SecondOrderArbitrageEngine.filter_immediate_entry in Hp.
    apply filter_In in Hp as [Hp Ht]. apply String.eqb_eq in Ht.
    apply in_find_second_order_plays in Hp as (s & _ & _ & Hp).
    unfold SecondOrderArbitrageEngine.plays_of in Hp. cbv zeta in Hp.
    destruct (SecondOrderArbitrageEngine.dependency_map _) as [deps |] eqn:Ed;
      [| destruct Hp].
    apply in_flat_map in Hp as (dep & Hdep & Hp).
    apply in_flat_map in Hp as (supplier & Hsup & Hp).
    exact (mock_supplier_play _ _ _ _ _ _ _ Ed Hdep Hsup Hp Ht).
Qed.

Section Slices.
Context {A : Type} (key : A -> Q).

Lemma in_drop (l : list A) : forall k q, In q (drop k l) -> In q l.
Proof.
  induction l as [| x l IH]; intros [| k] q H; simpl in H; try exact H.
  right. eapply IH, H.
Qed.

(** In a descending list everything before a cut is at least everything
    after it. *)
Lemma sorted_take_dominates l : forall k p q,
  StronglySorted (desc key) l ->
  In p (take k l) -> In q (drop k l) -> key q <= key p.
Proof.
  induction l as [| x l IH]; intros k p q Hs Hp Hq.
  - destruct k; destruct Hp.
  - inversion Hs as [| ? ? Hs' Hall]; subst.
    destruct k as [| k]; [destruct Hp |].
    simpl in Hp, Hq. destruct Hp as [<- | Hp].
    + rewrite List.Forall_forall in Hall. eapply Hall, in_drop, Hq.
    + eapply IH; eassumption.
Qed.

Lemma slice_to_length (l : list A) (n : Z) :
  ((0 <= n)%Z -> length (Py.slice_to l n) = Nat.min (Z.to_nat n) (length l)) /\
  ((n < 0)%Z -> length (Py.slice_to l n) = (length l - Z.to_nat (- n))%nat).
Proof.
  unfold Py.slice_to, Py.slice_index. cbv zeta.
  rewrite length_take. split; intros Hn.
  - destruct (Z.ltb_spec n 0); lia.
  - destruct (Z.ltb_spec n 0); lia.
Qed.

End Slices.

(** X20. get_top_plays(plays, n) returns the first min(n, len) plays
    for n >= 0; for a negative n it returns all but the last -n plays
    (none when there are fewer). Taken from what find_second_order_plays
    returned, no play it leaves out has a larger dependency_score -
    price_correlation than a play it keeps. *)
Theorem top_plays_dominate
    (now : Py.datetime) (price_correlations : gmap string Q)
    (scores : list MomentumScore.t) (n : Z) :
  let plays :=
    SecondOrderArbitrageEngine.find_second_order_plays now price_correlations scores in
  let top := SecondOrderArbitrageEngine.get_top_plays plays n in
  top = take (length top) plays /\
  ((0 <= n)%Z -> length top = Nat.min (Z.to_nat n) (length plays)) /\
  ((n < 0)%Z -> length top = (length plays - Z.to_nat (- n))%nat) /\
  forall p q, In p top -> In q (drop (length top) plays) -> gap q <= gap p.
Proof.
  cbv zeta. unfold SecondOrderArbitrageEngine.get_top_plays.
  set (plays := SecondOrderArbitrageEngine.find_second_order_plays _ _ _).
  assert (Htop : Py.slice_to plays n = take (length (Py.slice_to plays n)) plays).
  { unfold Py.slice_to. rewrite length_take.
    rewrite <- take_take, firstn_all. reflexivity. }
  split; [exact Htop |].
  split; [apply slice_to_length |]. split; [apply slice_to_length |].
  intros p q Hp Hq. rewrite Htop in Hp.
  eapply (sorted_take_dominates gap); [| exact Hp | exact Hq].
  apply second_order_plays_sorted.
Qed.

(** ** Timing predictions *)

Section RoundingOrder.

Lemma round_half_even_mono q q' :
  q <= q' -> (Py.round_half_even q <= Py.round_half_even q')%Z.
Proof.
  intros H.
  pose proof (Qfloor_resp_le _ _ H) as Hf.
  destruct (Z.eq_dec (Qfloor q) (Qfloor q')) as [E | N].
  - unfold Py.round_half_even. cbv zeta. rewrite <- E.
    destruct (Z.even (Qfloor q)); cmp_cases; first [lia | lra].
  - destruct (round_half_even_cases q) as [-> | [-> _]];
      destruct (round_half_even_cases q') as [-> | [-> _]]; lia.
Qed.

Lemma round2_mono q q' : q <= q' -> Py.round2 q <= Py.round2 q'.
Proof.
  intros H. unfold Py.round2.
  assert (Hr : (Py.round_half_even (q * 100) <= Py.round_half_even (q' * 100))%Z).
  { apply round_half_even_mono. lra. }
  rewrite Zle_Qle in Hr.
  unfold Qdiv. apply Qmult_le_compat_r; [exact Hr | discriminate].
Qed.

Lemma round2_unit q : 0 <= q <= 1 -> 0 <= Py.round2 q <= 1.
Proof.
  intros [H0 H1].
  assert (E0 : 0 == inject_Z 0 / 100) by reflexivity.
  assert (E1 : 1 == inject_Z 100 / 100) by reflexivity.
  split.
  - rewrite E0. apply round2_lower. rewrite <- E0. exact H0.
  - rewrite E1. apply round2_upper. rewrite <- E1. exact H1.
Qed.

End RoundingOrder.

Section AscendingSort.
Context {A : Type} (key : A -> Z).

Definition asc (a b : A) : Prop := (key a <= key b)%Z.

Lemma insert_asc_perm x l : Permutation (Py.insert_asc key x l) (x :: l).
Proof.
  induction l as [| y l IH]; simpl; [reflexivity |].
  destruct (key x <=? key y)%Z; [reflexivity |].
  rewrite IH. apply perm_swap.
Qed.

Lemma sort_asc_perm l : Permutation (Py.sort_asc key l) l.
Proof.
  induction l as [| x l IH]; simpl; [reflexivity |].
  unfold Py.sort_asc in *. simpl. rewrite insert_asc_perm. now constructor.
Qed.

Lemma insert_asc_sorted x l :
  StronglySorted asc l -> StronglySorted asc (Py.insert_asc key x l).
Proof.
  induction 1 as [| y l Hs IH Hall]; simpl.
  - repeat constructor.
  - destruct (Z.leb_spec (key x) (key y)) as [Hle | Hgt].
    + constructor; [now constructor |].
      constructor; [exact Hle |].
      rewrite List.Forall_forall in *. intros z Hz. specialize (Hall z Hz).
      unfold asc in *. lia.
    + constructor; [exact IH |].
      rewrite List.Forall_forall in *. intros z Hz.
      eapply Permutation_in in Hz; [| apply insert_asc_perm].
      destruct Hz as [<- | Hz]; [unfold asc; lia | now apply Hall].
Qed.

Lemma sort_asc_sorted l : StronglySorted asc (Py.sort_asc key l).
Proof.
  induction l as [| x l IH]; [constructor |].
  unfold Py.sort_asc in *. simpl. now apply insert_asc_sorted.
Qed.

End AscendingSort.

Section IpoTiming.
Variable now : Py.datetime.

Lemma funding_stage_probability_range company :
  10 # 100 <= TimingPredictionEngine._funding_stage_probability company <= 75 # 100.
Proof.
  unfold TimingPredictionEngine._funding_stage_probability. cbv zeta.
  cmp_cases; lra.
Qed.

Lemma cfo_hire_signal_range company :
  15 # 100 <= TimingPredictionEngine._cfo_hire_signal now company <= 85 # 100.
Proof.
  unfold TimingPredictionEngine._cfo_hire_signal.
  destruct (Company.executive_hires company); [lra |]. cbv zeta.
  destruct (existsb _ _); [lra |]. destruct (existsb _ _); lra.
Qed.

Lemma revenue_readiness_range company :
  15 # 100 <= TimingPredictionEngine._revenue_readiness company <= 90 # 100.
Proof.
  unfold TimingPredictionEngine._revenue_readiness.
  destruct (MomentumScoringEngine.arr_missing _); cbv zeta; cmp_cases; lra.
Qed.

Lemma market_window_multiplier_range market_conditions :
  2 # 10 <= TimingPredictionEngine._market_window_multiplier market_conditions <= 12 # 10.
Proof.
  unfold TimingPredictionEngine._market_window_multiplier. cbv zeta.
  generalize (dict_get market_conditions "ipo_window" "open"%string).
  generalize (dict_get market_conditions "volatility" "medium"%string).
  intros volatility window_status.
  unfold TimingPredictionEngine.multipliers.
  cbn [TimingPredictionEngine.table_get].
  repeat match goal with
         | |- context [String.eqb ?a ?b] =>
             destruct (String.eqb a b); cbn [Config.get default from_option id]
         end; cbn [default from_option id]; lra.
Qed.

Lemma estimate_ipo_date_future company :
  (now < TimingPredictionEngine._estimate_ipo_date now company)%Z.
Proof.
  unfold TimingPredictionEngine._estimate_ipo_date. cbv zeta.
  destruct (List.filter _ _) as [| hire hires].
  - split_ifs; unfold Py.timedelta; lia.
  - destruct (Z.ltb_spec now
                (ExecutiveHire.date (Py.max_by_date ExecutiveHire.date hire hires)
                 + Py.timedelta 270)); [assumption |].
    split_ifs; unfold Py.timedelta; lia.
Qed.

Lemma adjusted_probability_range f c r m :
  10 # 100 <= f <= 75 # 100 -> 15 # 100 <= c <= 85 # 100 ->
  15 # 100 <= r <= 90 # 100 -> 2 # 10 <= m <= 12 # 10 ->
  2 # 100 < (f + c + r) / 3 * m <= 1.
Proof.
  intros Hf Hc Hr Hm.
  set (b := (f + c + r) / 3).
  assert (Hb : 4 # 30 <= b <= 25 # 30).
  { unfold b. split.
    - apply Qle_shift_div_l; lra.
    - apply Qle_shift_div_r; lra. }
  clearbody b. nra.
Qed.

End IpoTiming.

(** The company of the sample that is ready to list: a CFO hired 100
    days ago, more than $1B raised and more than $500M of revenue. *)
Module Listing.

Definition ready : Company.t :=
  Company.mk "c-005" "Ready Compute" AI_INFRA WAVE_3 "training cost"
    [] 1200000000 (Some 9000000000) [] 10
    [ ExecutiveHire.mk (Sample.now - Py.timedelta 100)%Z "CFO" "A. Finance"
        "Listed Corp" true ]
    4000 60 20 [] 80 (Some 600000000) (50 # 100) (80 # 100) None
    (Py.timedelta 734000) "San Jose" "https://ready.example" Sample.now.

End Listing.

(** X21. For every company and market conditions the catalyst of
    predict_ipo_timing has an estimated date after now, a confidence in
    (0.02, 1] and both rounded probabilities in [0, 1]. The 6-month
    probability does not exceed the 12-month one as long as the
    confidence is at most 0.95; above that it can, the 12-month value
    being capped at 0.95 where the 6-month one is not: the sample
    company gets 1.0 for 6 months and 0.95 for 12. *)
Theorem ipo_timing_probabilities
    (now : Py.datetime) (company : Company.t)
    (market_conditions : option (gmap string string)) :
  let c := TimingPredictionEngine.predict_ipo_timing now company market_conditions in
  (now < Catalyst.estimated_date c)%Z /\
  2 # 100 < Catalyst.confidence c <= 1 /\
  0 <= Catalyst.probability_6mo c <= 1 /\
  0 <= Catalyst.probability_12mo c <= 1 /\
  (Catalyst.confidence c <= 95 # 100 ->
   Catalyst.probability_6mo c <= Catalyst.probability_12mo c) /\
  (let c' := TimingPredictionEngine.predict_ipo_timing Sample.now Listing.ready None in
   Catalyst.probability_6mo c' == 1 /\ Catalyst.probability_12mo c' == 95 # 100).
Proof.
  cbv zeta. unfold TimingPredictionEngine.predict_ipo_timing. cbv zeta.
  cbn [Catalyst.estimated_date Catalyst.confidence Catalyst.probability_6mo
       Catalyst.probability_12mo].
  set (conditions := match market_conditions with
                     | Some conditions => _
                     | None => _
                     end).
  pose proof (adjusted_probability_range _ _ _ _
                (funding_stage_probability_range company)
                (cfo_hire_signal_range now company)
                (revenue_readiness_range company)
                (market_window_multiplier_range conditions)) as Hadj.
  set (adjusted := _ / 3 * _) in *. clearbody adjusted.
  split; [apply estimate_ipo_date_future |].
  split; [exact Hadj |].
  pose proof (min_le_r (adjusted + (15 # 100)) (95 # 100)) as Hmin.
  pose proof (min_glb (adjusted + (15 # 100)) (95 # 100) 0
                ltac:(lra) ltac:(lra)) as Hmin0.
  split; [| split; [| split]].
  - apply round2_unit. split_ifs; lra.
  - apply round2_unit. split_ifs; lra.
  - intros Hc. apply round2_mono.
    pose proof (min_glb (adjusted + (15 # 100)) (95 # 100) adjusted
                  ltac:(lra) Hc) as Hge.
    split_ifs; lra.
  - split; vm_compute; reflexivity.
Qed.

Section Catalysts.
Variable now : Py.datetime.

(** Asked without a regulatory context, as get_all_catalysts asks,
    predict_regulatory_approval has nothing to report. *)
Lemma regulatory_approval_needs_review company :
  TimingPredictionEngine.predict_regulatory_approval now company ∅ = None.
Proof.
  unfold TimingPredictionEngine.predict_regulatory_approval.
  destruct (TimingPredictionEngine.regulated_get _ _) as [[agency days] |];
    reflexivity.
Qed.

(** The catalysts of a company before they are sorted. *)
Definition predicted
    (company : Company.t) (market_conditions : option (gmap string string))
  : list Catalyst.t :=
  let ipo_catalyst :=
    TimingPredictionEngine.predict_ipo_timing now company market_conditions in
  ((if Py.gtb (Catalyst.confidence ipo_catalyst) (30 # 100) then [ipo_catalyst] else [])
   ++ match TimingPredictionEngine.predict_ma_timing now company with
      | Some ma_catalyst => [ma_catalyst]
      | None => []
      end
   ++ TimingPredictionEngine.predict_product_launch now company)%list.

Lemma get_all_catalysts_predicted company market_conditions :
  TimingPredictionEngine.get_all_catalysts now company market_conditions
  = Py.sort_asc Catalyst.estimated_date (predicted company market_conditions).
Proof.
  unfold TimingPredictionEngine.get_all_catalysts, predicted. cbv zeta.
  rewrite regulatory_approval_needs_review.
  destruct (Py.gtb _ _); destruct (TimingPredictionEngine.predict_ma_timing now company);
    simpl; rewrite ?app_nil_r; reflexivity.
Qed.

Lemma product_launch_single company :
  TimingPredictionEngine.predict_product_launch now company = [] \/
  exists c,
    TimingPredictionEngine.predict_product_launch now company = [c] /\
    Catalyst.catalyst_type c = "Product Launch Expected"%string.
Proof.
  unfold TimingPredictionEngine.predict_product_launch.
  destruct (Company.patent_grants company) as [| g grants]; [now left |].
  cbv zeta. destruct (List.filter _ _); [now left |].
  right. eexists. split; reflexivity.
Qed.

Lemma ma_timing_type company c :
  TimingPredictionEngine.predict_ma_timing now company = Some c ->
  Catalyst.catalyst_type c = "M&A Exit Potential"%string /\
  Catalyst.probability_6mo c = 10 # 100 /\
  Catalyst.estimated_date c = (now + Py.timedelta 540)%Z.
Proof.
  unfold TimingPredictionEngine.predict_ma_timing.
  destruct (Py.ltb _ _); [discriminate |]. destruct (Py.gtb _ _); [discriminate |].
  cbv zeta. intros [= <-]. auto.
Qed.

End Catalysts.

(** X22. get_all_catalysts returns at most three catalysts, in ascending
    order of estimated date, and each is an IPO, an M&A or a product
    launch catalyst: asked without a regulatory context, the regulatory
    prediction never contributes. get_next_catalyst returns the earliest
    of them; it returns None exactly when the IPO confidence is at most
    0.30, there is no M&A prediction and no product launch. *)
Theorem next_catalyst_is_earliest
    (now : Py.datetime) (company : Company.t)
    (market_conditions : option (gmap string string)) :
  let all := TimingPredictionEngine.get_all_catalysts now company market_conditions in
  let next := TimingPredictionEngine.get_next_catalyst now company market_conditions in
  StronglySorted (asc Catalyst.estimated_date) all /\
  (length all <= 3)%nat /\
  (forall c, In c all ->
     In (Catalyst.catalyst_type c)
        [ "IPO Filing Expected"; "M&A Exit Potential"; "Product Launch Expected" ]%string) /\
  (forall c, next = Some c ->
     In c all /\
     forall c', In c' all -> (Catalyst.estimated_date c <= Catalyst.estimated_date c')%Z) /\
  (next = None <->
   Catalyst.confidence
     (TimingPredictionEngine.predict_ipo_timing now company market_conditions)
   <= 30 # 100 /\
   TimingPredictionEngine.predict_ma_timing now company = None /\
   TimingPredictionEngine.predict_product_launch now company = []).
Proof.
  cbv zeta. unfold TimingPredictionEngine.get_next_catalyst.
  rewrite get_all_catalysts_predicted.
  pose proof (sort_asc_sorted Catalyst.estimated_date
                (predicted now company market_conditions)) as Hsorted.
  pose proof (sort_asc_perm Catalyst.estimated_date
                (predicted now company market_conditions)) as Hperm.
  set (all := Py.sort_asc Catalyst.estimated_date _) in *.
  split; [exact Hsorted |].
  split; [| split; [| split]].
  - rewrite (Permutation_length Hperm). unfold predicted. cbv zeta.
    rewrite !length_app.
    destruct (product_launch_single now company) as [-> | (c & -> & _)];
      destruct (Py.gtb _ _);
      destruct (TimingPredictionEngine.predict_ma_timing now company); simpl; lia.
  - intros c Hc. eapply Permutation_in in Hc; [| exact Hperm].
    unfold predicted in Hc. cbv zeta in Hc.
    apply in_app_or in Hc as [Hc | Hc]; [| apply in_app_or in Hc as [Hc | Hc]].
    + destruct (Py.gtb _ _); [| destruct Hc].
      destruct Hc as [<- | []]. left. reflexivity.
    + destruct (TimingPredictionEngine.predict_ma_timing now company) as [m |] eqn:Em;
        [| destruct Hc].
      destruct Hc as [<- | []]. right. left. symmetry.
      eapply ma_timing_type, Em.
    + destruct (product_launch_single now company) as [E | (l & E & Ht)];
        rewrite E in Hc; [destruct Hc |].
      destruct Hc as [<- | []]. right. right. left. now symmetry.
  - intros c Hnext. destruct all as [| first rest]; [discriminate |].
    injection Hnext as <-. split; [now left |].
    intros c' [<- | Hc']; [lia |].
    inversion Hsorted as [| ? ? _ Hall]; subst.
    rewrite List.Forall_forall in Hall. now apply Hall.
  - assert (Hnil : all = [] <-> predicted now company market_conditions = []).
    { split; intros E.
      - rewrite E in Hperm. now apply Permutation_nil in Hperm.
      - rewrite E in Hperm. symmetry in Hperm. now apply Permutation_nil in Hperm. }
    assert (Hnone : match all with [] => None | catalyst :: _ => Some catalyst end = None
                    <-> all = []).
    { destruct all; split; intros; congruence. }
    rewrite Hnone, Hnil. unfold predicted. cbv zeta. rewrite gtb_ltb.
    destruct (Py.ltb _ _) eqn:E; [apply ltb_true in E | apply ltb_false in E].
    + split; [discriminate | intros [H _]; lra].
    + destruct (TimingPredictionEngine.predict_ma_timing now company);
        [split; [discriminate | intros (_ & H & _); discriminate] |].
      simpl. split; [auto | intros (_ & _ & H); exact H].
Qed.

Section ProductLaunch.
Variable now : Py.datetime.

Lemma fold_sum_lower lo values : forall acc,
  Forall (fun v => lo <= v) values ->
  acc + lo * inject_Z (Z.of_nat (length values)) <= fold_left Qplus values acc.
Proof.
  induction values as [| v l IH]; intros acc H.
  - cbn [fold_left length]. change (inject_Z (Z.of_nat 0)) with 0. lra.
  - inversion H as [| ? ? Hv Hl]; subst.
    pose proof (IH (acc + v) Hl) as IH1.
    cbn [fold_left length]. rewrite count_succ.
    set (n := inject_Z (Z.of_nat (length l))) in *. lra.
Qed.

Lemma fold_sum_upper hi values : forall acc,
  Forall (fun v => v <= hi) values ->
  fold_left Qplus values acc <= acc + hi * inject_Z (Z.of_nat (length values)).
Proof.
  induction values as [| v l IH]; intros acc H.
  - cbn [fold_left length]. change (inject_Z (Z.of_nat 0)) with 0. lra.
  - inversion H as [| ? ? Hv Hl]; subst.
    pose proof (IH (acc + v) Hl) as IH1.
    cbn [fold_left length]. rewrite count_succ.
    set (n := inject_Z (Z.of_nat (length l))) in *. lra.
Qed.

Lemma count_pos {A} (l : list A) : l <> [] -> 0 < inject_Z (Z.of_nat (length l)).
Proof.
  destruct l; [congruence |]. intros _.
  cbn [length]. rewrite count_succ. pose proof (count_nonneg (length l)). lra.
Qed.

(** The average grant day, in microseconds, and what the rounding to a
    timedelta keeps of bounds on the grant dates. *)
Lemma average_day_lower (recent : list PatentGrant.t) (earliest : Z) :
  recent <> [] ->
  Forall (fun p => (earliest <= PatentGrant.grant_date p)%Z) recent ->
  (earliest - TimingPredictionEngine.epoch_1970 - 86400000000
   < Py.round_half_even
       (Py.sum (map (fun p => inject_Z (Py.delta_days (PatentGrant.grant_date p)
                                          TimingPredictionEngine.epoch_1970))
                  recent)
        / inject_Z (Z.of_nat (length recent)) * 86400000000))%Z.
Proof.
  intros Hne Hall.
  set (d := ((earliest - TimingPredictionEngine.epoch_1970) / 86400000000)%Z).
  assert (Hd : (earliest - TimingPredictionEngine.epoch_1970 - 86400000000
                < d * 86400000000)%Z).
  { unfold d.
    pose proof (Z.mod_pos_bound (earliest - TimingPredictionEngine.epoch_1970)
                  86400000000 ltac:(lia)).
    pose proof (Z.div_mod (earliest - TimingPredictionEngine.epoch_1970)
                  86400000000 ltac:(lia)).
    lia. }
  eapply Z.lt_le_trans; [exact Hd |].
  apply round_half_even_lower.
  set (days := map _ recent).
  assert (Hdays : Forall (fun v => inject_Z d <= v) days).
  { unfold days. apply List.Forall_forall. intros v Hv.
    apply in_map_iff in Hv as (p & <- & Hp).
    rewrite List.Forall_forall in Hall. specialize (Hall p Hp).
    rewrite <- Zle_Qle. unfold d, Py.delta_days.
    apply Z.div_le_mono; lia. }
  pose proof (fold_sum_lower _ _ 0 Hdays) as Hsum.
  assert (Hlen : length days = length recent) by (unfold days; apply length_map).
  rewrite Hlen in Hsum.
  pose proof (count_pos recent Hne) as Hn.
  fold (Py.sum days) in Hsum.
  set (n := inject_Z (Z.of_nat (length recent))) in *.
  rewrite inject_Z_mult.
  assert (Hmean : inject_Z d <= Py.sum days / n).
  { apply Qle_shift_div_l; lra. }
  assert (E : inject_Z 86400000000 == 86400000000) by reflexivity.
  rewrite E. apply Qmult_le_compat_r; [exact Hmean | discriminate].
Qed.

Lemma average_day_upper (recent : list PatentGrant.t) (latest : Z) :
  recent <> [] ->
  Forall (fun p => (PatentGrant.grant_date p <= latest)%Z) recent ->
  (Py.round_half_even
     (Py.sum (map (fun p => inject_Z (Py.delta_days (PatentGrant.grant_date p)
                                        TimingPredictionEngine.epoch_1970))
                recent)
      / inject_Z (Z.of_nat (length recent)) * 86400000000)
   <= latest - TimingPredictionEngine.epoch_1970)%Z.
Proof.
  intros Hne Hall.
  set (d := ((latest - TimingPredictionEngine.epoch_1970) / 86400000000)%Z).
  assert (Hd : (d * 86400000000 <= latest - TimingPredictionEngine.epoch_1970)%Z).
  { unfold d.
    pose proof (Z.mod_pos_bound (latest - TimingPredictionEngine.epoch_1970)
                  86400000000 ltac:(lia)).
    pose proof (Z.div_mod (latest - TimingPredictionEngine.epoch_1970)
                  86400000000 ltac:(lia)).
    lia. }
  eapply Z.le_trans; [| exact Hd].
  apply round_half_even_upper.
  set (days := map _ recent).
  assert (Hdays : Forall (fun v => v <= inject_Z d) days).
  { unfold days. apply List.Forall_forall. intros v Hv.
    apply in_map_iff in Hv as (p & <- & Hp).
    rewrite List.Forall_forall in Hall. specialize (Hall p Hp).
    rewrite <- Zle_Qle. unfold d, Py.delta_days.
    apply Z.div_le_mono; lia. }
  pose proof (fold_sum_upper _ _ 0 Hdays) as Hsum.
  assert (Hlen : length days = length recent) by (unfold days; apply length_map).
  rewrite Hlen in Hsum.
  pose proof (count_pos recent Hne) as Hn.
  fold (Py.sum days) in Hsum.
  set (n := inject_Z (Z.of_nat (length recent))) in *.
  rewrite inject_Z_mult.
  assert (Hmean : Py.sum days / n <= inject_Z d).
  { apply Qle_shift_div_r; lra. }
  assert (E : inject_Z 86400000000 == 86400000000) by reflexivity.
  rewrite E. apply Qmult_le_compat_r; [exact Hmean | discriminate].
Qed.

End ProductLaunch.

(** X23. predict_product_launch returns no catalyst when the company
    has no patent granted after now - 180 days, and exactly one
    otherwise, with the fixed confidence 0.60 and probabilities 0.70 and
    0.90 however many such patents there are. Its estimated date is 180
    days after the average grant day: later than one day before now,
    and at most 180 days after any date no recent grant exceeds. *)
Theorem product_launch_window (now : Py.datetime) (company : Company.t) :
  let recent :=
    List.filter (fun p => (now - Py.timedelta 180 <? PatentGrant.grant_date p)%Z)
      (Company.patent_grants company) in
  (recent = [] -> TimingPredictionEngine.predict_product_launch now company = []) /\
  (recent <> [] ->
   exists c,
     TimingPredictionEngine.predict_product_launch now company = [c] /\
     Catalyst.confidence c = 60 # 100 /\
     Catalyst.probability_6mo c = 70 # 100 /\
     Catalyst.probability_12mo c = 90 # 100 /\
     (now - Py.timedelta 1 < Catalyst.estimated_date c)%Z /\
     forall latest,
       Forall (fun p => (PatentGrant.grant_date p <= latest)%Z) recent ->
       (Catalyst.estimated_date c <= latest + Py.timedelta 180)%Z).
Proof.
  cbv zeta. unfold TimingPredictionEngine.predict_product_launch.
  destruct (Company.patent_grants company) as [| g grants].
  { split; [reflexivity | intros H; now elim H]. }
  cbv zeta.
  set (recent := List.filter _ (g :: grants)).
  assert (Hrecent : Forall (fun p => (now - Py.timedelta 180 + 1
                                      <= PatentGrant.grant_date p)%Z) recent).
  { apply List.Forall_forall. intros p Hp. apply filter_In in Hp as [_ Hp].
    apply Z.ltb_lt in Hp. lia. }
  clearbody recent.
  destruct recent as [| p recent]; [split; [reflexivity | intros H; now elim H] |].
  split; [discriminate |]. intros Hne.
  eexists. split; [reflexivity |].
  cbn [Catalyst.confidence Catalyst.probability_6mo Catalyst.probability_12mo
       Catalyst.estimated_date].
  split; [reflexivity |]. split; [reflexivity |]. split; [reflexivity |].
  split.
  - pose proof (average_day_lower (p :: recent) _ Hne Hrecent) as H.
    unfold Py.timedelta in *. lia.
  - intros latest Hlatest.
    pose proof (average_day_upper (p :: recent) _ Hne Hlatest) as H.
    unfold Py.timedelta in *. lia.
Qed.

(** X24. An M&A catalyst (6-month probability 0.10, 540 days out) never
    raises a signal: conviction is what it is without a catalyst, the
    time horizon is always "12-24 months (long-term)", the expected
    return is never the top "50-100%" band and the entry timing never
    "Immediate (catalyst within 6 months)". *)
Theorem ma_catalyst_never_boosts
    (now : Py.datetime) (company : Company.t) (c : Catalyst.t)
    (m : MomentumScore.t) (t : MoatScore.t) :
  TimingPredictionEngine.predict_ma_timing now company = Some c ->
  TradeSignalGenerator._calculate_conviction m t (Some c)
  = TradeSignalGenerator._calculate_conviction m t None /\
  TradeSignalGenerator._determine_time_horizon now (Some c)
  = "12-24 months (long-term)"%string /\
  TradeSignalGenerator._estimate_expected_return m t (Some c)
  <> "50-100% (12-18 months)"%string /\
  TradeSignalGenerator._determine_entry_timing m (Some c)
  <> "Immediate (catalyst within 6 months)"%string.
Proof.
  intros Hc. apply ma_timing_type in Hc as (_ & Hp & Hd).
  split; [| split; [| split]].
  - unfold TradeSignalGenerator._calculate_conviction. cbv zeta.
    rewrite Hp. reflexivity.
  - unfold TradeSignalGenerator._determine_time_horizon. cbv zeta.
    rewrite Hd.
    assert (E : Py.delta_days (now + Py.timedelta 540)%Z now = 540%Z).
    { unfold Py.delta_days, Py.timedelta.
      replace (now + 540 * 86400000000 - now)%Z with (540 * 86400000000)%Z by lia.
      now rewrite Z.div_mul. }
    rewrite E. reflexivity.
  - unfold TradeSignalGenerator._estimate_expected_return. cbv zeta.
    rewrite Hp.
    replace (Py.gtb (10 # 100) (60 # 100)) with false by reflexivity.
    rewrite !andb_false_r.
    split_ifs; discriminate.
  - unfold TradeSignalGenerator._determine_entry_timing. cbv zeta.
    rewrite Hp.
    replace (Py.gtb (10 # 100) (50 # 100)) with false by reflexivity.
    rewrite !andb_false_r.
    split_ifs; discriminate.
Qed.

Lemma ma_catalyst_never_boosts_witness :
  exists c,
    TimingPredictionEngine.predict_ma_timing Sample.now Sample.midstage = Some c /\
    TradeSignalGenerator._calculate_conviction
      (Sample.momentum_for Sample.midstage 80 CONFIRMED_MOMENTUM)
      (Sample.moat_for Sample.midstage 60) (Some c)
    = TradeSignalGenerator._calculate_conviction
        (Sample.momentum_for Sample.midstage 80 CONFIRMED_MOMENTUM)
        (Sample.moat_for Sample.midstage 60) None.
Proof.
  eexists. split; [reflexivity |].
  refine (proj1 (ma_catalyst_never_boosts Sample.now Sample.midstage _
                   (Sample.momentum_for Sample.midstage 80 CONFIRMED_MOMENTUM)
                   (Sample.moat_for Sample.midstage 60) _)).
  reflexivity.
Defined.

(** ** The weekly report *)

Section ReportFacts.
Context {Bottleneck : Type}.
Variable bottlenecks : list Bottleneck.
Variable now : Py.datetime.

(** [market_conditions or {...}] *)
Definition effective_conditions (market_conditions : option (gmap string string))
  : gmap string string :=
  match market_conditions with
  | Some conditions =>
      if dict_truthy conditions then conditions
      else TechMomentumArbitrageEngine.default_market_conditions
  | None => TechMomentumArbitrageEngine.default_market_conditions
  end.

Lemma dict_truthy_nonempty {V} (d : gmap string V) : dict_truthy d = true <-> d <> ∅.
Proof.
  unfold dict_truthy. destruct (map_to_list d) eqn:E.
  - apply map_to_list_empty_iff in E. split; [discriminate | congruence].
  - split; [| reflexivity]. intros _ ->. rewrite map_to_list_empty in E. discriminate.
Qed.

Lemma effective_conditions_window market_conditions :
  effective_conditions market_conditions !! "ipo_window"%string = None <->
  exists conditions,
    market_conditions = Some conditions /\ conditions <> ∅ /\
    conditions !! "ipo_window"%string = None.
Proof.
  unfold effective_conditions.
  assert (Hd : TechMomentumArbitrageEngine.default_market_conditions
               !! "ipo_window"%string = Some "open"%string) by (vm_compute; reflexivity).
  destruct market_conditions as [conditions |].
  - destruct (dict_truthy conditions) eqn:E.
    + apply dict_truthy_nonempty in E. split; [eauto |].
      intros (d & [= <-] & _ & H). exact H.
    + rewrite Hd. split; [discriminate |].
      intros (d & [= <-] & Hne & _). apply dict_truthy_nonempty in Hne. congruence.
  - rewrite Hd. split; [discriminate | intros (d & [=] & _)].
Qed.

Lemma momentum_scores_length companies ext :
  length (MomentumScoringEngine.score_companies now companies ext) = length companies.
Proof.
  unfold MomentumScoringEngine.score_companies. cbv zeta.
  now rewrite sort_desc_length, length_map.
Qed.

Lemma moat_scores_length companies industry :
  length (MoatScoringEngine.score_companies now companies industry) = length companies.
Proof.
  unfold MoatScoringEngine.score_companies. cbv zeta.
  now rewrite sort_desc_length, length_map.
Qed.

Lemma report_signals_cases companies conditions :
  (TechMomentumArbitrageEngine.report_signals now companies conditions
   = Py.Raise Py.TypeError /\ Exists unpriced companies)
  \/ (exists signals,
        TechMomentumArbitrageEngine.report_signals now companies conditions
        = Py.Ok signals /\ Forall (fun c => ~ unpriced c) companies).
Proof.
  unfold TechMomentumArbitrageEngine.report_signals. cbv zeta.
  unfold TradeSignalGenerator.generate_signals.
  destruct (collect_signals_cases now
              (MomentumScoringEngine.score_companies now companies ∅)
              (MoatScoringEngine.score_companies now companies ∅)
              (TechMomentumArbitrageEngine.predict_catalysts now companies conditions)
              companies 0%nat)
    as [[-> He] | (signals & -> & Hf)]; simpl.
  - rewrite momentum_scores_length. lia.
  - rewrite moat_scores_length. lia.
  - left. auto.
  - right. eauto.
Qed.

Lemma unpriced_exclusive companies :
  Exists unpriced companies -> Forall (fun c => ~ unpriced c) companies -> False.
Proof.
  intros He Hf. apply List.Exists_exists in He as (c & Hc & Hu).
  rewrite List.Forall_forall in Hf. exact (Hf c Hc Hu).
Qed.

Lemma momentum_scores_nil companies ext :
  MomentumScoringEngine.score_companies now companies ext = [] <-> companies = [].
Proof.
  pose proof (momentum_scores_length companies ext) as H.
  split; intros E.
  - rewrite E in H. destruct companies; [reflexivity | discriminate].
  - subst companies. reflexivity.
Qed.

(** The report as a function of the signals, once they are there. *)
Lemma generate_weekly_report_cases companies market_conditions :
  let outcome :=
    TechMomentumArbitrageEngine.generate_weekly_report bottlenecks now companies
      market_conditions in
  let conditions := effective_conditions market_conditions in
  (outcome = Py.Throw (Py.Earlier Py.TypeError) /\ Exists unpriced companies)
  \/ (Forall (fun c => ~ unpriced c) companies /\
      ((outcome = Py.Throw Py.ZeroDivisionError /\ companies = [])
       \/ (companies <> [] /\
           ((outcome = Py.Throw Py.KeyError /\
             conditions !! "ipo_window"%string = None)
            \/ (exists report, outcome = Py.Return report /\
                  is_Some (conditions !! "ipo_window"%string)))))).
Proof.
  cbv zeta. unfold TechMomentumArbitrageEngine.generate_weekly_report. cbv zeta.
  fold (effective_conditions market_conditions).
  destruct (report_signals_cases companies (effective_conditions market_conditions))
    as [[-> He] | (signals & -> & Hf)].
  - left. auto.
  - right. split; [exact Hf |].
    destruct (MomentumScoringEngine.score_companies now companies ∅) as [| m ms] eqn:Em.
    + left. split; [reflexivity |]. now apply momentum_scores_nil in Em.
    + right. split.
      { intros E. apply (momentum_scores_nil companies ∅) in E. congruence. }
      destruct (effective_conditions market_conditions !! "ipo_window"%string)
        as [window |]; [right | left]; eauto.
Qed.

End ReportFacts.

(** X25. What generate_weekly_report does, case by case. An empty
    company list always ends in ZeroDivisionError (the average momentum
    divides by the number of scores). A company with
    ipo_probability_12mo above 0.50, total_funding above $300M and no
    last_valuation makes it fail with the TypeError of signal generation.
    Otherwise it fails with KeyError exactly when the caller passes a
    non-empty market_conditions without the key "ipo_window", and
    returns a report in every other case. *)
Theorem weekly_report_outcome
    {Bottleneck : Type} (bottlenecks : list Bottleneck)
    (now : Py.datetime) (companies : list Company.t)
    (market_conditions : option (gmap string string)) :
  let outcome :=
    TechMomentumArbitrageEngine.generate_weekly_report bottlenecks now companies
      market_conditions in
  (forall e, outcome = Py.Throw (Py.Earlier e)
             <-> e = Py.TypeError /\ Exists unpriced companies) /\
  (outcome = Py.Throw Py.ZeroDivisionError <-> companies = []) /\
  (outcome = Py.Throw Py.KeyError <->
   companies <> [] /\ Forall (fun c => ~ unpriced c) companies /\
   exists conditions,
     market_conditions = Some conditions /\ conditions <> ∅ /\
     conditions !! "ipo_window"%string = None) /\
  ((exists report, outcome = Py.Return report) <->
   companies <> [] /\ Forall (fun c => ~ unpriced c) companies /\
   forall conditions,
     market_conditions = Some conditions -> conditions <> ∅ ->
     is_Some (conditions !! "ipo_window"%string)).
Proof.
  cbv zeta.
  pose proof (effective_conditions_window market_conditions) as Hwin.
  assert (Hsome : is_Some (effective_conditions market_conditions !! "ipo_window"%string)
                  <-> forall conditions,
                        market_conditions = Some conditions -> conditions <> ∅ ->
                        is_Some (conditions !! "ipo_window"%string)).
  { rewrite <- not_eq_None_Some, Hwin. split.
    - intros Hn conditions E Hne.
      destruct (conditions !! "ipo_window"%string) eqn:El; [eauto |].
      elim Hn. eauto.
    - intros Hall (conditions & E & Hne & El).
      destruct (Hall conditions E Hne) as [w Hw]. congruence. }
  destruct (generate_weekly_report_cases bottlenecks now companies market_conditions)
    as [[-> He] | [Hf [[-> ->] | [Hne [[-> Hk] | (report & -> & Hk)]]]]].
  - assert (Hne : companies <> []) by (intros ->; inversion He).
    split; [| split; [| split]].
    + intros e. split; [intros [= <-]; auto | intros [-> _]; reflexivity].
    + split; [discriminate | congruence].
    + split; [discriminate |].
      intros (_ & Hf & _). exfalso. eapply unpriced_exclusive; eassumption.
    + split; [intros [r Hr]; discriminate |].
      intros (_ & Hf & _). exfalso. eapply unpriced_exclusive; eassumption.
  - split; [| split; [| split]].
    + intros e. split; [discriminate | intros [_ He]; inversion He].
    + tauto.
    + split; [discriminate | intros [H _]; congruence].
    + split; [intros [r Hr]; discriminate | intros [H _]; congruence].
  - split; [| split; [| split]].
    + intros e. split; [discriminate |].
      intros [_ He]. exfalso. eapply unpriced_exclusive; eassumption.
    + split; [discriminate | congruence].
    + split; [| reflexivity]. intros _. rewrite <- Hwin. auto.
    + split; [intros [r Hr]; discriminate |].
      intros (_ & _ & Hall). apply Hsome in Hall as [w Hw]. congruence.
  - split; [| split; [| split]].
    + intros e. split; [discriminate |].
      intros [_ He]. exfalso. eapply unpriced_exclusive; eassumption.
    + split; [discriminate | congruence].
    + split; [discriminate |].
      intros (_ & _ & Hex). apply Hwin in Hex. destruct Hk as [w Hw]. congruence.
    + split; [| eauto]. intros _. rewrite <- Hsome. auto.
Qed.

Section ReportContents.
Variable now : Py.datetime.

Lemma in_take {A} (l : list A) : forall k x, In x (take k l) -> In x l.
Proof.
  induction l as [| y l IH]; intros [| k] x H; simpl in H; try contradiction.
  destruct H as [<- | H]; [now left | right; eapply IH, H].
Qed.

Lemma generate_signals_length companies momentum_scores moat_scores catalysts ranked :
  TradeSignalGenerator.generate_signals now companies momentum_scores moat_scores
    catalysts = Py.Ok ranked ->
  length ranked = length companies.
Proof.
  intros H. apply generate_signals_Ok in H as (signals & Ec & ->).
  apply collect_signals_spec in Ec as [Hlen _].
  now rewrite update_ranks_length, sort_desc_length.
Qed.

(** What a generated signal copies from the scores it is given. *)
Lemma generate_signal_scores rank company m t catalyst signal :
  TradeSignalGenerator.generate_signal now rank company m t catalyst = Py.Ok signal ->
  TradeSignal.company signal = Company.name company /\
  TradeSignal.company_id signal = Company.company_id company /\
  TradeSignal.momentum_score signal = MomentumScore.momentum_score m /\
  TradeSignal.hype_score signal = MomentumScore.hype_score m /\
  TradeSignal.build_score signal = MomentumScore.build_score m /\
  TradeSignal.moat_score signal = MoatScore.total_moat_score t /\
  TradeSignal.recommendation signal = TradeSignalGenerator._generate_recommendation m t /\
  TradeSignal.conviction signal = TradeSignalGenerator._calculate_conviction m t catalyst.
Proof.
  unfold TradeSignalGenerator.generate_signal. cbv zeta.
  destruct (TradeSignalGenerator._identify_pre_ipo_access company); simpl;
    [| discriminate].
  intros [= <-]. simpl. repeat split.
Qed.

Lemma scored_momentum_range companies ext m :
  In m (MomentumScoringEngine.score_companies now companies ext) ->
  0 <= MomentumScore.momentum_score m <= 100.
Proof.
  unfold MomentumScoringEngine.score_companies. cbv zeta. intros Hin.
  eapply Permutation_in in Hin; [| apply sort_desc_perm].
  apply in_map_iff in Hin as (company & <- & _).
  unfold MomentumScoringEngine.calculate_momentum_score. cbv zeta.
  cbn [MomentumScore.momentum_score].
  apply composite_range; [apply hype_score_range | apply build_score_range].
Qed.

Lemma scored_flag_without_external_data companies m :
  In m (MomentumScoringEngine.score_companies now companies ∅) ->
  MomentumScore.divergence_flag m = MISPRICED_OPPORTUNITY
  \/ MomentumScore.divergence_flag m = NO_SIGNAL.
Proof.
  unfold MomentumScoringEngine.score_companies. cbv zeta. intros Hin.
  eapply Permutation_in in Hin; [| apply sort_desc_perm].
  apply in_map_iff in Hin as (company & <- & _).
  unfold dict_get. rewrite lookup_empty.
  change (default ExternalData.empty None) with ExternalData.empty.
  pose proof (hype_without_external_data now company) as Hh.
  unfold MomentumScoringEngine.calculate_momentum_score in *. cbv zeta in *.
  cbn [MomentumScore.hype_score MomentumScore.divergence_flag] in *.
  set (h := Utils.weighted_score _ Config.HYPE_WEIGHTS) in *.
  set (b := Utils.weighted_score _ Config.BUILD_WEIGHTS).
  pose proof (detect_divergence_inv h b) as Hinv.
  destruct (MomentumScoringEngine._detect_divergence h b); auto;
    destruct Hinv as [H1 H2]; lra.
Qed.

Lemma recommendation_without_hype m t :
  MomentumScore.divergence_flag m = MISPRICED_OPPORTUNITY
  \/ MomentumScore.divergence_flag m = NO_SIGNAL ->
  In (TradeSignalGenerator._generate_recommendation m t) [BUY; HOLD; SELL].
Proof.
  unfold TradeSignalGenerator._generate_recommendation. cbv zeta.
  intros [-> | ->]; cbn [TradeSignalGenerator.is_flag andb]; split_ifs; simpl; auto.
Qed.

End ReportContents.

(** X26. A report that generate_weekly_report returns counts one signal
    per company; its top ten hold min(10, N) signals, ranked 1, 2, ...
    in order; high_conviction_count lies between 0 and N; at most
    ten second-order plays are kept; the average momentum score lies in
    [0, 100]; the bottleneck list is passed through and the rebalance
    actions are empty. Because the scores are computed without external
    signals, no signal of the report is ever a STRONG_BUY, a FADE or a
    SHORT: every recommendation is BUY, HOLD or SELL. *)
Theorem weekly_report_contents
    {Bottleneck : Type} (bottlenecks : list Bottleneck)
    (now : Py.datetime) (companies : list Company.t)
    (market_conditions : option (gmap string string))
    (report : WeeklyAlphaReport.t Bottleneck) :
  TechMomentumArbitrageEngine.generate_weekly_report bottlenecks now companies
    market_conditions = Py.Return report ->
  let n := length companies in
  WeeklyAlphaReport.signals_generated report = Z.of_nat n /\
  length (WeeklyAlphaReport.top_10_momentum_plays report) = Nat.min 10 n /\
  map TradeSignal.rank (WeeklyAlphaReport.top_10_momentum_plays report)
  = map Z.of_nat (seq 1 (Nat.min 10 n)) /\
  (0 <= WeeklyAlphaReport.high_conviction_count report <= Z.of_nat n)%Z /\
  (length (WeeklyAlphaReport.second_order_plays report) <= 10)%nat /\
  0 <= WeeklyAlphaReport.average_momentum_score report <= 100 /\
  WeeklyAlphaReport.emerging_bottlenecks report = bottlenecks /\
  WeeklyAlphaReport.portfolio_rebalance_actions report = [] /\
  Forall (fun s => In (TradeSignal.recommendation s) [BUY; HOLD; SELL])
    (WeeklyAlphaReport.top_10_momentum_plays report).
Proof.
  intros H. cbv zeta.
  unfold TechMomentumArbitrageEngine.generate_weekly_report in H. cbv zeta in H.
  fold (effective_conditions market_conditions) in H.
  destruct (TechMomentumArbitrageEngine.report_signals now companies _)
    as [signals | e] eqn:Er; [| discriminate].
  pose proof (scored_momentum_range now companies ∅) as Hrange.
  pose proof (scored_flag_without_external_data now companies) as Hflag.
  unfold TechMomentumArbitrageEngine.report_signals in Er. cbv zeta in Er.
  pose proof (generate_signals_length _ _ _ _ _ _ Er) as Hlen.
  pose proof (ranked_ranks _ _ _ _ _ _ Er) as Hranks.
  pose proof (ranked_signal_origin _ _ _ _ _ _ Er) as Horigin.
  clear Er.
  destruct (MomentumScoringEngine.score_companies now companies ∅) as [| m ms] eqn:Em;
    [discriminate |].
  destruct (effective_conditions market_conditions !! "ipo_window"%string)
    as [window |]; [| discriminate].
  injection H as <-.
  cbn [WeeklyAlphaReport.signals_generated WeeklyAlphaReport.top_10_momentum_plays
       WeeklyAlphaReport.high_conviction_count WeeklyAlphaReport.second_order_plays
       WeeklyAlphaReport.average_momentum_score WeeklyAlphaReport.emerging_bottlenecks
       WeeklyAlphaReport.portfolio_rebalance_actions].
  assert (Htop : Py.slice_to signals 10 = take (Nat.min 10 (length companies)) signals).
  { unfold Py.slice_to, Py.slice_index. cbv zeta. rewrite <- Hlen.
    change (10 <? 0)%Z with false. cbv iota.
    replace (Z.to_nat (Z.min 10 (Z.of_nat (length signals))))
      with (Nat.min 10 (length signals)) by lia.
    reflexivity. }
  split; [now rewrite Hlen |].
  split; [rewrite Htop, length_take; lia |].
  split.
  { rewrite Htop, <- firstn_map, Hranks, firstn_map. f_equal.
    change (take (Nat.min 10 (length companies)) (seq 1 (length signals))
            = seq 1 (Nat.min 10 (length companies))).
    rewrite take_seq. f_equal. lia. }
  split.
  { pose proof (List.filter_length_le
                  (fun s => Py.geb (TradeSignal.conviction s) (70 # 100)) signals).
    lia. }
  split.
  { destruct (slice_to_length
                (SecondOrderArbitrageEngine.find_second_order_plays now
                   SecondOrderArbitrageEngine.generate_mock_correlations (m :: ms))
                10) as [Hs _].
    rewrite Hs by lia. lia. }
  split.
  { assert (Hwithin : within 0 100 (map MomentumScore.momentum_score (m :: ms))).
    { apply List.Forall_forall. intros v Hv.
      apply in_map_iff in Hv as (s & <- & Hs). now apply Hrange. }
    assert (Hne : map MomentumScore.momentum_score (m :: ms) <> []) by discriminate.
    pose proof (mean_within 0 100 _ Hne Hwithin) as Hmean.
    rewrite length_map in Hmean. exact Hmean. }
  split; [reflexivity |]. split; [reflexivity |].
  apply List.Forall_forall. intros s Hs.
  rewrite Htop in Hs. apply in_take in Hs.
  destruct (Horigin s Hs) as (i & company & m' & t & signal & _ & Hm & _ & Hg & Eu).
  apply generate_signal_scores in Hg as (_ & _ & _ & _ & _ & _ & Hrec & _).
  assert (Es : TradeSignal.recommendation s = TradeSignal.recommendation signal).
  { change (TradeSignal.recommendation (unranked s)
            = TradeSignal.recommendation (unranked signal)).
    now rewrite Eu. }
  rewrite Es, Hrec. apply recommendation_without_hype, Hflag.
  eapply list_elem_of_In, list_elem_of_lookup_2, Hm.
Qed.

Lemma weekly_report_contents_witness :
  exists report : WeeklyAlphaReport.t unit,
    TechMomentumArbitrageEngine.generate_weekly_report [] Sample.now
      [Sample.seedling; Sample.flagship] None = Py.Return report /\
    WeeklyAlphaReport.signals_generated report = 2%Z /\
    map TradeSignal.rank (WeeklyAlphaReport.top_10_momentum_plays report) = [1; 2]%Z.
Proof.
  destruct (TechMomentumArbitrageEngine.generate_weekly_report ([] : list unit)
              Sample.now [Sample.seedling; Sample.flagship] None)
    as [report | e] eqn:E; [| vm_compute in E; discriminate E].
  exists report. split; [reflexivity |].
  destruct (weekly_report_contents _ _ _ _ _ E) as (H1 & _ & H3 & _).
  split; [exact H1 | exact H3].
Defined.

(** X27. The weekly report hands generate_signals the companies in
    input order together with the two score lists that score_companies
    has sorted by score. The signal named after the i-th company
    therefore carries the momentum, hype and build scores of the i-th
    highest momentum score and the total of the i-th highest moat score,
    and its recommendation is computed from those two, whichever
    companies they were computed for. *)
Theorem weekly_report_pairs_by_position
    (now : Py.datetime) (companies : list Company.t)
    (conditions : gmap string string) (signals : list TradeSignal.t) :
  TechMomentumArbitrageEngine.report_signals now companies conditions = Py.Ok signals ->
  forall i company, companies !! i = Some company ->
    exists s m t,
      In s signals /\
      MomentumScoringEngine.score_companies now companies ∅ !! i = Some m /\
      MoatScoringEngine.score_companies now companies ∅ !! i = Some t /\
      TradeSignal.company s = Company.name company /\
      TradeSignal.company_id s = Company.company_id company /\
      TradeSignal.momentum_score s = MomentumScore.momentum_score m /\
      TradeSignal.hype_score s = MomentumScore.hype_score m /\
      TradeSignal.build_score s = MomentumScore.build_score m /\
      TradeSignal.moat_score s = MoatScore.total_moat_score t /\
      TradeSignal.recommendation s = TradeSignalGenerator._generate_recommendation m t.
Proof.
  intros Er i company Hc.
  unfold TechMomentumArbitrageEngine.report_signals in Er. cbv zeta in Er.
  apply generate_signals_Ok in Er as (collected & Ec & ->).
  apply collect_signals_spec in Ec as [_ Hall].
  destruct (Hall i company Hc) as (m & t & signal & Hm & Ht & Hg & Hsig).
  simpl in Hm, Ht.
  assert (Hin : In (unranked signal)
                  (map unranked
                     (TradeSignalGenerator.update_ranks 0
                        (Py.sort_desc TradeSignal.conviction collected)))).
  { rewrite update_ranks_unranked. apply in_map.
    eapply Permutation_in; [symmetry; apply sort_desc_perm |].
    eapply list_elem_of_In, list_elem_of_lookup_2, Hsig. }
  apply in_map_iff in Hin as (s & Eu & Hin).
  apply generate_signal_scores in Hg as (H1 & H2 & H3 & H4 & H5 & H6 & H7 & _).
  assert (Hfield : forall {B} (f : TradeSignal.t -> B),
            (forall x, f (unranked x) = f x) -> f s = f signal).
  { intros B f Hf. rewrite <- (Hf s), <- (Hf signal). now rewrite Eu. }
  exists s, m, t.
  rewrite (Hfield _ TradeSignal.company), (Hfield _ TradeSignal.company_id),
    (Hfield _ TradeSignal.momentum_score), (Hfield _ TradeSignal.hype_score),
    (Hfield _ TradeSignal.build_score), (Hfield _ TradeSignal.moat_score),
    (Hfield _ TradeSignal.recommendation) by reflexivity.
  repeat match goal with |- _ /\ _ => split end; assumption.
Qed.

Lemma weekly_report_pairs_by_position_witness :
  exists signals s m,
    TechMomentumArbitrageEngine.report_signals Sample.now
      [Sample.seedling; Sample.flagship]
      TechMomentumArbitrageEngine.default_market_conditions = Py.Ok signals /\
    In s signals /\
    TradeSignal.company s = "Seedling Data"%string /\
    MomentumScoringEngine.score_companies Sample.now
      [Sample.seedling; Sample.flagship] ∅ !! 0%nat = Some m /\
    MomentumScore.company_name m = "Flagship Quantum"%string /\
    TradeSignal.momentum_score s = MomentumScore.momentum_score m.
Proof.
  destruct (TechMomentumArbitrageEngine.report_signals Sample.now
              [Sample.seedling; Sample.flagship]
              TechMomentumArbitrageEngine.default_market_conditions)
    as [signals | e] eqn:E; [| vm_compute in E; discriminate E].
  destruct (weekly_report_pairs_by_position _ _ _ _ E 0%nat Sample.seedling eq_refl)
    as (s & m & t & Hin & Hm & _ & Hname & _ & Hmom & _).
  exists signals, s, m.
  split; [reflexivity |]. split; [exact Hin |]. split; [exact Hname |].
  split; [exact Hm |]. split; [| exact Hmom].
  vm_compute in Hm. injection Hm as <-. reflexivity.
Defined.

(** ** Filters by category *)

Section CategoryFilters.

Lemma recommendation_not_short m t :
  TradeSignalGenerator._generate_recommendation m t <> SHORT.
Proof.
  unfold TradeSignalGenerator._generate_recommendation. cbv zeta.
  split_ifs; discriminate.
Qed.

Lemma recommendation_filters_length signals :
  Forall (fun s => TradeSignal.recommendation s <> SHORT) signals ->
  TradeSignalGenerator.filter_by_recommendation signals SHORT = [] /\
  (length (TradeSignalGenerator.filter_by_recommendation signals STRONG_BUY)
   + length (TradeSignalGenerator.filter_by_recommendation signals BUY)
   + length (TradeSignalGenerator.filter_by_recommendation signals HOLD)
   + length (TradeSignalGenerator.filter_by_recommendation signals SELL)
   + length (TradeSignalGenerator.filter_by_recommendation signals FADE)
   = length signals)%nat.
Proof.
  unfold TradeSignalGenerator.filter_by_recommendation.
  induction 1 as [| s l Hs Hl [IH1 IH2]]; [split; reflexivity |].
  cbn [List.filter length].
  destruct (TradeSignal.recommendation s); try congruence;
    cbn [TradeSignalGenerator.recommendation_eqb length];
    (split; [exact IH1 | lia]).
Qed.

Lemma divergence_filters_length scores :
  Forall (fun s => MomentumScore.divergence_flag s = MISPRICED_OPPORTUNITY
                   \/ MomentumScore.divergence_flag s = NO_SIGNAL) scores ->
  MomentumScoringEngine.filter_by_divergence scores CONFIRMED_MOMENTUM = [] /\
  MomentumScoringEngine.filter_by_divergence scores BUBBLE_RISK = [] /\
  (length (MomentumScoringEngine.filter_by_divergence scores MISPRICED_OPPORTUNITY)
   + length (MomentumScoringEngine.filter_by_divergence scores NO_SIGNAL)
   = length scores)%nat.
Proof.
  unfold MomentumScoringEngine.filter_by_divergence.
  induction 1 as [| s l Hs Hl (IH1 & IH2 & IH3)]; [repeat split |].
  cbn [List.filter length].
  destruct Hs as [-> | ->];
    cbn [MomentumScoringEngine.flag_eqb length];
    (split; [exact IH1 | split; [exact IH2 | lia]]).
Qed.

End CategoryFilters.

(** X28. Whatever generate_signals returned, filter_by_recommendation
    finds no SHORT signal in it, and the signals it finds for
    STRONG_BUY, BUY, HOLD, SELL and FADE add up to the whole list. *)
Theorem recommendation_filters_partition
    (now : Py.datetime) (companies : list Company.t)
    (momentum_scores : list MomentumScore.t) (moat_scores : list MoatScore.t)
    (catalysts : gmap string Catalyst.t) (ranked : list TradeSignal.t) :
  TradeSignalGenerator.generate_signals now companies momentum_scores moat_scores
    catalysts = Py.Ok ranked ->
  TradeSignalGenerator.filter_by_recommendation ranked SHORT = [] /\
  (length (TradeSignalGenerator.filter_by_recommendation ranked STRONG_BUY)
   + length (TradeSignalGenerator.filter_by_recommendation ranked BUY)
   + length (TradeSignalGenerator.filter_by_recommendation ranked HOLD)
   + length (TradeSignalGenerator.filter_by_recommendation ranked SELL)
   + length (TradeSignalGenerator.filter_by_recommendation ranked FADE)
   = length companies)%nat.
Proof.
  intros Hranked.
  rewrite <- (generate_signals_length _ _ _ _ _ _ Hranked).
  apply recommendation_filters_length.
  apply List.Forall_forall. intros s Hs.
  destruct (ranked_signal_origin _ _ _ _ _ _ Hranked s Hs)
    as (i & company & m & t & signal & _ & _ & _ & Hg & Eu).
  apply generate_signal_scores in Hg as (_ & _ & _ & _ & _ & _ & Hrec & _).
  assert (Es : TradeSignal.recommendation s = TradeSignal.recommendation signal).
  { change (TradeSignal.recommendation (unranked s)
            = TradeSignal.recommendation (unranked signal)).
    now rewrite Eu. }
  rewrite Es, Hrec. apply recommendation_not_short.
Qed.

Lemma recommendation_filters_partition_witness :
  exists ranked,
    TradeSignalGenerator.generate_signals Sample.now
      [Sample.seedling; Sample.flagship]
      [ Sample.momentum_for Sample.seedling 40 NO_SIGNAL;
        Sample.momentum_for Sample.flagship 80 CONFIRMED_MOMENTUM ]
      [Sample.moat_for Sample.seedling 50; Sample.moat_for Sample.flagship 80]
      ∅ = Py.Ok ranked /\
    TradeSignalGenerator.filter_by_recommendation ranked SHORT = [] /\
    length (TradeSignalGenerator.filter_by_recommendation ranked STRONG_BUY) = 1%nat.
Proof.
  destruct (TradeSignalGenerator.generate_signals Sample.now
              [Sample.seedling; Sample.flagship]
              [ Sample.momentum_for Sample.seedling 40 NO_SIGNAL;
                Sample.momentum_for Sample.flagship 80 CONFIRMED_MOMENTUM ]
              [Sample.moat_for Sample.seedling 50; Sample.moat_for Sample.flagship 80]
              ∅) as [ranked | e] eqn:E; [| vm_compute in E; discriminate E].
  exists ranked. split; [reflexivity |].
  split; [exact (proj1 (recommendation_filters_partition _ _ _ _ _ _ E)) |].
  vm_compute in E. injection E as <-. reflexivity.
Defined.

(** X29. On scores computed without external data, filter_by_divergence
    finds nothing for CONFIRMED_MOMENTUM and nothing for BUBBLE_RISK: the
    scores it finds for MISPRICED_OPPORTUNITY and NO_SIGNAL are all of
    them. *)
Theorem divergence_filters_without_external_data
    (now : Py.datetime) (companies : list Company.t) :
  let scores := MomentumScoringEngine.score_companies now companies ∅ in
  MomentumScoringEngine.filter_by_divergence scores CONFIRMED_MOMENTUM = [] /\
  MomentumScoringEngine.filter_by_divergence scores BUBBLE_RISK = [] /\
  (length (MomentumScoringEngine.filter_by_divergence scores MISPRICED_OPPORTUNITY)
   + length (MomentumScoringEngine.filter_by_divergence scores NO_SIGNAL)
   = length companies)%nat.
Proof.
  cbv zeta. rewrite <- (momentum_scores_length now companies ∅).
  apply divergence_filters_length.
  apply List.Forall_forall. intros s Hs.
  eapply scored_flag_without_external_data, Hs.
Qed.
